(** * ChatTextArea: the mention-aware chat input of cline's webview

    A shallow embedding of [webview-ui/src/components/ChatTextArea.tsx]:
    the component's React state, its event handlers ([handleMentionSelect],
    [handleKeyDown], [handleInputChange], [handleBlur], [handlePaste], ...)
    and the effects that run after a render.

    Conventions.
    - A JavaScript string is the list of its UTF-16 code units ([jsstring]);
      offsets and lengths are in code units, as in JavaScript.
    - A JavaScript number that holds an offset or an index is a [Z]
      (the handlers produce [-1] and read [cursorPosition - 1]).
    - A handler closes over the values of the render it was created in and
      writes through state setters; it is a function of the closure's state
      that transforms the pending state and records the calls it makes on
      the event and on the host ([Call]).
    - The helpers of [../utils/mention-context] and the constant of
      [./ChatView] are imported by the component but are not part of this
      file: the handlers take them as parameters. *)

From Stdlib Require Import List ZArith NArith Lia Bool String Ascii.
Import ListNotations.

Open Scope Z_scope.

Set Default Proof Using "Type".

(** ** JavaScript strings and arrays *)

Module JS.

Definition jsstring := list N.

(** An ASCII literal as a JavaScript string. *)
Definition str (s : string) : jsstring :=
  map N_of_ascii (list_ascii_of_string s).

Definition len {A} (s : list A) : Z := Z.of_nat (List.length s).

(** [a === b] on strings. *)
Fixpoint streq (a b : jsstring) : bool :=
  match a, b with
  | [], [] => true
  | x :: a', y :: b' => N.eqb x y && streq a' b'
  | _, _ => false
  end.

(** [s[i]]: [None] stands for [undefined]. *)
Definition at_ {A} (s : list A) (i : Z) : option A :=
  if i <? 0 then None else nth_error s (Z.to_nat i).

(** Relative index of [slice]: a negative index counts from the end. *)
Definition relIndex (n i : Z) : Z :=
  if i <? 0 then Z.max (n + i) 0 else Z.min i n.

(** [s.slice(a, b)], on strings and on arrays. *)
Definition slice {A} (s : list A) (a b : Z) : list A :=
  let from := relIndex (len s) a in
  let to := relIndex (len s) b in
  firstn (Z.to_nat (to - from)) (skipn (Z.to_nat from) s).

(** [s.slice(a)]. *)
Definition sliceFrom {A} (s : list A) (a : Z) : list A :=
  slice s a (len s).

Fixpoint startsWith (pat s : jsstring) : bool :=
  match pat, s with
  | [], _ => true
  | p :: pat', c :: s' => N.eqb p c && startsWith pat' s'
  | _ :: _, [] => false
  end.

(** Search of [pat] in the suffix [s] that starts at offset [i]. *)
Fixpoint indexOfFrom (pat s : jsstring) (i : Z) : Z :=
  if startsWith pat s then i
  else match s with
       | [] => -1
       | _ :: s' => indexOfFrom pat s' (i + 1)
       end.

(** [s.indexOf(pat, from)]: [from] is clamped to [0 .. length]. *)
Definition indexOf (s pat : jsstring) (from : Z) : Z :=
  let k := Z.min (Z.max from 0) (len s) in
  indexOfFrom pat (skipn (Z.to_nat k) s) k.

(** The last offset [<= limit] at which [pat] occurs in the suffix [s]
    that starts at offset [i]; [acc] is the best offset seen so far. *)
Fixpoint lastIndexOfUpTo (pat s : jsstring) (i limit acc : Z) : Z :=
  let acc' := if (i <=? limit) && startsWith pat s then i else acc in
  match s with
  | [] => acc'
  | _ :: s' => lastIndexOfUpTo pat s' (i + 1) limit acc'
  end.

(** [s.lastIndexOf(pat, from)]; without [from] the search starts at the end.
    A negative [from] is read as [0]. *)
Definition lastIndexOf (s pat : jsstring) (from : option Z) : Z :=
  let limit := match from with
               | None => len s
               | Some f => Z.max f 0
               end in
  lastIndexOfUpTo pat s 0 limit (-1).

(** [s.split(sep)] for a one-unit separator. *)
Fixpoint split (sep : N) (s : jsstring) : list jsstring :=
  match s with
  | [] => [[]]
  | c :: s' =>
      if N.eqb c sep then [] :: split sep s'
      else match split sep s' with
           | [] => [[c]]
           | w :: ws => (c :: w) :: ws
           end
  end.

(** [a.includes(x)] on an array of strings. *)
Definition includes (a : list jsstring) (x : jsstring) : bool :=
  existsb (streq x) a.

(** [a.findIndex(p)]. *)
Fixpoint findIndexFrom {A} (p : A -> bool) (a : list A) (i : Z) : Z :=
  match a with
  | [] => -1
  | x :: a' => if p x then i else findIndexFrom p a' (i + 1)
  end.

Definition findIndex {A} (p : A -> bool) (a : list A) : Z :=
  findIndexFrom p a 0.

(** The remainder operator [%]: the result has the sign of the dividend. *)
Definition rem (a b : Z) : Z := Z.rem a b.

(** *** The character classes of regular expressions *)

(** [\s]: white space and line terminators. *)
Definition isSpace (c : N) : bool :=
  (N.leb 9 c && N.leb c 13) || N.eqb c 32 || N.eqb c 160 || N.eqb c 5760
  || (N.leb 8192 c && N.leb c 8202) || N.eqb c 8232 || N.eqb c 8233
  || N.eqb c 8239 || N.eqb c 8287 || N.eqb c 12288 || N.eqb c 65279.

(** [\w]: ASCII letters, digits and the underscore. *)
Definition isWord (c : N) : bool :=
  (N.leb 48 c && N.leb c 57) || (N.leb 65 c && N.leb c 90)
  || N.eqb c 95 || (N.leb 97 c && N.leb c 122).

Fixpoint takeWhile {A} (p : A -> bool) (s : list A) : list A :=
  match s with
  | [] => []
  | c :: s' => if p c then c :: takeWhile p s' else []
  end.

Fixpoint dropWhile {A} (p : A -> bool) (s : list A) : list A :=
  match s with
  | [] => []
  | c :: s' => if p c then dropWhile p s' else s
  end.

(** [[^\s]+] against the whole of [s]. *)
Definition nonSpaces1 (s : jsstring) : bool :=
  match s with
  | [] => false
  | _ => forallb (fun c => negb (isSpace c)) s
  end.

End JS.

Import JS.

Open Scope Z_scope.

(** ** The data of the component *)

(** The text area element behind [textAreaRef.current]. *)
Module DOM.

Record TextArea := {
  value : jsstring;
  selectionStart : Z;
  selectionEnd : Z
}.

(** [el.setSelectionRange(a, b)]. *)
Definition setSelectionRange (a b : Z) (el : TextArea) : TextArea :=
  {| value := value el; selectionStart := a; selectionEnd := b |}.

(** The element once React has written the controlled [value] to it. *)
Definition withValue (v : jsstring) (el : TextArea) : TextArea :=
  {| value := v; selectionStart := selectionStart el; selectionEnd := selectionEnd el |}.

End DOM.

(** [event.nativeEvent], whose [isComposing] may be missing. *)
Record NativeKeyboardEvent := {
  isComposing : option bool
}.

Record KeyboardEvent := {
  key : jsstring;
  shiftKey : bool;
  nativeEvent : option NativeKeyboardEvent
}.

(** An entry of [searchPaths]. *)
Record SearchPath := {
  pathType : jsstring;
  path : jsstring
}.

(** An entry of the context menu, as [getContextMenuOptions] returns it. *)
Record ContextMenuOption := {
  type : jsstring;
  value : jsstring
}.

(** The array [getContextMenuOptions] returns.  Its elements are objects and
    the handlers compare them with [===], by identity: the array is a list
    of references ([refs]) into the objects of the call ([object]). *)
Record OptionsArray := {
  object : nat -> ContextMenuOption;
  refs : list nat
}.

(** What a file of the clipboard holds once read. *)
Inductive FileReaderOutcome :=
| ReadError
| ReadString (dataUrl : jsstring)
| ReadOther.

(** An entry of [clipboardData.items]: its MIME type and what [getAsFile]
    returns ([None] for [null]), a blob named by a handle. *)
Record DataTransferItem := {
  itemType : jsstring;
  getAsFile : option nat
}.

(** The props, the React state and the ref of [ChatTextArea].  [inputValue],
    [selectedImages] and [shouldDisableImages] are props (the host owns them
    and the component writes the first two through [setInputValue] and
    [setSelectedImages]); [filePaths] comes from the extension state; the
    heights that only serve the layout are left out. *)
Record State := {
  inputValue : jsstring;
  selectedImages : list jsstring;
  shouldDisableImages : bool;
  filePaths : list jsstring;
  isTextAreaFocused : bool;
  showContextMenu : bool;
  cursorPosition : Z;
  searchQuery : jsstring;
  isMouseDownOnMenu : bool;
  selectedMenuIndex : Z;
  selectedType : option jsstring;
  justDeletedSpaceAfterMention : bool;
  intendedCursorPosition : option Z;
  textAreaRef : option DOM.TextArea
}.

(** The calls a handler makes on the event and on the host. *)
Inductive Call :=
| preventDefault
| onSend
| focus
| consoleWarn.

(** *** Handlers

    A handler reads the values of its render from the closure and writes the
    pending state through the setters below. *)
Definition Handler (A : Type) : Type :=
  State * list Call -> A * (State * list Call).

Definition ret {A} (a : A) : Handler A := fun w => (a, w).

Definition bind {A B} (m : Handler A) (k : A -> Handler B) : Handler B :=
  fun w => let (a, w') := m w in k a w'.

Notation "x <- m ;; k" := (bind m (fun x => k))
  (at level 61, m at next level, right associativity).
Notation "m ;; k" := (bind m (fun _ => k))
  (at level 61, right associativity).

Definition modify (f : State -> State) : Handler unit :=
  fun w => (tt, (f (fst w), snd w)).

Definition call (c : Call) : Handler unit :=
  fun w => (tt, (fst w, snd w ++ [c])).

Definition pending : Handler State := fun w => (fst w, w).

(** The state and the calls a handler leaves when it runs in the render
    whose state is [s]. *)
Definition exec (h : State -> Handler unit) (s : State) : State * list Call :=
  snd (h s (s, [])).

Definition setInputValue (v : jsstring) : Handler unit :=
  modify (fun s =>
     {| inputValue := v;
        selectedImages := selectedImages s;
        shouldDisableImages := shouldDisableImages s;
        filePaths := filePaths s;
        isTextAreaFocused := isTextAreaFocused s;
        showContextMenu := showContextMenu s;
        cursorPosition := cursorPosition s;
        searchQuery := searchQuery s;
        isMouseDownOnMenu := isMouseDownOnMenu s;
        selectedMenuIndex := selectedMenuIndex s;
        selectedType := selectedType s;
        justDeletedSpaceAfterMention := justDeletedSpaceAfterMention s;
        intendedCursorPosition := intendedCursorPosition s;
        textAreaRef := textAreaRef s |}).

(** [setSelectedImages(f)]: [f] is an updater of the pending value. *)
Definition setSelectedImages (f : list jsstring -> list jsstring) : Handler unit :=
  modify (fun s =>
     {| inputValue := inputValue s;
        selectedImages := f (selectedImages s);
        shouldDisableImages := shouldDisableImages s;
        filePaths := filePaths s;
        isTextAreaFocused := isTextAreaFocused s;
        showContextMenu := showContextMenu s;
        cursorPosition := cursorPosition s;
        searchQuery := searchQuery s;
        isMouseDownOnMenu := isMouseDownOnMenu s;
        selectedMenuIndex := selectedMenuIndex s;
        selectedType := selectedType s;
        justDeletedSpaceAfterMention := justDeletedSpaceAfterMention s;
        intendedCursorPosition := intendedCursorPosition s;
        textAreaRef := textAreaRef s |}).

Definition setIsTextAreaFocused (v : bool) : Handler unit :=
  modify (fun s =>
     {| inputValue := inputValue s;
        selectedImages := selectedImages s;
        shouldDisableImages := shouldDisableImages s;
        filePaths := filePaths s;
        isTextAreaFocused := v;
        showContextMenu := showContextMenu s;
        cursorPosition := cursorPosition s;
        searchQuery := searchQuery s;
        isMouseDownOnMenu := isMouseDownOnMenu s;
        selectedMenuIndex := selectedMenuIndex s;
        selectedType := selectedType s;
        justDeletedSpaceAfterMention := justDeletedSpaceAfterMention s;
        intendedCursorPosition := intendedCursorPosition s;
        textAreaRef := textAreaRef s |}).

Definition setShowContextMenu (v : bool) : Handler unit :=
  modify (fun s =>
     {| inputValue := inputValue s;
        selectedImages := selectedImages s;
        shouldDisableImages := shouldDisableImages s;
        filePaths := filePaths s;
        isTextAreaFocused := isTextAreaFocused s;
        showContextMenu := v;
        cursorPosition := cursorPosition s;
        searchQuery := searchQuery s;
        isMouseDownOnMenu := isMouseDownOnMenu s;
        selectedMenuIndex := selectedMenuIndex s;
        selectedType := selectedType s;
        justDeletedSpaceAfterMention := justDeletedSpaceAfterMention s;
        intendedCursorPosition := intendedCursorPosition s;
        textAreaRef := textAreaRef s |}).

Definition setCursorPosition (v : Z) : Handler unit :=
  modify (fun s =>
     {| inputValue := inputValue s;
        selectedImages := selectedImages s;
        shouldDisableImages := shouldDisableImages s;
        filePaths := filePaths s;
        isTextAreaFocused := isTextAreaFocused s;
        showContextMenu := showContextMenu s;
        cursorPosition := v;
        searchQuery := searchQuery s;
        isMouseDownOnMenu := isMouseDownOnMenu s;
        selectedMenuIndex := selectedMenuIndex s;
        selectedType := selectedType s;
        justDeletedSpaceAfterMention := justDeletedSpaceAfterMention s;
        intendedCursorPosition := intendedCursorPosition s;
        textAreaRef := textAreaRef s |}).

Definition setSearchQuery (v : jsstring) : Handler unit :=
  modify (fun s =>
     {| inputValue := inputValue s;
        selectedImages := selectedImages s;
        shouldDisableImages := shouldDisableImages s;
        filePaths := filePaths s;
        isTextAreaFocused := isTextAreaFocused s;
        showContextMenu := showContextMenu s;
        cursorPosition := cursorPosition s;
        searchQuery := v;
        isMouseDownOnMenu := isMouseDownOnMenu s;
        selectedMenuIndex := selectedMenuIndex s;
        selectedType := selectedType s;
        justDeletedSpaceAfterMention := justDeletedSpaceAfterMention s;
        intendedCursorPosition := intendedCursorPosition s;
        textAreaRef := textAreaRef s |}).

Definition setIsMouseDownOnMenu (v : bool) : Handler unit :=
  modify (fun s =>
     {| inputValue := inputValue s;
        selectedImages := selectedImages s;
        shouldDisableImages := shouldDisableImages s;
        filePaths := filePaths s;
        isTextAreaFocused := isTextAreaFocused s;
        showContextMenu := showContextMenu s;
        cursorPosition := cursorPosition s;
        searchQuery := searchQuery s;
        isMouseDownOnMenu := v;
        selectedMenuIndex := selectedMenuIndex s;
        selectedType := selectedType s;
        justDeletedSpaceAfterMention := justDeletedSpaceAfterMention s;
        intendedCursorPosition := intendedCursorPosition s;
        textAreaRef := textAreaRef s |}).

(** [setSelectedMenuIndex(f)]: [f] is an updater of the pending value; a
    call with a value [v] is the call with [fun _ => v]. *)
Definition setSelectedMenuIndex (f : Z -> Z) : Handler unit :=
  modify (fun s =>
     {| inputValue := inputValue s;
        selectedImages := selectedImages s;
        shouldDisableImages := shouldDisableImages s;
        filePaths := filePaths s;
        isTextAreaFocused := isTextAreaFocused s;
        showContextMenu := showContextMenu s;
        cursorPosition := cursorPosition s;
        searchQuery := searchQuery s;
        isMouseDownOnMenu := isMouseDownOnMenu s;
        selectedMenuIndex := f (selectedMenuIndex s);
        selectedType := selectedType s;
        justDeletedSpaceAfterMention := justDeletedSpaceAfterMention s;
        intendedCursorPosition := intendedCursorPosition s;
        textAreaRef := textAreaRef s |}).

Definition setSelectedType (v : option jsstring) : Handler unit :=
  modify (fun s =>
     {| inputValue := inputValue s;
        selectedImages := selectedImages s;
        shouldDisableImages := shouldDisableImages s;
        filePaths := filePaths s;
        isTextAreaFocused := isTextAreaFocused s;
        showContextMenu := showContextMenu s;
        cursorPosition := cursorPosition s;
        searchQuery := searchQuery s;
        isMouseDownOnMenu := isMouseDownOnMenu s;
        selectedMenuIndex := selectedMenuIndex s;
        selectedType := v;
        justDeletedSpaceAfterMention := justDeletedSpaceAfterMention s;
        intendedCursorPosition := intendedCursorPosition s;
        textAreaRef := textAreaRef s |}).

Definition setJustDeletedSpaceAfterMention (v : bool) : Handler unit :=
  modify (fun s =>
     {| inputValue := inputValue s;
        selectedImages := selectedImages s;
        shouldDisableImages := shouldDisableImages s;
        filePaths := filePaths s;
        isTextAreaFocused := isTextAreaFocused s;
        showContextMenu := showContextMenu s;
        cursorPosition := cursorPosition s;
        searchQuery := searchQuery s;
        isMouseDownOnMenu := isMouseDownOnMenu s;
        selectedMenuIndex := selectedMenuIndex s;
        selectedType := selectedType s;
        justDeletedSpaceAfterMention := v;
        intendedCursorPosition := intendedCursorPosition s;
        textAreaRef := textAreaRef s |}).

Definition setIntendedCursorPosition (v : option Z) : Handler unit :=
  modify (fun s =>
     {| inputValue := inputValue s;
        selectedImages := selectedImages s;
        shouldDisableImages := shouldDisableImages s;
        filePaths := filePaths s;
        isTextAreaFocused := isTextAreaFocused s;
        showContextMenu := showContextMenu s;
        cursorPosition := cursorPosition s;
        searchQuery := searchQuery s;
        isMouseDownOnMenu := isMouseDownOnMenu s;
        selectedMenuIndex := selectedMenuIndex s;
        selectedType := selectedType s;
        justDeletedSpaceAfterMention := justDeletedSpaceAfterMention s;
        intendedCursorPosition := v;
        textAreaRef := textAreaRef s |}).

Definition setTextAreaRef (v : option DOM.TextArea) : Handler unit :=
  modify (fun s =>
     {| inputValue := inputValue s;
        selectedImages := selectedImages s;
        shouldDisableImages := shouldDisableImages s;
        filePaths := filePaths s;
        isTextAreaFocused := isTextAreaFocused s;
        showContextMenu := showContextMenu s;
        cursorPosition := cursorPosition s;
        searchQuery := searchQuery s;
        isMouseDownOnMenu := isMouseDownOnMenu s;
        selectedMenuIndex := selectedMenuIndex s;
        selectedType := selectedType s;
        justDeletedSpaceAfterMention := justDeletedSpaceAfterMention s;
        intendedCursorPosition := intendedCursorPosition s;
        textAreaRef := v |}).

(** ** The handlers *)

Definition SP : jsstring := str " ".
Definition LF : jsstring := [10%N].
Definition CRLF : jsstring := [13%N; 10%N].

(** [c === s] for [c] a character read with [text[i]]. *)
Definition charIs (c : option N) (s : jsstring) : bool :=
  match c with
  | Some x => streq [x] s
  | None => false
  end.

(** [c === " " || c === "\n" || c === "\r\n"], the test that [handleKeyDown]
    makes on the characters around the cursor. *)
Definition isWhitespace (c : option N) : bool :=
  charIs c SP || charIs c LF || charIs c CRLF.

(** [path.endsWith("/")]. *)
Definition endsWithSlash (p : jsstring) : bool :=
  match rev p with
  | c :: _ => N.eqb c 47
  | [] => false
  end.

(** [searchPaths]: the [problems] entry, then every file path with a leading
    slash, a folder when it ends with a slash. *)
Definition searchPaths (c : State) : list SearchPath :=
  {| pathType := str "problems"; path := str "problems" |}
  :: map (fun path => {| pathType := if endsWithSlash path then str "folder" else str "file";
                         path := path |})
         (map (fun file => str "/" ++ file) (filePaths c)).

(** The body of a mention, [(?:\/|\w+:\/\/)[^\s]+|problems], against the
    whole of [t].  [\w+] can only stop where [:] starts, since [:] is not a
    word character. *)
Definition mentionBody (t : jsstring) : bool :=
  match t with
  | 47%N :: r => nonSpaces1 r
  | _ =>
      let w := takeWhile isWord t in
      let r := dropWhile isWord t in
      match w with
      | [] => false
      | _ => startsWith (str "://") r && nonSpaces1 (skipn 3 r)
      end
  end
  || streq t (str "problems").

(** Whether [/@((?:\/|\w+:\/\/)[^\s]+|problems)$/] matches in [s]: some [@]
    of [s] is followed, up to the end of [s], by the body of a mention. *)
Fixpoint matchMentionAtEnd (s : jsstring) : bool :=
  match s with
  | [] => false
  | c :: t => (N.eqb c 64 && mentionBody t) || matchMentionAtEnd t
  end.

(** [[type, subtype] = item.type.split("/")] followed by
    [type === "image" && acceptedTypes.includes(subtype)]. *)
Definition acceptedTypes : list jsstring := [str "png"; str "jpeg"; str "webp"].

Definition isAcceptedImage (item : DataTransferItem) : bool :=
  let parts := split 47 (itemType item) in
  match at_ parts 0, at_ parts 1 with
  | Some type, Some subtype => streq type (str "image") && includes acceptedTypes subtype
  | _, _ => false
  end.

(** ** The highlight layer

    [updateHighlights] writes to the layer under the text area the text of
    the text area with a trailing newline doubled, the characters that HTML
    reserves escaped, and every mention wrapped in a [mark] element. *)

Definition DQUOTE : jsstring := [34%N].

(** The two parts of the replacement
    [<mark class="mention-context-highlight">$&</mark>] around the match. *)
Definition markOpen : jsstring :=
  str "<mark class=" ++ DQUOTE ++ str "mention-context-highlight" ++ DQUOTE ++ str ">".

Definition markClose : jsstring := str "</mark>".

(** [.replace(/\n$/, "\n\n")]: a newline that ends the text is doubled. *)
Definition doubleFinalNewline (text : jsstring) : jsstring :=
  match rev text with
  | 10%N :: _ => text ++ LF
  | _ => text
  end.

(** The function passed to [.replace(/[<>&]/g, ...)]. *)
Definition escapeChar (c : N) : jsstring :=
  if N.eqb c 60 then str "&lt;"
  else if N.eqb c 62 then str "&gt;"
  else if N.eqb c 38 then str "&amp;"
  else [c].

Definition escapeHTML (text : jsstring) : jsstring :=
  flat_map escapeChar text.

(** The number of units that [[^\s]+] takes at the start of [t]: the
    longest run of units that are no white space. *)
Definition nonSpaceRun (t : jsstring) : nat :=
  List.length (takeWhile (fun c => negb (isSpace c)) t).

(** The length of the match of [(?:\/|\w+:\/\/)[^\s]+|problems\b] at the
    start of [t], the text that follows an [@]; [None] when it does not
    match.  The alternatives are tried in order and the repetitions are
    greedy; [\b] after [problems] holds when no word character follows. *)
Definition mentionLength (t : jsstring) : option nat :=
  let viaProblems :=
    if startsWith (str "problems") t
       && match skipn 8 t with
          | c :: _ => negb (isWord c)
          | [] => true
          end
    then Some 8%nat else None in
  match t with
  | 47%N :: r =>
      match nonSpaceRun r with
      | O => viaProblems
      | S n => Some (S (S n))
      end
  | _ =>
      let w := takeWhile isWord t in
      let r := dropWhile isWord t in
      match w, nonSpaceRun (skipn 3 r) with
      | _ :: _, S n =>
          if startsWith (str "://") r then Some (List.length w + 3 + S n)%nat
          else viaProblems
      | _, _ => viaProblems
      end
  end.

(** [.replace(mentionRegex, '<mark ...>$&</mark>')] with the global flag:
    the text is scanned from the left; a match is replaced by itself between
    the two tags and the scan goes on after the match.  [fuel] bounds the
    number of steps; the length of the text is enough. *)
Fixpoint replaceMentions (fuel : nat) (s : jsstring) : jsstring :=
  match fuel with
  | O => s
  | S fuel' =>
      match s with
      | [] => []
      | c :: t =>
          if N.eqb c 64 then
            match mentionLength t with
            | Some n =>
                markOpen ++ c :: firstn n t ++ markClose
                ++ replaceMentions fuel' (skipn n t)
            | None => c :: replaceMentions fuel' t
            end
          else c :: replaceMentions fuel' t
      end
  end.

(** The markup that [updateHighlights] writes for the text of the text
    area. *)
Definition highlightHTML (text : jsstring) : jsstring :=
  let escaped := escapeHTML (doubleFinalNewline text) in
  replaceMentions (List.length escaped) escaped.


(** ** The helpers of [utils/mention-context]

    The component imports [getContextMenuOptions], [insertMention],
    [removeMention] and [shouldShowContextMenu] from [../utils/mention-context].
    The handlers below take them as parameters; the definitions of this
    module follow the specification's description of them and serve to run
    the handlers on concrete inputs. *)

Module MentionContext.

(** Modelled from the spec: [insertMention] of [utils/mention-context] (the
    Buffer Edit Engine's insertion): it replaces the in-progress [@query]
    span that ends at the cursor, from the last [@] before the cursor, with
    [@insertValue] and a single space; a text with no such span is returned
    unchanged. *)
Definition insertMention (text : jsstring) (position : Z) (value : jsstring) : jsstring :=
  let lastAtIndex := lastIndexOf (slice text 0 position) (str "@") None in
  if lastAtIndex =? -1 then text
  else slice text 0 lastAtIndex ++ str "@" ++ value ++ str " " ++ sliceFrom text position.

(** The offset of the first [@] of [s] (which starts at offset [i]) that is
    followed, up to the end of [s], by the body of a mention: where the match
    of the mention pattern anchored at the end starts. *)
Fixpoint mentionStart (s : jsstring) (i : Z) : option Z :=
  match s with
  | [] => None
  | c :: t => if N.eqb c 64 && mentionBody t then Some i else mentionStart t (i + 1)
  end.

(** Modelled from the spec: [removeMention] of [utils/mention-context] (the
    Buffer Edit Engine's removal): it deletes the whole mention token that
    ends at the cursor and returns the cursor at the start of the token; a
    text with no mention there is returned unchanged, with its cursor. *)
Definition removeMention (text : jsstring) (position : Z) : jsstring * Z :=
  match mentionStart (slice text 0 position) 0 with
  | Some start => (slice text 0 start ++ sliceFrom text position, start)
  | None => (text, position)
  end.

(** Modelled from the spec: [shouldShowContextMenu] of
    [utils/mention-context] (the menu opens when the cursor is immediately
    after an unterminated [@token]): some [@] stands before the cursor and no
    white space stands between the last one and the cursor. *)
Definition shouldShowContextMenu (text : jsstring) (position : Z) : bool :=
  let before := slice text 0 position in
  let lastAtIndex := lastIndexOf before (str "@") None in
  if lastAtIndex =? -1 then false
  else forallb (fun c => negb (isSpace c)) (sliceFrom before (lastAtIndex + 1)).

(** Whether the query parses as a URL, [<scheme>://<non-whitespace>+]. *)
Definition isUrl (query : jsstring) : bool :=
  match takeWhile isWord query with
  | [] => false
  | _ => startsWith (str "://") (dropWhile isWord query)
         && nonSpaces1 (skipn 3 (dropWhile isWord query))
  end.

(** Modelled from the spec: the candidates of [getContextMenuOptions] of
    [utils/mention-context] (the Candidate Provider): one candidate for each
    search path (the [problems] entry among them), kept when its category is
    the selected one, if any, and when its value contains the query; a [url]
    candidate for a query that parses as a URL. *)
Definition candidates (query : jsstring) (selectedType : option jsstring)
  (searchPaths : list SearchPath) : list ContextMenuOption :=
  (if isUrl query then [{| type := str "url"; value := query |}] else [])
  ++ map (fun p => {| type := pathType p; value := path p |})
         (filter (fun p =>
                    match selectedType with
                    | Some t => streq (pathType p) t
                    | None => true
                    end
                    && negb (indexOf (path p) query 0 =? -1))
                 searchPaths).

(** Modelled from the spec: [getContextMenuOptions] of
    [utils/mention-context]: the candidates as an array of fresh objects,
    the object of reference [i] being the candidate [i]. *)
Definition getContextMenuOptions (query : jsstring) (selectedType : option jsstring)
  (searchPaths : list SearchPath) : OptionsArray :=
  let cs := candidates query selectedType searchPaths in
  {| object := fun r => nth r cs {| type := []; value := [] |};
     refs := seq 0 (List.length cs) |}.

(** The part of [toLowerCase] that acts on the letters A to Z. *)
Definition toLowerCase (s : jsstring) : jsstring :=
  map (fun c => if N.leb 65 c && N.leb c 90 then (c + 32)%N else c) s.

(** A reader for which the blob of handle [0] cannot be read and any other
    blob reads as a data URL. *)
Definition readAsDataURL (blob : nat) : FileReaderOutcome :=
  match blob with
  | O => ReadError
  | S _ => ReadString (str "data:image/png;base64,AAAA")
  end.

End MentionContext.

(** ** Sample states *)

Definition emptyTextArea : DOM.TextArea :=
  {| DOM.value := []; DOM.selectionStart := 0; DOM.selectionEnd := 0 |}.

(** The state of a mounted component with an empty input. *)
Definition mounted : State :=
  {| inputValue := [];
     selectedImages := [];
     shouldDisableImages := false;
     filePaths := [str "src/a.ts"];
     isTextAreaFocused := false;
     showContextMenu := false;
     cursorPosition := 0;
     searchQuery := [];
     isMouseDownOnMenu := false;
     selectedMenuIndex := -1;
     selectedType := None;
     justDeletedSpaceAfterMention := false;
     intendedCursorPosition := None;
     textAreaRef := Some emptyTextArea |}.

(** The state in which the input holds [text] with the cursor at [cursor],
    the menu being shown or not, for the query [query]. *)
Definition editing (text : jsstring) (cursor : Z) (menu : bool) (query : jsstring)
  (index : Z) : State :=
  {| inputValue := text;
     selectedImages := [];
     shouldDisableImages := false;
     filePaths := [str "src/a.ts"];
     isTextAreaFocused := true;
     showContextMenu := menu;
     cursorPosition := cursor;
     searchQuery := query;
     isMouseDownOnMenu := false;
     selectedMenuIndex := index;
     selectedType := None;
     justDeletedSpaceAfterMention := false;
     intendedCursorPosition := None;
     textAreaRef := Some {| DOM.value := text;
                            DOM.selectionStart := cursor;
                            DOM.selectionEnd := cursor |} |}.

(** The state [s] once a Backspace has stepped over the separator. *)
Definition afterSeparator (s : State) : State :=
  {| inputValue := inputValue s;
     selectedImages := selectedImages s;
     shouldDisableImages := shouldDisableImages s;
     filePaths := filePaths s;
     isTextAreaFocused := isTextAreaFocused s;
     showContextMenu := showContextMenu s;
     cursorPosition := cursorPosition s;
     searchQuery := searchQuery s;
     isMouseDownOnMenu := isMouseDownOnMenu s;
     selectedMenuIndex := selectedMenuIndex s;
     selectedType := selectedType s;
     justDeletedSpaceAfterMention := true;
     intendedCursorPosition := intendedCursorPosition s;
     textAreaRef := textAreaRef s |}.

(** A clipboard with a PNG, a GIF, a text and a JPEG that cannot be read. *)
Definition clipboard : list DataTransferItem :=
  [ {| itemType := str "image/png"; getAsFile := Some 1%nat |};
    {| itemType := str "image/gif"; getAsFile := Some 2%nat |};
    {| itemType := str "text/plain"; getAsFile := None |};
    {| itemType := str "image/jpeg"; getAsFile := Some 0%nat |} ].

Definition keyEvent (k : string) : KeyboardEvent :=
  {| key := str k; shiftKey := false; nativeEvent := Some {| isComposing := Some false |} |}.

Section ChatTextArea.

(** The imports of the component that live in other files. *)
Variable getContextMenuOptions : jsstring -> option jsstring -> list SearchPath -> OptionsArray.
Variable insertMention : jsstring -> Z -> jsstring -> jsstring.
Variable removeMention : jsstring -> Z -> jsstring * Z.
Variable shouldShowContextMenu : jsstring -> Z -> bool.
Variable MAX_IMAGES_PER_MESSAGE : Z.

(** [String.prototype.toLowerCase], of the JavaScript library. *)
Variable toLowerCase : jsstring -> jsstring.

(** What [FileReader.readAsDataURL] makes of a blob. *)
Variable readAsDataURL : nat -> FileReaderOutcome.

Definition handleMentionSelect (c : State) (type value : jsstring) : Handler unit :=
  if streq value (str "file") || streq value (str "folder") then
    setSelectedType (Some (toLowerCase type)) ;;
    setSearchQuery (str "") ;;
    setSelectedMenuIndex (fun _ => 0)
  else
    setShowContextMenu false ;;
    setSelectedType None ;;
    w <- pending ;;
    match textAreaRef w with
    | Some textArea =>
        let insertValue :=
          if streq type (str "url") then value
          else if streq type (str "file") || streq type (str "folder") then value
          else if streq type (str "problems") then str "problems"
          else value in
        let newValue := insertMention (DOM.value textArea) (cursorPosition c) insertValue in
        setInputValue newValue ;;
        let newCursorPosition := indexOf newValue (str " ") (lastIndexOf newValue (str "@") None) + 1 in
        setCursorPosition newCursorPosition ;;
        setIntendedCursorPosition (Some newCursorPosition) ;;
        call focus
    | None => ret tt
    end.

(** [opt === other], where [other] was read from an array and may be
    [undefined]. *)
Definition sameObject (opt : nat) (other : option nat) : bool :=
  match other with
  | Some o => Nat.eqb opt o
  | None => false
  end.

(** The updater that ArrowUp and ArrowDown pass to [setSelectedMenuIndex]. *)
Definition arrowIndex (c : State) (direction : Z) (prevIndex : Z) : Z :=
  let options := getContextMenuOptions (searchQuery c) (selectedType c) (searchPaths c) in
  let optionsLength := len (refs options) in
  if optionsLength =? 0 then prevIndex
  else
    let selectableOptions :=
      filter (fun opt => negb (streq (type (object options opt)) (str "url")))
             (refs options) in
    if len selectableOptions =? 0 then -1
    else
      let currentSelectableIndex :=
        findIndex (fun opt => sameObject opt (at_ (refs options) prevIndex))
                  selectableOptions in
      let newSelectableIndex :=
        rem (currentSelectableIndex + direction + len selectableOptions)
            (len selectableOptions) in
      findIndex (fun opt => sameObject opt (at_ selectableOptions newSelectableIndex))
                (refs options).

(** [event.nativeEvent?.isComposing ?? false]. *)
Definition composing (event : KeyboardEvent) : bool :=
  match nativeEvent event with
  | Some n => match isComposing n with
              | Some b => b
              | None => false
              end
  | None => false
  end.

(** The Backspace policy of [handleKeyDown]. *)
Definition backspace (c : State) : Handler unit :=
  let charBeforeCursor := at_ (inputValue c) (cursorPosition c - 1) in
  let charAfterCursor := at_ (inputValue c) (cursorPosition c + 1) in
  let charBeforeIsWhitespace := isWhitespace charBeforeCursor in
  let charAfterIsWhitespace := isWhitespace charAfterCursor in
  if charBeforeIsWhitespace
     && matchMentionAtEnd (slice (inputValue c) 0 (cursorPosition c - 1))
  then
    let newCursorPosition := cursorPosition c - 1 in
    (if negb charAfterIsWhitespace then
       call preventDefault ;;
       w <- pending ;;
       setTextAreaRef
         (option_map (DOM.setSelectionRange newCursorPosition newCursorPosition)
                     (textAreaRef w)) ;;
       setCursorPosition newCursorPosition
     else ret tt) ;;
    setCursorPosition newCursorPosition ;;
    setJustDeletedSpaceAfterMention true
  else if justDeletedSpaceAfterMention c then
    let (newText, newPosition) := removeMention (inputValue c) (cursorPosition c) in
    (if negb (streq newText (inputValue c)) then
       call preventDefault ;;
       setInputValue newText ;;
       setIntendedCursorPosition (Some newPosition)
     else ret tt) ;;
    setJustDeletedSpaceAfterMention false ;;
    setShowContextMenu false
  else
    setJustDeletedSpaceAfterMention false.

(** What [handleKeyDown] does once the menu has let the key through. *)
Definition sendOrDelete (c : State) (event : KeyboardEvent) : Handler unit :=
  let isComposing := composing event in
  (if streq (key event) (str "Enter") && negb (shiftKey event) && negb isComposing then
     call preventDefault ;;
     call onSend
   else ret tt) ;;
  (if streq (key event) (str "Backspace") && negb isComposing then backspace c
   else ret tt).

Definition handleKeyDown (c : State) (event : KeyboardEvent) : Handler unit :=
  if showContextMenu c then
    if streq (key event) (str "Escape") then
      setSelectedType None ;;
      setSelectedMenuIndex (fun _ => 3)
    else if streq (key event) (str "ArrowUp") || streq (key event) (str "ArrowDown") then
      call preventDefault ;;
      setSelectedMenuIndex
        (arrowIndex c (if streq (key event) (str "ArrowUp") then -1 else 1))
    else if streq (key event) (str "Enter") && negb (selectedMenuIndex c =? -1) then
      call preventDefault ;;
      let options := getContextMenuOptions (searchQuery c) (selectedType c) (searchPaths c) in
      match at_ (refs options) (selectedMenuIndex c) with
      | Some selected =>
          let selectedOption := object options selected in
          if negb (streq (type selectedOption) (str "url")) then
            handleMentionSelect c (type selectedOption) (value selectedOption)
          else ret tt
      | None => ret tt
      end
    else sendOrDelete c event
  else sendOrDelete c event.

Definition handleInputChange (c : State) (newValue : jsstring) (newCursorPosition : Z)
  : Handler unit :=
  setInputValue newValue ;;
  setCursorPosition newCursorPosition ;;
  let showMenu := shouldShowContextMenu newValue newCursorPosition in
  setShowContextMenu showMenu ;;
  if showMenu then
    let lastAtIndex := lastIndexOf newValue (str "@") (Some (newCursorPosition - 1)) in
    let query := slice newValue (lastAtIndex + 1) newCursorPosition in
    setSearchQuery query ;;
    if 0 <? len query then setSelectedMenuIndex (fun _ => 0)
    else setSelectedMenuIndex (fun _ => 3)
  else
    setSearchQuery (str "") ;;
    setSelectedMenuIndex (fun _ => -1).

Definition handleBlur (c : State) : Handler unit :=
  (if negb (isMouseDownOnMenu c) then setShowContextMenu false else ret tt) ;;
  setIsTextAreaFocused false.

(** The listener that the menu effect puts on the document while the menu is
    shown; [inside] says whether the menu's container is missing or holds
    the target. *)
Definition handleClickOutside (inside : bool) : Handler unit :=
  if negb inside then setShowContextMenu false else ret tt.

Definition handleMenuMouseDown : Handler unit :=
  setIsMouseDownOnMenu true.

Definition updateCursorPosition : Handler unit :=
  w <- pending ;;
  match textAreaRef w with
  | Some textArea => setCursorPosition (DOM.selectionStart textArea)
  | None => ret tt
  end.

Definition handleKeyUp (e : KeyboardEvent) : Handler unit :=
  if includes [str "ArrowLeft"; str "ArrowRight"; str "ArrowUp"; str "ArrowDown";
               str "Home"; str "End"] (key e)
  then updateCursorPosition
  else ret tt.

(** The promise that [handlePaste] makes for one image item: the data URL,
    or [None] for [null] (the [console.error] of a failed read is not
    recorded). *)
Definition readImage (item : DataTransferItem) : option jsstring :=
  match getAsFile item with
  | None => None
  | Some blob =>
      match readAsDataURL blob with
      | ReadString result => Some result
      | ReadError | ReadOther => None
      end
  end.

(** [imageDataArray.filter((dataUrl) => dataUrl !== null)]. *)
Fixpoint nonNull (a : list (option jsstring)) : list jsstring :=
  match a with
  | [] => []
  | Some x :: a' => x :: nonNull a'
  | None :: a' => nonNull a'
  end.

(** [handlePaste].  The closure [c] is the one of the paste; the handler
    waits for every read ([Promise.all] keeps the order of the items) and
    then updates the list of images that is pending at that time. *)
Definition handlePaste (c : State) (items : list DataTransferItem) : Handler unit :=
  let imageItems := filter isAcceptedImage items in
  if negb (shouldDisableImages c) && (0 <? len imageItems) then
    call preventDefault ;;
    let imageDataArray := map readImage imageItems in
    let dataUrls := nonNull imageDataArray in
    if 0 <? len dataUrls then
      setSelectedImages (fun prevImages =>
        slice (prevImages ++ dataUrls) 0 MAX_IMAGES_PER_MESSAGE)
    else call consoleWarn
  else ret tt.

(** ** Renders and effects *)

(** The state a handler leaves, its calls apart. *)
Definition apply (h : Handler unit) (s : State) : State :=
  fst (snd (h (s, []))).

(** React writes the controlled [value] to the element. *)
Definition render (s : State) : State :=
  apply (setTextAreaRef (option_map (DOM.withValue (inputValue s)) (textAreaRef s))) s.

Definition sameCursorTarget (a b : option Z) : bool :=
  match a, b with
  | Some x, Some y => x =? y
  | None, None => true
  | _, _ => false
  end.

(** [useLayoutEffect(..., [inputValue, intendedCursorPosition])]: the
    deferred cursor is applied to the element and cleared. *)
Definition cursorEffect (prev s : State) : State :=
  if streq (inputValue prev) (inputValue s)
     && sameCursorTarget (intendedCursorPosition prev) (intendedCursorPosition s)
  then s
  else
    match intendedCursorPosition s, textAreaRef s with
    | Some p, Some textArea =>
        apply (setTextAreaRef (Some (DOM.setSelectionRange p p textArea)) ;;
               setIntendedCursorPosition None) s
    | _, _ => s
    end.

(** [useEffect(..., [showContextMenu])]: a hidden menu drops its category. *)
Definition menuEffect (prev s : State) : State :=
  if Bool.eqb (showContextMenu prev) (showContextMenu s) then s
  else if negb (showContextMenu s) then apply (setSelectedType None) s
  else s.

(** The state once the render that follows a handler and the effects of
    that render have run; [prev] is the state of the render before. *)
Definition commit (prev s : State) : State :=
  menuEffect prev (cursorEffect prev (render s)).

(** ** The component as a transition system *)

Inductive Event :=
| KeyDown (e : KeyboardEvent)
| KeyUp (e : KeyboardEvent)
| Change (newValue : jsstring) (selectionStart : Z)
| Select (selectionStart : Z)
| Focus
| Blur
| Paste (items : list DataTransferItem)
| DocumentMouseDown (inside : bool)
| MenuMouseDown
| MenuSelect (type value : jsstring)
| MenuSetSelectedIndex (index : Z)
| HostProps (inputValue : jsstring) (selectedImages : list jsstring)
            (shouldDisableImages : bool) (filePaths : list jsstring).

(** The events of the menu and the document listener exist only while the
    menu is rendered, that is while [showContextMenu] holds. *)
Definition enabled (s : State) (e : Event) : bool :=
  match e with
  | DocumentMouseDown _ | MenuMouseDown | MenuSelect _ _ | MenuSetSelectedIndex _ =>
      showContextMenu s
  | _ => true
  end.

(** The element after the user has edited it or moved its selection. *)
Definition userEdit (v : option jsstring) (sel : Z) : Handler unit :=
  w <- pending ;;
  setTextAreaRef
    (option_map (fun el => {| DOM.value := match v with Some x => x | None => DOM.value el end;
                              DOM.selectionStart := sel;
                              DOM.selectionEnd := sel |})
                (textAreaRef w)).

Definition hostProps (iv : jsstring) (imgs : list jsstring) (dis : bool)
  (paths : list jsstring) (s : State) : State :=
  {| inputValue := iv;
     selectedImages := imgs;
     shouldDisableImages := dis;
     filePaths := paths;
     isTextAreaFocused := isTextAreaFocused s;
     showContextMenu := showContextMenu s;
     cursorPosition := cursorPosition s;
     searchQuery := searchQuery s;
     isMouseDownOnMenu := isMouseDownOnMenu s;
     selectedMenuIndex := selectedMenuIndex s;
     selectedType := selectedType s;
     justDeletedSpaceAfterMention := justDeletedSpaceAfterMention s;
     intendedCursorPosition := intendedCursorPosition s;
     textAreaRef := textAreaRef s |}.

Definition dispatch (e : Event) (c : State) : Handler unit :=
  match e with
  | KeyDown e => handleKeyDown c e
  | KeyUp e => handleKeyUp e
  | Change newValue sel => userEdit (Some newValue) sel ;; handleInputChange c newValue sel
  | Select sel => userEdit None sel ;; updateCursorPosition
  | Focus => setIsTextAreaFocused true
  | Blur => handleBlur c
  | Paste items => handlePaste c items
  | DocumentMouseDown inside => handleClickOutside inside
  | MenuMouseDown => handleMenuMouseDown
  | MenuSelect type value => handleMentionSelect c type value
  | MenuSetSelectedIndex index => setSelectedMenuIndex (fun _ => index)
  | HostProps iv imgs dis paths => modify (hostProps iv imgs dis paths)
  end.

(** One event: its handler, then the render and its effects. *)
Definition step (s : State) (e : Event) : State :=
  commit s (fst (exec (dispatch e) s)).

(** The state of the first render, effects run. *)
Definition initial (s : State) : Prop :=
  isTextAreaFocused s = false /\ showContextMenu s = false /\ cursorPosition s = 0
  /\ searchQuery s = [] /\ isMouseDownOnMenu s = false /\ selectedMenuIndex s = -1
  /\ selectedType s = None /\ justDeletedSpaceAfterMention s = false
  /\ intendedCursorPosition s = None.

Inductive reachable : State -> Prop :=
| reachable_initial s : initial s -> reachable s
| reachable_step s e : reachable s -> enabled s e = true -> reachable (step s e).


(** ** Notions used to state the properties *)

(** The candidates of the menu in the render of [c]. *)
Definition menuOptions (c : State) : OptionsArray :=
  getContextMenuOptions (searchQuery c) (selectedType c) (searchPaths c).

(** A candidate that the arrows can reach: its category is not [url]. *)
Definition isSelectable (options : OptionsArray) (opt : nat) : bool :=
  negb (streq (type (object options opt)) (str "url")).

Definition selectable (options : OptionsArray) : list nat :=
  filter (isSelectable options) (refs options).

(** The state after [n] key presses of [event], each with its render. *)
Definition presses (event : KeyboardEvent) (n : nat) (s : State) : State :=
  Nat.iter n (fun s => step s (KeyDown event)) s.

(** A handler that leaves the category filter as it finds it. *)
Definition keepsCategory {A} (h : Handler A) : Prop :=
  forall w, selectedType (fst (snd (h w))) = selectedType (fst w).

(** A handler that leaves a part of the state as it finds it. *)
Definition preserves {A B} (part : State -> B) (h : Handler A) : Prop :=
  forall w, part (fst (snd (h w))) = part (fst w).

(** A handler that adds no call of [focus]. *)
Definition neverFocuses {A} (h : Handler A) : Prop :=
  forall w, In focus (snd (snd (h w))) -> In focus (snd w).

(** The state in which the key [event] commits a candidate: the menu is
    shown, the key is Enter and the highlighted index designates the
    candidate of reference [r], whose category is not [url]. *)
Definition commitsCandidate (c : State) (event : KeyboardEvent) (r : nat) : Prop :=
  showContextMenu c = true
  /\ key event = str "Enter"
  /\ selectedMenuIndex c <> -1
  /\ at_ (refs (menuOptions c)) (selectedMenuIndex c) = Some r
  /\ type (object (menuOptions c) r) <> str "url".

(** A handler that adds no call of [onSend]. *)
Definition neverSends {A} (h : Handler A) : Prop :=
  forall w, In onSend (snd (snd (h w))) -> In onSend (snd w).

(** The key presses that run the Backspace policy. *)
Definition deletes (e : Event) : bool :=
  match e with
  | KeyDown event => streq (key event) (str "Backspace") && negb (composing event)
  | _ => false
  end.

(** The text area as the state holds it, if mounted. *)
Definition mountedOn (s : State) : bool :=
  match textAreaRef s with
  | Some _ => true
  | None => false
  end.

(** ** Properties *)

(** *** Strings *)

Lemma streq_true_iff (a b : jsstring) : streq a b = true <-> a = b.
Proof.
  revert b; induction a as [|x a IH]; intros [|y b]; simpl; split; try congruence; try easy.
  - intros H. apply andb_true_iff in H as [Hx Hab].
    apply N.eqb_eq in Hx. apply IH in Hab. congruence.
  - intros H. injection H as -> ->. rewrite N.eqb_refl. simpl. now apply IH.
Qed.

Lemma streq_refl (a : jsstring) : streq a a = true.
Proof. now apply streq_true_iff. Qed.

Lemma streq_false_iff (a b : jsstring) : streq a b = false <-> a <> b.
Proof.
  split.
  - intros H E. apply streq_true_iff in E. congruence.
  - intros H. destruct (streq a b) eqn:E; [|reflexivity].
    apply streq_true_iff in E. contradiction.
Qed.

(** Unfolds the handler monad. *)
Ltac run_handler :=
  unfold exec, apply, bind, modify, call, ret, pending,
    setInputValue, setSelectedImages, setIsTextAreaFocused, setShowContextMenu,
    setCursorPosition, setSearchQuery, setIsMouseDownOnMenu, setSelectedMenuIndex,
    setSelectedType, setJustDeletedSpaceAfterMention, setIntendedCursorPosition,
    setTextAreaRef, bind, modify, call, ret, pending; cbn.

(** *** Escape *)

(** C8: with the menu open, Escape clears the category filter and puts the
    highlighted index on slot 3, the default "file" slot; the menu stays
    open, the other state is left as it was and nothing is called on the
    event or the host. *)
Theorem escape_resets_category (c : State) (event : KeyboardEvent) :
  showContextMenu c = true ->
  key event = str "Escape" ->
  let s' := fst (exec (fun c => handleKeyDown c event) c) in
  let calls := snd (exec (fun c => handleKeyDown c event) c) in
  selectedType s' = None /\ selectedMenuIndex s' = 3 /\ showContextMenu s' = true
  /\ inputValue s' = inputValue c /\ cursorPosition s' = cursorPosition c
  /\ searchQuery s' = searchQuery c /\ calls = [].
Proof.
  intros Hmenu Hkey. unfold exec, handleKeyDown. cbv beta zeta. rewrite Hmenu, Hkey.
  run_handler. repeat split; assumption || reflexivity.
Qed.

(** *** Enter with nothing highlighted *)

(** C10: with the menu visible and no candidate highlighted (index -1),
    Enter without Shift and outside a composition commits nothing: the
    handler prevents the default and calls [onSend], and the state, the
    visibility of the menu included, is left as it was. *)
Theorem enter_without_highlight_sends (c : State) (event : KeyboardEvent) :
  showContextMenu c = true ->
  selectedMenuIndex c = -1 ->
  key event = str "Enter" ->
  shiftKey event = false ->
  composing event = false ->
  exec (fun c => handleKeyDown c event) c = (c, [preventDefault; onSend]).
Proof.
  intros Hmenu Hidx Hkey Hshift Hcomp.
  unfold exec, handleKeyDown, sendOrDelete. cbv beta. rewrite Hmenu, Hidx, Hkey, Hshift, Hcomp.
  run_handler. reflexivity.
Qed.

(** *** Selecting a candidate *)

(** The value that [handleMentionSelect] inserts for a candidate. *)
Lemma insertValue_cases (type value : jsstring) :
  (if streq type (str "url") then value
   else if streq type (str "file") || streq type (str "folder") then value
   else if streq type (str "problems") then str "problems"
   else value)
  = if streq type (str "problems") then str "problems" else value.
Proof.
  destruct (streq type (str "url")) eqn:Hu.
  - apply streq_true_iff in Hu. subst. reflexivity.
  - destruct (streq type (str "file")) eqn:Hf.
    + apply streq_true_iff in Hf. subst. reflexivity.
    + destruct (streq type (str "folder")) eqn:Hd; [|reflexivity].
      apply streq_true_iff in Hd. subst. reflexivity.
Qed.

(** C6: selecting a candidate whose value is [file] or [folder] sets the
    category filter to the (lower-cased) category, which is the candidate's
    own value for a category candidate, empties the query, puts the
    highlighted index on 0, and leaves the menu's visibility, the text, the
    cursor and the text area as they were, with no call; selecting any
    other candidate hides the menu, clears the category filter and, on the
    mounted text area, stores the text that [insertMention] returns for the
    candidate's insert value and focuses the text area. *)
Theorem select_category_or_insert (c : State) (type value : jsstring) :
  toLowerCase (str "file") = str "file" ->
  toLowerCase (str "folder") = str "folder" ->
  let s' := fst (exec (fun c => handleMentionSelect c type value) c) in
  let calls := snd (exec (fun c => handleMentionSelect c type value) c) in
  (value = str "file" \/ value = str "folder" ->
     selectedType s' = Some (toLowerCase type)
     /\ (type = value -> selectedType s' = Some value)
     /\ searchQuery s' = str ""
     /\ selectedMenuIndex s' = 0
     /\ showContextMenu s' = showContextMenu c
     /\ inputValue s' = inputValue c
     /\ cursorPosition s' = cursorPosition c
     /\ intendedCursorPosition s' = intendedCursorPosition c
     /\ textAreaRef s' = textAreaRef c
     /\ calls = [])
  /\ (value <> str "file" -> value <> str "folder" ->
      showContextMenu s' = false
      /\ selectedType s' = None
      /\ forall textArea, textAreaRef c = Some textArea ->
           inputValue s'
           = insertMention (DOM.value textArea) (cursorPosition c)
               (if streq type (str "problems") then str "problems" else value)
           /\ calls = [focus]).
Proof.
  intros Hfile Hfolder. unfold exec, handleMentionSelect. cbv beta zeta.
  rewrite !insertValue_cases.
  destruct (streq value (str "file") || streq value (str "folder")) eqn:Hcat.
  - run_handler. split.
    + intros Hv. repeat split; try reflexivity.
      intros ->. destruct Hv as [Hv | Hv]; rewrite Hv; f_equal; assumption.
    + intros Hn1 Hn2. apply orb_true_iff in Hcat as [H | H];
        apply streq_true_iff in H; contradiction.
  - apply orb_false_iff in Hcat as [H1 H2].
    apply streq_false_iff in H1, H2.
    run_handler. destruct (textAreaRef c) as [textArea|] eqn:Hta; run_handler.
    + split; [intros [? | ?]; contradiction|].
      intros _ _. split; [reflexivity|]. split; [reflexivity|].
      intros ? [= <-]. split; reflexivity.
    + split; [intros [? | ?]; contradiction|].
      intros _ _. split; [reflexivity|]. split; [reflexivity|].
      intros ? [=].
Qed.

(** *** Backspace after the separator *)


(** *** Backspace on the separator *)

(** What the Backspace policy does just after a separator that follows a
    mention: the cursor moves before the separator, the flag is set and the
    text is kept; the default is prevented, and the selection of the text
    area moved, exactly when the character at offset [cursorPosition + 1]
    is no white space. *)
Lemma backspace_on_separator (c : State) (event : KeyboardEvent) :
  key event = str "Backspace" ->
  composing event = false ->
  isWhitespace (at_ (inputValue c) (cursorPosition c - 1)) = true ->
  matchMentionAtEnd (slice (inputValue c) 0 (cursorPosition c - 1)) = true ->
  let s' := fst (exec (fun c => handleKeyDown c event) c) in
  let calls := snd (exec (fun c => handleKeyDown c event) c) in
  cursorPosition s' = cursorPosition c - 1
  /\ justDeletedSpaceAfterMention s' = true
  /\ inputValue s' = inputValue c
  /\ showContextMenu s' = showContextMenu c
  /\ calls = if isWhitespace (at_ (inputValue c) (cursorPosition c + 1))
             then [] else [preventDefault].
Proof.
  intros Hkey Hcomp Hws Hmention.
  assert (Hrest : exec (fun c => handleKeyDown c event) c
                  = exec (fun c => backspace c) c).
  { unfold exec, handleKeyDown, sendOrDelete. cbv beta. rewrite Hkey, Hcomp.
    destruct (showContextMenu c); reflexivity. }
  cbv zeta. rewrite Hrest. unfold exec, backspace. cbv beta zeta.
  rewrite Hws, Hmention.
  destruct (isWhitespace (at_ (inputValue c) (cursorPosition c + 1)));
    run_handler; repeat split; reflexivity.
Qed.

(** *** The cursor after an insertion *)

Lemma len_app {A} (a b : list A) : len (a ++ b) = len a + len b.
Proof. unfold len. rewrite length_app. lia. Qed.

Lemma len_cons {A} (x : A) (a : list A) : len (x :: a) = len a + 1.
Proof. unfold len. simpl. lia. Qed.

Lemma len_nonneg {A} (a : list A) : 0 <= len a.
Proof. unfold len. lia. Qed.

(** The search of one code unit skips the units that differ from it. *)
Lemma indexOfFrom_skip (x : N) (m r : jsstring) (i : Z) :
  ~ In x m -> indexOfFrom [x] (m ++ x :: r) i = i + len m.
Proof.
  revert i. induction m as [|y m IH]; intros i Hm.
  - simpl. rewrite N.eqb_refl. unfold len. simpl. lia.
  - simpl. destruct (N.eqb x y) eqn:E.
    + apply N.eqb_eq in E. subst. exfalso. apply Hm. now left.
    + simpl. rewrite IH by (intros H; apply Hm; now right).
      rewrite len_cons. lia.
Qed.

Lemma indexOf_skip (x : N) (a m r : jsstring) :
  ~ In x m -> indexOf (a ++ m ++ x :: r) [x] (len a) = len a + len m.
Proof.
  intros Hm. unfold indexOf.
  pose proof (len_nonneg a). pose proof (len_nonneg (m ++ x :: r)).
  rewrite len_app.
  replace (Z.min (Z.max (len a) 0) (len a + len (m ++ x :: r))) with (len a) by lia.
  unfold len at 1. rewrite Nat2Z.id, skipn_app, skipn_all, Nat.sub_diag. simpl.
  now apply indexOfFrom_skip.
Qed.

(** The backward search of one code unit that the text does not hold. *)
Lemma lastIndexOfUpTo_absent (x : N) (s : jsstring) (i limit acc : Z) :
  ~ In x s -> lastIndexOfUpTo [x] s i limit acc = acc.
Proof.
  revert i acc. induction s as [|y s IH]; intros i acc Hs; simpl.
  - now rewrite andb_false_r.
  - destruct (N.eqb x y) eqn:E.
    + apply N.eqb_eq in E. subst. exfalso. apply Hs. now left.
    + rewrite andb_false_r. apply IH. intros H. apply Hs. now right.
Qed.

(** The backward search of one code unit finds its last occurrence. *)
Lemma lastIndexOfUpTo_last (x : N) (a b : jsstring) (i limit acc : Z) :
  ~ In x b -> i + len a <= limit ->
  lastIndexOfUpTo [x] (a ++ x :: b) i limit acc = i + len a.
Proof.
  revert i acc. induction a as [|y a IH]; intros i acc Hb Hlim.
  - simpl. rewrite N.eqb_refl. unfold len in *. simpl in *.
    replace (i <=? limit) with true by (symmetry; apply Z.leb_le; lia).
    simpl. rewrite lastIndexOfUpTo_absent by assumption. lia.
  - simpl. rewrite len_cons in *. rewrite IH by (assumption || lia). lia.
Qed.

Lemma lastIndexOf_last (x : N) (a b : jsstring) :
  ~ In x b -> lastIndexOf (a ++ x :: b) [x] None = len a.
Proof.
  intros Hb. unfold lastIndexOf.
  rewrite lastIndexOfUpTo_last; [lia | assumption |].
  rewrite len_app, len_cons. pose proof (len_nonneg b). lia.
Qed.

(** A text holds no [x], or it splits at its last [x]. *)
Lemma last_occurrence (x : N) (v : jsstring) :
  ~ In x v \/ exists v1 v2, v = v1 ++ x :: v2 /\ ~ In x v2.
Proof.
  induction v as [|y v IH].
  - left. easy.
  - destruct IH as [Hv | (v1 & v2 & -> & Hv2)].
    + destruct (N.eq_dec x y) as [-> | Hxy].
      * right. exists [], v. split; [reflexivity | assumption].
      * left. intros [H | H]; [congruence | contradiction].
    + right. exists (y :: v1), v2. split; [reflexivity | assumption].
Qed.

Ltac list_assoc :=
  repeat rewrite <- app_assoc; simpl; repeat rewrite <- app_assoc; reflexivity.

(** The placement rule on a text that holds [@token] and a space: when the
    token holds no space and no [@] follows the token's space, the rule
    gives the offset one past that space. *)
Lemma cursor_rule_after_token (pre token rest : jsstring) :
  ~ In 32%N token -> ~ In 64%N rest ->
  let text := pre ++ str "@" ++ token ++ str " " ++ rest in
  indexOf text (str " ") (lastIndexOf text (str "@") None) + 1
  = len pre + 1 + len token + 1.
Proof.
  intros Hsp Hat. cbv zeta. change (str "@") with [64%N]. change (str " ") with [32%N].
  assert (Hrest : ~ In 64%N ([32%N] ++ rest)).
  { intros [H | H]; [discriminate | contradiction]. }
  destruct (last_occurrence 64%N token) as [Hnone | (v1 & v2 & -> & Hv2)].
  - replace (pre ++ [64%N] ++ token ++ [32%N] ++ rest)
      with (pre ++ 64%N :: (token ++ [32%N] ++ rest)) at 2 by reflexivity.
    rewrite lastIndexOf_last.
    + replace (pre ++ [64%N] ++ token ++ [32%N] ++ rest)
        with (pre ++ ([64%N] ++ token) ++ 32%N :: rest)
        by list_assoc.
      rewrite indexOf_skip.
      * unfold len. repeat rewrite length_app. simpl. lia.
      * intros [H | H]; [discriminate | contradiction].
    + intros H. apply in_app_or in H as [H | H]; contradiction.
  - assert (Hv1 : ~ In 32%N v1 /\ ~ In 32%N v2).
    { split; intros H; apply Hsp; apply in_or_app; [now left | right; now right]. }
    destruct Hv1 as [Hv1 Hv2s].
    replace (pre ++ [64%N] ++ (v1 ++ 64%N :: v2) ++ [32%N] ++ rest)
      with ((pre ++ [64%N] ++ v1) ++ 64%N :: (v2 ++ [32%N] ++ rest)) at 2
      by list_assoc.
    rewrite lastIndexOf_last.
    + replace (pre ++ [64%N] ++ (v1 ++ 64%N :: v2) ++ [32%N] ++ rest)
        with ((pre ++ [64%N] ++ v1) ++ (64%N :: v2) ++ 32%N :: rest)
        by list_assoc.
      rewrite indexOf_skip.
      * unfold len. repeat rewrite length_app. simpl. lia.
      * intros [H | H]; [discriminate | contradiction].
    + intros H. apply in_app_or in H as [H | H]; contradiction.
Qed.

(** C1 (amended): when a selection commits on the mounted text area, the
    handler stores the text [insertMention] returns and stores, as the
    cursor and as the deferred cursor target, [indexOf(" ",
    lastIndexOf("@")) + 1] computed over that text; this is the offset one
    past the space that follows the inserted [@]-token whenever the token
    holds no space and the text after that space holds no [@]. *)
Theorem select_places_cursor (c : State) (type value : jsstring) (textArea : DOM.TextArea) :
  value <> str "file" -> value <> str "folder" ->
  textAreaRef c = Some textArea ->
  let insertValue := if streq type (str "problems") then str "problems" else value in
  let newValue := insertMention (DOM.value textArea) (cursorPosition c) insertValue in
  let rule := indexOf newValue (str " ") (lastIndexOf newValue (str "@") None) + 1 in
  let s' := fst (exec (fun c => handleMentionSelect c type value) c) in
  inputValue s' = newValue
  /\ cursorPosition s' = rule
  /\ intendedCursorPosition s' = Some rule
  /\ forall pre rest,
       newValue = pre ++ str "@" ++ insertValue ++ str " " ++ rest ->
       ~ In 32%N insertValue -> ~ In 64%N rest ->
       rule = len pre + 1 + len insertValue + 1.
Proof.
  intros Hfile Hfolder Hta. cbv zeta.
  unfold exec, handleMentionSelect. cbv beta.
  rewrite insertValue_cases.
  apply streq_false_iff in Hfile, Hfolder. rewrite Hfile, Hfolder.
  run_handler. rewrite Hta. run_handler.
  split; [reflexivity|]. split; [reflexivity|]. split; [reflexivity|].
  intros pre rest Hshape Hsp Hat.
  rewrite Hshape. now apply cursor_rule_after_token.
Qed.

(** *** Arrays of objects *)

Lemma at_of_nat {A} (l : list A) (k : nat) : at_ l (Z.of_nat k) = nth_error l k.
Proof.
  unfold at_. replace (Z.of_nat k <? 0) with false by (symmetry; apply Z.ltb_ge; lia).
  now rewrite Nat2Z.id.
Qed.

Lemma at_some {A} (l : list A) (i : Z) (x : A) :
  at_ l i = Some x -> exists k, i = Z.of_nat k /\ nth_error l k = Some x /\ (k < List.length l)%nat.
Proof.
  unfold at_. destruct (i <? 0) eqn:E; [discriminate|].
  apply Z.ltb_ge in E. intros H. exists (Z.to_nat i).
  split; [lia|]. split; [assumption|]. apply nth_error_Some. congruence.
Qed.

Lemma at_in_range {A} (l : list A) (i : Z) :
  0 <= i < len l -> exists x, at_ l i = Some x /\ In x l.
Proof.
  unfold len. intros H. unfold at_.
  replace (i <? 0) with false by (symmetry; apply Z.ltb_ge; lia).
  destruct (nth_error l (Z.to_nat i)) as [x|] eqn:E.
  - exists x. split; [reflexivity|]. eapply nth_error_In; eassumption.
  - apply nth_error_None in E. lia.
Qed.

Lemma sameObject_true (a : nat) (b : option nat) : sameObject a b = true <-> b = Some a.
Proof.
  destruct b as [b|]; simpl; [|split; discriminate].
  rewrite Nat.eqb_eq. split; congruence.
Qed.

Lemma findIndexFrom_none {A} (p : A -> bool) (a : list A) (i : Z) :
  (forall x, In x a -> p x = false) -> findIndexFrom p a i = -1.
Proof.
  revert i. induction a as [|x a IH]; intros i H; simpl; [reflexivity|].
  rewrite (H x) by now left. apply IH. intros y Hy. apply H. now right.
Qed.

Lemma findIndexFrom_first {A} (p : A -> bool) (a : list A) (i : Z) (k : nat) (x : A) :
  nth_error a k = Some x -> p x = true ->
  (forall j y, (j < k)%nat -> nth_error a j = Some y -> p y = false) ->
  findIndexFrom p a i = i + Z.of_nat k.
Proof.
  revert i k. induction a as [|z a IH]; intros i [|k] Hk Hp Hbefore; simpl in *;
    try discriminate.
  - injection Hk as ->. rewrite Hp. lia.
  - assert (Hz : p z = false) by (apply (Hbefore 0%nat z); [lia | reflexivity]).
    assert (Hrest : forall j y, (j < k)%nat -> nth_error a j = Some y -> p y = false).
    { intros j y Hj Hy. apply (Hbefore (S j) y); [lia | exact Hy]. }
    rewrite Hz, (IH (i + 1) k Hk Hp Hrest). lia.
Qed.

Lemma findIndexFrom_some {A} (p : A -> bool) (a : list A) (i : Z) :
  (exists x, In x a /\ p x = true) ->
  exists k x, findIndexFrom p a i = i + Z.of_nat k /\ nth_error a k = Some x /\ p x = true.
Proof.
  revert i. induction a as [|z a IH]; intros i (x & Hin & Hp); [contradiction|].
  simpl. destruct (p z) eqn:Hz.
  - exists 0%nat, z. split; [lia|]. split; [reflexivity | assumption].
  - destruct Hin as [-> | Hin]; [congruence|].
    destruct (IH (i + 1)) as (k & y & Hk & Hy & Hpy); [now exists x|].
    exists (S k), y. split; [lia|]. split; assumption.
Qed.

Lemma findIndexFrom_range {A} (p : A -> bool) (a : list A) (i : Z) :
  findIndexFrom p a i = -1 \/ i <= findIndexFrom p a i < i + len a.
Proof.
  revert i. induction a as [|z a IH]; intros i; simpl; [now left|].
  rewrite len_cons. pose proof (len_nonneg a).
  destruct (p z); [right; lia|].
  destruct (IH (i + 1)) as [-> | IH']; [now left | right; lia].
Qed.

Lemma findIndex_object (l : list nat) (k : nat) (r : nat) :
  NoDup l -> nth_error l k = Some r ->
  findIndex (fun opt => sameObject opt (Some r)) l = Z.of_nat k.
Proof.
  intros Hnd Hk. unfold findIndex.
  rewrite (findIndexFrom_first _ l 0 k r); [lia | assumption | now apply sameObject_true |].
  intros j y Hj Hy. destruct (sameObject y (Some r)) eqn:E; [|reflexivity].
  apply sameObject_true in E. injection E as ->.
  assert (j = k); [|lia].
  apply (proj1 (NoDup_nth_error l) Hnd).
  - apply nth_error_Some. congruence.
  - congruence.
Qed.

Lemma findIndex_member (l : list nat) (r : nat) :
  In r l ->
  exists k, findIndex (fun opt => sameObject opt (Some r)) l = Z.of_nat k
            /\ nth_error l k = Some r.
Proof.
  intros Hin. unfold findIndex.
  destruct (findIndexFrom_some (fun opt => sameObject opt (Some r)) l 0) as (k & x & Hk & Hx & Hp).
  { exists r. split; [assumption | now apply sameObject_true]. }
  apply sameObject_true in Hp. injection Hp as ->.
  exists k. split; [lia | assumption].
Qed.

(** *** The arrows *)

Lemma arrowIndex_unfold (c : State) (direction prevIndex : Z) :
  arrowIndex c direction prevIndex
  = let options := menuOptions c in
    let n := len (selectable options) in
    if len (refs options) =? 0 then prevIndex
    else if n =? 0 then -1
    else findIndex
           (fun opt => sameObject opt
              (at_ (selectable options)
                 (rem (findIndex (fun opt => sameObject opt (at_ (refs options) prevIndex))
                                 (selectable options) + direction + n) n)))
           (refs options).
Proof. reflexivity. Qed.

(** The index that the arrows compute depends on the closure through the
    candidates only. *)
Lemma arrowIndex_same_options (c c' : State) (direction prevIndex : Z) :
  searchQuery c' = searchQuery c -> selectedType c' = selectedType c ->
  filePaths c' = filePaths c ->
  arrowIndex c' direction prevIndex = arrowIndex c direction prevIndex.
Proof.
  intros Hq Ht Hp. rewrite !arrowIndex_unfold. unfold menuOptions, searchPaths.
  now rewrite Hq, Ht, Hp.
Qed.

Lemma selectable_in (options : OptionsArray) (r : nat) :
  In r (selectable options) <-> In r (refs options) /\ isSelectable options r = true.
Proof. apply filter_In. Qed.

Lemma len_zero {A} (l : list A) : (len l =? 0) = true <-> l = [].
Proof.
  rewrite Z.eqb_eq. unfold len. destruct l; simpl; split; lia || congruence.
Qed.

(** The remainder that the arrows take is an offset into the selectable
    candidates. *)
Lemma arrow_rem_range (cur direction n : Z) :
  -1 <= cur -> direction = -1 \/ direction = 1 -> 0 < n ->
  0 <= rem (cur + direction + n) n < n.
Proof.
  intros Hcur Hd Hn. unfold rem.
  destruct (Z.eq_dec (cur + direction + n) (-1)) as [E | E].
  - assert (n = 1) by lia. subst. rewrite E. cbn. lia.
  - rewrite Z.rem_mod_nonneg by lia. apply Z.mod_pos_bound. lia.
Qed.

(** On a list with a candidate that is not [url], the arrows highlight such
    a candidate, wherever the highlight was. *)
Lemma arrowIndex_selectable (c : State) (direction prevIndex : Z) :
  direction = -1 \/ direction = 1 ->
  selectable (menuOptions c) <> [] ->
  exists r, at_ (refs (menuOptions c)) (arrowIndex c direction prevIndex) = Some r
            /\ isSelectable (menuOptions c) r = true.
Proof.
  intros Hd Hsel. rewrite arrowIndex_unfold. cbv zeta.
  set (o := menuOptions c) in *. set (sel := selectable o) in *.
  destruct (len (refs o) =? 0) eqn:Hrefs.
  { apply len_zero in Hrefs. exfalso. apply Hsel. unfold sel, selectable.
    now rewrite Hrefs. }
  destruct (len sel =? 0) eqn:Hn; [apply len_zero in Hn; contradiction|].
  apply Z.eqb_neq in Hn. pose proof (len_nonneg sel) as Hpos.
  set (cur := findIndex _ sel).
  assert (Hcur : -1 <= cur).
  { unfold cur, findIndex.
    destruct (findIndexFrom_range (fun opt => sameObject opt (at_ (refs o) prevIndex)) sel 0);
      lia. }
  destruct (at_in_range sel (rem (cur + direction + len sel) (len sel)))
    as (r & Hr & Hin); [apply arrow_rem_range; lia|].
  rewrite Hr. apply selectable_in in Hin as [Hin Hok].
  destruct (findIndex_member (refs o) r Hin) as (k & -> & Hk).
  exists r. now rewrite at_of_nat.
Qed.

(** With distinct objects, ArrowDown and ArrowUp move the highlight from the
    selectable candidate of rank [k] to the one of rank [k + 1] and [k - 1],
    modulo the number of selectable candidates. *)
Lemma arrowIndex_cycle (c : State) (direction prevIndex : Z) (r : nat) (k : Z) :
  direction = -1 \/ direction = 1 ->
  NoDup (refs (menuOptions c)) ->
  at_ (refs (menuOptions c)) prevIndex = Some r ->
  at_ (selectable (menuOptions c)) k = Some r ->
  exists r',
    at_ (refs (menuOptions c)) (arrowIndex c direction prevIndex) = Some r'
    /\ at_ (selectable (menuOptions c))
           ((k + direction) mod len (selectable (menuOptions c))) = Some r'.
Proof.
  intros Hd Hnd Hp Hk. rewrite arrowIndex_unfold. cbv zeta.
  set (o := menuOptions c) in *. set (sel := selectable o) in *.
  assert (Hnds : NoDup sel) by (apply NoDup_filter; assumption).
  destruct (at_some _ _ _ Hk) as (kn & -> & Hkn & Hlt).
  destruct (at_some _ _ _ Hp) as (pn & -> & Hpn & Hplt).
  assert (Hn : 0 < len sel) by (unfold len; lia).
  replace (len (refs o) =? 0) with false by (symmetry; apply Z.eqb_neq; unfold len; lia).
  replace (len sel =? 0) with false by (symmetry; apply Z.eqb_neq; lia).
  rewrite Hp, (findIndex_object sel kn r Hnds Hkn).
  assert (Hrem : rem (Z.of_nat kn + direction + len sel) (len sel)
                 = (Z.of_nat kn + direction) mod len sel).
  { unfold rem. rewrite Z.rem_mod_nonneg by lia.
    replace (Z.of_nat kn + direction + len sel)
      with (Z.of_nat kn + direction + 1 * len sel) by lia.
    apply Z_mod_plus_full. }
  rewrite Hrem.
  destruct (at_in_range sel ((Z.of_nat kn + direction) mod len sel))
    as (r' & Hr' & Hin); [apply Z.mod_pos_bound; lia|].
  rewrite Hr'. apply selectable_in in Hin as [Hin _].
  destruct (In_nth_error _ _ Hin) as (j & Hj).
  rewrite (findIndex_object (refs o) j r' Hnd Hj), at_of_nat.
  exists r'. split; [assumption | reflexivity].
Qed.

(** What ArrowUp and ArrowDown do while the menu is open. *)
Lemma arrow_key_handler (c : State) (event : KeyboardEvent) (direction : Z) :
  showContextMenu c = true ->
  (key event = str "ArrowUp" /\ direction = -1)
  \/ (key event = str "ArrowDown" /\ direction = 1) ->
  exec (fun c => handleKeyDown c event) c
  = (apply (setSelectedMenuIndex (arrowIndex c direction)) c, [preventDefault]).
Proof.
  intros Hmenu [[Hkey ->] | [Hkey ->]]; unfold exec, handleKeyDown; cbv beta;
    rewrite Hmenu, Hkey; reflexivity.
Qed.

Lemma sameCursorTarget_refl (a : option Z) : sameCursorTarget a a = true.
Proof. destruct a; simpl; [apply Z.eqb_refl | reflexivity]. Qed.

(** What the render and its effects keep of the state a handler leaves. *)
Lemma commit_frame (prev s : State) :
  showContextMenu (commit prev s) = showContextMenu s
  /\ searchQuery (commit prev s) = searchQuery s
  /\ selectedMenuIndex (commit prev s) = selectedMenuIndex s
  /\ filePaths (commit prev s) = filePaths s
  /\ selectedType (commit prev s)
     = if Bool.eqb (showContextMenu prev) (showContextMenu s) then selectedType s
       else if showContextMenu s then selectedType s else None.
Proof.
  unfold commit, menuEffect, cursorEffect, render. run_handler.
  destruct (streq (inputValue prev) (inputValue s)
            && sameCursorTarget (intendedCursorPosition prev) (intendedCursorPosition s));
    [|destruct (intendedCursorPosition s); [destruct (textAreaRef s)|]];
    run_handler;
    destruct (Bool.eqb (showContextMenu prev) (showContextMenu s));
    try destruct (showContextMenu s); run_handler; repeat split; reflexivity.
Qed.

(** An arrow key pressed [n] times: the menu and its candidates stay and the
    highlighted index is the updater iterated [n] times. *)
Lemma presses_arrow (c : State) (event : KeyboardEvent) (direction : Z) (n : nat) :
  showContextMenu c = true ->
  (key event = str "ArrowUp" /\ direction = -1)
  \/ (key event = str "ArrowDown" /\ direction = 1) ->
  showContextMenu (presses event n c) = true
  /\ searchQuery (presses event n c) = searchQuery c
  /\ selectedType (presses event n c) = selectedType c
  /\ filePaths (presses event n c) = filePaths c
  /\ selectedMenuIndex (presses event n c)
     = Nat.iter n (arrowIndex c direction) (selectedMenuIndex c).
Proof.
  intros Hmenu Hkey. induction n as [|n IH]; [repeat split; assumption || reflexivity|].
  destruct IH as (Hshow & Hq & Ht & Hp & Hidx).
  unfold presses in *. rewrite !Nat.iter_succ.
  set (s := Nat.iter n (fun s => step s (KeyDown event)) c) in *.
  unfold step, dispatch. rewrite (arrow_key_handler s event direction Hshow Hkey).
  cbn [fst].
  destruct (commit_frame s (apply (setSelectedMenuIndex (arrowIndex s direction)) s))
    as (H1 & H2 & H3 & H4 & H5).
  rewrite H1, H2, H3, H4, H5. run_handler. rewrite Hshow. cbn.
  repeat split; try assumption.
  rewrite Hidx. now apply arrowIndex_same_options.
Qed.

Lemma at_unique (l : list nat) (i j : Z) (r : nat) :
  NoDup l -> at_ l i = Some r -> at_ l j = Some r -> i = j.
Proof.
  intros Hnd Hi Hj.
  destruct (at_some _ _ _ Hi) as (a & -> & Ha & Hlt).
  destruct (at_some _ _ _ Hj) as (b & -> & Hb & _).
  f_equal. apply (proj1 (NoDup_nth_error l) Hnd); congruence.
Qed.

(** ArrowDown iterated [m] times from the selectable candidate of rank [k]
    highlights the selectable candidate of rank [k + m], modulo their
    number. *)
Lemma arrow_down_iter (c : State) (p : Z) (r : nat) (k : Z) (m : nat) :
  NoDup (refs (menuOptions c)) ->
  at_ (refs (menuOptions c)) p = Some r ->
  at_ (selectable (menuOptions c)) k = Some r ->
  exists r',
    at_ (refs (menuOptions c)) (Nat.iter m (arrowIndex c 1) p) = Some r'
    /\ at_ (selectable (menuOptions c))
           ((k + Z.of_nat m) mod len (selectable (menuOptions c))) = Some r'.
Proof.
  intros Hnd Hp Hk.
  destruct (at_some _ _ _ Hk) as (kn & Hkn & _ & Hlt).
  assert (Hn : 0 < len (selectable (menuOptions c))) by (unfold len; lia).
  induction m as [|m IH].
  - exists r. split; [assumption|]. simpl.
    rewrite Z.add_0_r, Z.mod_small; [assumption | unfold len; lia].
  - destruct IH as (r1 & Hr1 & Hrank).
    rewrite Nat.iter_succ.
    destruct (arrowIndex_cycle c 1 _ r1 _ (or_intror eq_refl) Hnd Hr1 Hrank)
      as (r2 & Hr2 & Hrank2).
    exists r2. split; [assumption|].
    rewrite Z.add_mod_idemp_l in Hrank2 by lia.
    now replace (k + Z.of_nat (S m)) with (k + Z.of_nat m + 1) by lia.
Qed.

(** C4 (amended): while the menu is open, ArrowUp and ArrowDown prevent the
    default and update the highlighted index as follows.  On an empty list
    of candidates the index is left as it was; on a list with [url]
    candidates only it becomes [-1]; otherwise it designates a candidate
    that is not [url].  When the candidates are distinct objects and the
    index designates the selectable candidate of rank [k], the new index
    designates the selectable candidate of rank [k + 1] (ArrowDown) or
    [k - 1] (ArrowUp) modulo the number [N] of selectable candidates, so the
    cycle wraps at both ends, and [N] presses of ArrowDown bring the index
    back to its starting value. *)
Theorem arrows_cycle_selectable (c : State) (event : KeyboardEvent) (direction : Z) :
  showContextMenu c = true ->
  (key event = str "ArrowUp" /\ direction = -1)
  \/ (key event = str "ArrowDown" /\ direction = 1) ->
  let options := menuOptions c in
  let sel := selectable options in
  let s' := fst (exec (fun c => handleKeyDown c event) c) in
  snd (exec (fun c => handleKeyDown c event) c) = [preventDefault]
  /\ (refs options = [] -> selectedMenuIndex s' = selectedMenuIndex c)
  /\ (refs options <> [] -> sel = [] -> selectedMenuIndex s' = -1)
  /\ (sel <> [] ->
      exists r, at_ (refs options) (selectedMenuIndex s') = Some r /\ In r sel)
  /\ (NoDup (refs options) ->
      forall r k,
        at_ (refs options) (selectedMenuIndex c) = Some r ->
        at_ sel k = Some r ->
        exists r', at_ (refs options) (selectedMenuIndex s') = Some r'
                   /\ at_ sel ((k + direction) mod len sel) = Some r')
  /\ (direction = 1 -> NoDup (refs options) ->
      forall r,
        at_ (refs options) (selectedMenuIndex c) = Some r -> In r sel ->
        selectedMenuIndex (presses event (List.length sel) c) = selectedMenuIndex c).
Proof.
  intros Hmenu Hkey. cbv zeta.
  rewrite (arrow_key_handler c event direction Hmenu Hkey).
  assert (Hd : direction = -1 \/ direction = 1) by (destruct Hkey as [[_ ->] | [_ ->]]; auto).
  cbn [fst snd]. run_handler.
  split; [reflexivity|]. split; [|split; [|split; [|split]]].
  - intros Hrefs. rewrite arrowIndex_unfold. cbv zeta.
    now rewrite (proj2 (len_zero _) Hrefs).
  - intros Hrefs Hsel. rewrite arrowIndex_unfold. cbv zeta.
    rewrite (proj2 (len_zero _) Hsel).
    destruct (len (refs (menuOptions c)) =? 0) eqn:E; [|reflexivity].
    apply len_zero in E. contradiction.
  - intros Hsel.
    destruct (arrowIndex_selectable c direction (selectedMenuIndex c) Hd Hsel)
      as (r & Hr & Hok).
    exists r. split; [assumption|]. apply selectable_in. split; [|assumption].
    destruct (at_some _ _ _ Hr) as (j & _ & Hj & _). eapply nth_error_In; eassumption.
  - intros Hnd r k Hp Hk. now apply (arrowIndex_cycle c direction _ r k).
  - intros -> Hnd r Hp Hin.
    destruct (presses_arrow c event 1 (List.length (selectable (menuOptions c))) Hmenu Hkey)
      as (_ & _ & _ & _ & ->).
    destruct (In_nth_error _ _ Hin) as (kn & Hkn).
    assert (Hlt : (kn < List.length (selectable (menuOptions c)))%nat)
      by (apply nth_error_Some; congruence).
    destruct (arrow_down_iter c (selectedMenuIndex c) r (Z.of_nat kn)
                (List.length (selectable (menuOptions c))) Hnd Hp)
      as (r' & Hr' & Hrank); [now rewrite at_of_nat|].
    fold (len (selectable (menuOptions c))) in Hrank.
    replace (Z.of_nat kn + len (selectable (menuOptions c)))
      with (Z.of_nat kn + 1 * len (selectable (menuOptions c))) in Hrank by lia.
    rewrite Z_mod_plus_full, Z.mod_small, at_of_nat in Hrank by (unfold len; lia).
    assert (r' = r) by congruence. subst r'.
    apply (at_unique _ _ _ r Hnd Hr' Hp).
Qed.

Lemma neverFocuses_bind {A B} (m : Handler A) (k : A -> Handler B) :
  neverFocuses m -> (forall a, neverFocuses (k a)) -> neverFocuses (bind m k).
Proof.
  intros Hm Hk w. unfold bind. specialize (Hm w).
  destruct (m w) as [a w']. intros H. apply Hm. now apply (Hk a w').
Qed.

Lemma neverFocuses_if {A} (b : bool) (h1 h2 : Handler A) :
  neverFocuses h1 -> neverFocuses h2 -> neverFocuses (if b then h1 else h2).
Proof. now destruct b. Qed.

Lemma neverFocuses_call (c : Call) : c <> focus -> neverFocuses (call c).
Proof.
  intros Hc w H. cbn in H. apply in_app_or in H as [H | [H | []]]; [exact H | congruence].
Qed.

(** The keys that the menu lets through never focus the text area. *)
Lemma sendOrDelete_neverFocuses (c : State) (event : KeyboardEvent) :
  neverFocuses (sendOrDelete c event).
Proof.
  unfold sendOrDelete, backspace. cbv zeta.
  repeat match goal with
         | |- neverFocuses (bind _ _) => apply neverFocuses_bind; [|intros ?]
         | |- neverFocuses (if _ then _ else _) => apply neverFocuses_if
         | |- neverFocuses (let (_, _) := ?x in _) => destruct x
         | |- neverFocuses (call _) => apply neverFocuses_call; discriminate
         | |- neverFocuses _ => solve [intros w H; exact H]
         end.
Qed.

(** The keys that the menu lets through write the text only when a
    Backspace stores what [removeMention] returns. *)
Lemma sendOrDelete_text (c : State) (event : KeyboardEvent) :
  inputValue (fst (exec (fun c => sendOrDelete c event) c)) = inputValue c
  \/ (key event = str "Backspace"
      /\ inputValue (fst (exec (fun c => sendOrDelete c event) c))
         = fst (removeMention (inputValue c) (cursorPosition c))).
Proof.
  unfold exec, sendOrDelete. cbv beta zeta.
  destruct (streq (key event) (str "Backspace") && negb (composing event)) eqn:Hback.
  - apply andb_true_iff in Hback as [Hkey _]. apply streq_true_iff in Hkey.
    unfold backspace. cbv zeta.
    destruct (isWhitespace (at_ (inputValue c) (cursorPosition c - 1))
              && matchMentionAtEnd (slice (inputValue c) 0 (cursorPosition c - 1))).
    + left.
      destruct (streq (key event) (str "Enter") && negb (shiftKey event)
                && negb (composing event));
        destruct (isWhitespace (at_ (inputValue c) (cursorPosition c + 1)));
        reflexivity.
    + destruct (justDeletedSpaceAfterMention c).
      * destruct (removeMention (inputValue c) (cursorPosition c)) as [newText newPosition].
        cbn [fst snd].
        destruct (streq newText (inputValue c)) eqn:Hsame.
        -- left.
           destruct (streq (key event) (str "Enter") && negb (shiftKey event)
                     && negb (composing event)); reflexivity.
        -- right. split; [exact Hkey|].
           destruct (streq (key event) (str "Enter") && negb (shiftKey event)
                     && negb (composing event)); reflexivity.
      * left.
        destruct (streq (key event) (str "Enter") && negb (shiftKey event)
                  && negb (composing event)); reflexivity.
  - left.
    destruct (streq (key event) (str "Enter") && negb (shiftKey event)
              && negb (composing event)); reflexivity.
Qed.

(** The keys that the menu lets through leave the highlighted index as it
    was. *)
Lemma sendOrDelete_index (c : State) (event : KeyboardEvent) :
  selectedMenuIndex (fst (exec (fun c => sendOrDelete c event) c)) = selectedMenuIndex c.
Proof.
  unfold exec, sendOrDelete, backspace. cbv beta zeta.
  destruct (removeMention (inputValue c) (cursorPosition c)) as [newText newPosition].
  destruct (streq (key event) (str "Enter") && negb (shiftKey event)
            && negb (composing event));
    destruct (streq (key event) (str "Backspace") && negb (composing event));
    try reflexivity;
    (destruct (isWhitespace (at_ (inputValue c) (cursorPosition c - 1))
               && matchMentionAtEnd (slice (inputValue c) 0 (cursorPosition c - 1)));
     [destruct (isWhitespace (at_ (inputValue c) (cursorPosition c + 1))); reflexivity
     |destruct (justDeletedSpaceAfterMention c); [|reflexivity];
      destruct (streq newText (inputValue c)); reflexivity]).
Qed.

(** What a key press is, in every state: the commit of the highlighted
    candidate, which is not [url]; or Escape in the menu; or an arrow in the
    menu; or Enter in the menu on a [url] candidate or on no candidate,
    which only prevents the default; or a key that the menu lets through. *)
Lemma handleKeyDown_cases (c : State) (event : KeyboardEvent) :
  (exists r,
      commitsCandidate c event r
      /\ exec (fun c => handleKeyDown c event) c
         = exec (fun c => call preventDefault ;;
                          handleMentionSelect c (type (object (menuOptions c) r))
                                              (value (object (menuOptions c) r))) c)
  \/ (showContextMenu c = true
      /\ exec (fun c => handleKeyDown c event) c
         = exec (fun c => setSelectedType None ;; setSelectedMenuIndex (fun _ => 3)) c)
  \/ (showContextMenu c = true
      /\ exists direction,
           (direction = -1 \/ direction = 1)
           /\ exec (fun c => handleKeyDown c event) c
              = (apply (setSelectedMenuIndex (arrowIndex c direction)) c, [preventDefault]))
  \/ (showContextMenu c = true
      /\ exec (fun c => handleKeyDown c event) c = (c, [preventDefault]))
  \/ exec (fun c => handleKeyDown c event) c = exec (fun c => sendOrDelete c event) c.
Proof.
  destruct (showContextMenu c) eqn:Hmenu;
    [|do 4 right; unfold exec, handleKeyDown; now rewrite Hmenu].
  destruct (streq (key event) (str "Escape")) eqn:Hesc.
  { right; left. split; [reflexivity|].
    unfold exec, handleKeyDown. now rewrite Hmenu, Hesc. }
  destruct (streq (key event) (str "ArrowUp") || streq (key event) (str "ArrowDown"))
    eqn:Harrow.
  { right; right; left. split; [reflexivity|].
    exists (if streq (key event) (str "ArrowUp") then -1 else 1).
    split; [destruct (streq (key event) (str "ArrowUp")); auto |].
    unfold exec, handleKeyDown. now rewrite Hmenu, Hesc, Harrow. }
  destruct (streq (key event) (str "Enter")) eqn:Hkey;
    [|do 4 right; unfold exec, handleKeyDown; now rewrite Hmenu, Hesc, Harrow, Hkey].
  destruct (selectedMenuIndex c =? -1) eqn:Hidx;
    [do 4 right; unfold exec, handleKeyDown; now rewrite Hmenu, Hesc, Harrow, Hkey, Hidx|].
  destruct (at_ (refs (menuOptions c)) (selectedMenuIndex c)) as [r|] eqn:Hr.
  - destruct (streq (type (object (menuOptions c) r)) (str "url")) eqn:Hurl.
    + right; right; right; left. split; [reflexivity|].
      unfold exec, handleKeyDown. cbv zeta. fold (menuOptions c).
      now rewrite Hmenu, Hesc, Harrow, Hkey, Hidx, Hr, Hurl.
    + left. exists r. split.
      * apply streq_true_iff in Hkey. apply Z.eqb_neq in Hidx.
        apply streq_false_iff in Hurl. repeat split; assumption.
      * unfold exec, handleKeyDown. cbv zeta. fold (menuOptions c).
        now rewrite Hmenu, Hesc, Harrow, Hkey, Hidx, Hr, Hurl.
  - right; right; right; left. split; [reflexivity|].
    unfold exec, handleKeyDown. cbv zeta. fold (menuOptions c).
    now rewrite Hmenu, Hesc, Harrow, Hkey, Hidx, Hr.
Qed.

(** C5: in every state and for every key, a candidate of category [url] is
    never committed by the keyboard.  A key press runs [handleMentionSelect]
    only when the menu is shown, the key is Enter and the highlighted index
    designates a candidate whose category is not [url]; every other key
    press, and every key press while the menu is hidden, whatever the index,
    is Escape or an arrow in the menu, Enter that only prevents the default,
    or a key that the menu lets through; while the menu is hidden no key
    moves the index.  So the text area is focused only by such a commit, and
    the text changes only by such a commit or by a Backspace that stores
    what [removeMention] returns.  With the menu shown, Enter on a
    highlighted candidate commits it when its category is not [url] and does
    nothing more when its category is [url] or when the index designates no
    candidate; and an arrow key, on a list that holds a candidate that is
    not [url], makes such a candidate the highlighted one. *)
Theorem url_not_committed_by_keyboard (c : State) (event : KeyboardEvent) :
  let options := menuOptions c in
  let run := exec (fun c => handleKeyDown c event) c in
  ((exists r,
       commitsCandidate c event r
       /\ run = exec (fun c => call preventDefault ;;
                               handleMentionSelect c (type (object options r))
                                                   (value (object options r))) c)
   \/ (showContextMenu c = true
       /\ run = exec (fun c => setSelectedType None ;; setSelectedMenuIndex (fun _ => 3)) c)
   \/ (showContextMenu c = true
       /\ exists direction,
            (direction = -1 \/ direction = 1)
            /\ run = (apply (setSelectedMenuIndex (arrowIndex c direction)) c,
                      [preventDefault]))
   \/ (showContextMenu c = true /\ run = (c, [preventDefault]))
   \/ run = exec (fun c => sendOrDelete c event) c)
  /\ (showContextMenu c = false -> run = exec (fun c => sendOrDelete c event) c)
  /\ (In focus (snd run) -> exists r, commitsCandidate c event r)
  /\ (inputValue (fst run) <> inputValue c ->
      (exists r, commitsCandidate c event r)
      \/ (key event = str "Backspace"
          /\ inputValue (fst run)
             = fst (removeMention (inputValue c) (cursorPosition c))))
  /\ (showContextMenu c = true ->
      key event = str "Enter" -> selectedMenuIndex c <> -1 ->
      (forall r, at_ (refs options) (selectedMenuIndex c) = Some r ->
                 type (object options r) <> str "url" ->
                 run = exec (fun c => call preventDefault ;;
                                      handleMentionSelect c (type (object options r))
                                                          (value (object options r))) c)
      /\ (forall r, at_ (refs options) (selectedMenuIndex c) = Some r ->
                    type (object options r) = str "url" ->
                    run = (c, [preventDefault]))
      /\ (at_ (refs options) (selectedMenuIndex c) = None ->
          run = (c, [preventDefault])))
  /\ (showContextMenu c = true ->
      forall direction,
        (key event = str "ArrowUp" /\ direction = -1)
        \/ (key event = str "ArrowDown" /\ direction = 1) ->
        (exists r, In r (refs options) /\ type (object options r) <> str "url") ->
        exists r,
          at_ (refs options) (selectedMenuIndex (fst run)) = Some r
          /\ type (object options r) <> str "url")
  /\ (showContextMenu c = false -> selectedMenuIndex (fst run) = selectedMenuIndex c).
Proof.
  cbv zeta. split; [apply handleKeyDown_cases|].
  split; [|split; [|split; [|split; [|split]]]].
  - intros Hmenu. unfold exec, handleKeyDown. cbv beta. now rewrite Hmenu.
  - intros Hin.
    destruct (handleKeyDown_cases c event)
      as [(r & Hc & _) | [(_ & H) | [(_ & d & _ & H) | [(_ & H) | H]]]];
      [now exists r | rewrite H in Hin ..].
    + cbn in Hin. contradiction.
    + cbn in Hin. destruct Hin as [Hin | []]. discriminate.
    + cbn in Hin. destruct Hin as [Hin | []]. discriminate.
    + exfalso. apply (sendOrDelete_neverFocuses c event (c, []) Hin).
  - intros Hdiff.
    destruct (handleKeyDown_cases c event)
      as [(r & Hc & _) | [(_ & H) | [(_ & d & _ & H) | [(_ & H) | H]]]];
      [left; now exists r | rewrite H in Hdiff |- * ..].
    + exfalso. apply Hdiff. reflexivity.
    + exfalso. apply Hdiff. reflexivity.
    + exfalso. apply Hdiff. reflexivity.
    + destruct (sendOrDelete_text c event) as [Hsame | Hremoved]; [contradiction | now right].
  - intros Hmenu Hkey Hidx.
    assert (Henter : exec (fun c => handleKeyDown c event) c
              = exec (fun c =>
                  call preventDefault ;;
                  match at_ (refs (menuOptions c)) (selectedMenuIndex c) with
                  | Some selected =>
                      if negb (streq (type (object (menuOptions c) selected)) (str "url"))
                      then handleMentionSelect c (type (object (menuOptions c) selected))
                                               (value (object (menuOptions c) selected))
                      else ret tt
                  | None => ret tt
                  end) c).
    { unfold exec, handleKeyDown. cbv beta. rewrite Hmenu, Hkey.
      replace (selectedMenuIndex c =? -1) with false
        by (symmetry; now apply Z.eqb_neq).
      reflexivity. }
    rewrite Henter. unfold exec. cbv beta.
    split; [|split].
    + intros r Hr Hurl. rewrite Hr. apply streq_false_iff in Hurl.
      now rewrite Hurl.
    + intros r Hr Hurl. rewrite Hr. rewrite Hurl. reflexivity.
    + intros Hr. rewrite Hr. reflexivity.
  - intros Hmenu direction Hkey (r & Hin & Hurl).
    assert (Hd : direction = -1 \/ direction = 1) by (destruct Hkey as [[_ ->] | [_ ->]]; auto).
    rewrite (arrow_key_handler c event direction Hmenu Hkey). cbn [fst]. run_handler.
    destruct (arrowIndex_selectable c direction (selectedMenuIndex c) Hd) as (r' & Hr' & Hok).
    + intros Hnil. apply streq_false_iff in Hurl.
      assert (Hsel : In r (selectable (menuOptions c))).
      { apply selectable_in. split; [assumption|]. unfold isSelectable. now rewrite Hurl. }
      rewrite Hnil in Hsel. contradiction.
    + exists r'. split; [assumption|].
      unfold isSelectable in Hok. apply negb_true_iff in Hok. now apply streq_false_iff.
  - intros Hmenu.
    replace (exec (fun c => handleKeyDown c event) c)
      with (exec (fun c => sendOrDelete c event) c)
      by (unfold exec, handleKeyDown; now rewrite Hmenu).
    apply sendOrDelete_index.
Qed.

(** *** Paste *)

Lemma split_without_sep (sep : N) (s : jsstring) :
  ~ In sep s -> split sep s = [s].
Proof.
  induction s as [|x s IH]; intros Hs; simpl; [reflexivity|].
  destruct (N.eqb x sep) eqn:E.
  - apply N.eqb_eq in E. subst. exfalso. apply Hs. now left.
  - rewrite IH by (intros H; apply Hs; now right). reflexivity.
Qed.

Lemma split_at_sep (sep : N) (a b : jsstring) :
  ~ In sep a -> split sep (a ++ sep :: b) = a :: split sep b.
Proof.
  induction a as [|x a IH]; intros Ha; simpl.
  - now rewrite N.eqb_refl.
  - destruct (N.eqb x sep) eqn:E.
    + apply N.eqb_eq in E. subst. exfalso. apply Ha. now left.
    + rewrite IH by (intros H; apply Ha; now right). reflexivity.
Qed.

(** A text holds no separator, or it splits at its first separator. *)
Lemma first_occurrence (sep : N) (s : jsstring) :
  ~ In sep s \/ exists a b, s = a ++ sep :: b /\ ~ In sep a.
Proof.
  induction s as [|x s IH].
  - left. easy.
  - destruct (N.eq_dec x sep) as [-> | Hx].
    + right. exists [], s. split; [reflexivity | easy].
    + destruct IH as [Hs | (a & b & -> & Ha)].
      * left. intros [H | H]; [congruence | contradiction].
      * right. exists (x :: a), b. split; [reflexivity|].
        intros [H | H]; [congruence | contradiction].
Qed.

Lemma includes_true (a : list jsstring) (x : jsstring) :
  includes a x = true <-> In x a.
Proof.
  unfold includes. rewrite existsb_exists. split.
  - intros (y & Hy & E). apply streq_true_iff in E. now subst.
  - intros H. exists x. split; [assumption | apply streq_refl].
Qed.

Lemma accepted_without_slash (sub : jsstring) :
  In sub acceptedTypes -> ~ In 47%N sub.
Proof.
  intros [<- | [<- | [<- | []]]] H; cbn in H;
    repeat (destruct H as [H | H]; [discriminate|]); exact H.
Qed.

(** The items that [handlePaste] keeps: those whose type reads
    [image/<subtype>] with an accepted subtype, up to the end of the type or
    up to a further slash. *)
Lemma isAcceptedImage_spec (item : DataTransferItem) :
  isAcceptedImage item = true
  <-> exists sub rest,
        itemType item = str "image/" ++ sub ++ rest
        /\ In sub acceptedTypes
        /\ (rest = [] \/ exists r, rest = 47%N :: r).
Proof.
  unfold isAcceptedImage. split.
  - destruct (first_occurrence 47%N (itemType item)) as [Hno | (a & b & Hty & Ha)].
    { rewrite split_without_sep by assumption. cbn. discriminate. }
    rewrite Hty, split_at_sep by assumption.
    destruct (first_occurrence 47%N b) as [Hb | (sub & r & -> & Hsub)].
    + rewrite split_without_sep by assumption.
      change (at_ (a :: [b]) 0) with (Some a). change (at_ (a :: [b]) 1) with (Some b).
      intros H. apply andb_true_iff in H as [Himg Hacc].
      apply streq_true_iff in Himg. apply includes_true in Hacc. subst a.
      exists b, []. rewrite app_nil_r. repeat split; auto.
    + rewrite split_at_sep by assumption.
      change (at_ (a :: sub :: split 47 r) 0) with (Some a).
      change (at_ (a :: sub :: split 47 r) 1) with (Some sub).
      intros H. apply andb_true_iff in H as [Himg Hacc].
      apply streq_true_iff in Himg. apply includes_true in Hacc. subst a.
      exists sub, (47%N :: r). repeat split; eauto.
  - intros (sub & rest & Hty & Hacc & Hrest).
    pose proof (accepted_without_slash sub Hacc) as Hsub.
    assert (Hsplit : exists more, split 47 (itemType item) = str "image" :: sub :: more).
    { rewrite Hty. change (str "image/" ++ sub ++ rest)
        with (str "image" ++ 47%N :: (sub ++ rest)).
      rewrite split_at_sep
        by (cbn; intros H; repeat (destruct H as [H | H]; [discriminate|]); exact H).
      destruct Hrest as [-> | (r & ->)].
      - rewrite app_nil_r, split_without_sep by assumption. now exists [].
      - rewrite split_at_sep by assumption. now eexists. }
    destruct Hsplit as (more & ->).
    change (at_ (str "image" :: sub :: more) 0) with (Some (str "image")).
    change (at_ (str "image" :: sub :: more) 1) with (Some sub).
    cbv beta iota. rewrite streq_refl. now apply includes_true.
Qed.

(** On a type [<type>/<subtype>] with a single slash, the test reads the
    type and the subtype. *)
Lemma isAcceptedImage_mime (item : DataTransferItem) (t sub : jsstring) :
  itemType item = t ++ str "/" ++ sub -> ~ In 47%N t -> ~ In 47%N sub ->
  isAcceptedImage item = true <-> t = str "image" /\ In sub acceptedTypes.
Proof.
  intros Hty Ht Hsub. unfold isAcceptedImage. rewrite Hty.
  change (t ++ str "/" ++ sub) with (t ++ 47%N :: sub).
  rewrite split_at_sep, split_without_sep by assumption.
  change (at_ [t; sub] 0) with (Some t). change (at_ [t; sub] 1) with (Some sub).
  cbv beta iota. rewrite andb_true_iff, streq_true_iff, includes_true. reflexivity.
Qed.

Lemma slice_prefix {A} (l : list A) (n : Z) :
  0 <= n -> slice l 0 n = firstn (Z.to_nat n) l.
Proof.
  intros Hn. unfold slice, relIndex. pose proof (len_nonneg l).
  replace (0 <? 0) with false by reflexivity.
  replace (n <? 0) with false by (symmetry; apply Z.ltb_ge; lia).
  replace (Z.min 0 (len l)) with 0 by lia. simpl skipn. rewrite Z.sub_0_r.
  destruct (Z.le_gt_cases n (len l)).
  - now replace (Z.min n (len l)) with n by lia.
  - replace (Z.min n (len l)) with (len l) by lia.
    unfold len in *. rewrite Nat2Z.id, firstn_all, firstn_all2 by lia. reflexivity.
Qed.

Lemma nonNull_in (a : list (option jsstring)) (x : jsstring) :
  In x (nonNull a) <-> In (Some x) a.
Proof.
  induction a as [|[y|] a IH]; simpl.
  - split; intros [].
  - split; intros [H | H];
      [left; congruence | right; apply IH; exact H
      | left; congruence | right; apply IH; exact H].
  - split.
    + intros H. right. apply IH. exact H.
    + intros [H | H]; [discriminate | apply IH; exact H].
Qed.

(** C7: on a paste with images enabled, the items read are exactly the
    clipboard entries whose type is [image/<subtype>] with a subtype among
    png, jpeg and webp (the subtype ending with the type or at a further
    slash); the entries whose read fails are dropped; and, when
    some read succeeds, the data URLs are appended in order after the images
    present at that time and the list is cut to its first
    [MAX_IMAGES_PER_MESSAGE] elements (when none succeeds the list is left
    as it is). *)
Theorem paste_appends_accepted_images (c s : State) (items : list DataTransferItem) :
  shouldDisableImages c = false ->
  0 <= MAX_IMAGES_PER_MESSAGE ->
  let imageItems := filter isAcceptedImage items in
  let dataUrls := nonNull (map readImage imageItems) in
  let s' := apply (handlePaste c items) s in
  (forall item,
      In item imageItems
      <-> In item items
          /\ exists sub rest,
               itemType item = str "image/" ++ sub ++ rest
               /\ In sub acceptedTypes
               /\ (rest = [] \/ exists r, rest = 47%N :: r))
  /\ (forall item t sub,
        itemType item = t ++ str "/" ++ sub -> ~ In 47%N t -> ~ In 47%N sub ->
        In item imageItems <-> In item items /\ t = str "image" /\ In sub acceptedTypes)
  /\ (forall url, In url dataUrls
                  <-> exists item, In item imageItems /\ readImage item = Some url)
  /\ selectedImages s'
     = match dataUrls with
       | [] => selectedImages s
       | _ => firstn (Z.to_nat MAX_IMAGES_PER_MESSAGE) (selectedImages s ++ dataUrls)
       end
  /\ (len (selectedImages s) <= MAX_IMAGES_PER_MESSAGE ->
      selectedImages s'
      = firstn (Z.to_nat MAX_IMAGES_PER_MESSAGE) (selectedImages s ++ dataUrls)
      /\ len (selectedImages s') <= MAX_IMAGES_PER_MESSAGE).
Proof.
  intros Himg Hmax. cbv zeta.
  set (imageItems := filter isAcceptedImage items).
  set (dataUrls := nonNull (map readImage imageItems)).
  assert (Hres : selectedImages (apply (handlePaste c items) s)
                 = match dataUrls with
                   | [] => selectedImages s
                   | _ => firstn (Z.to_nat MAX_IMAGES_PER_MESSAGE)
                                 (selectedImages s ++ dataUrls)
                   end).
  { unfold handlePaste. cbv zeta. fold imageItems. fold dataUrls. rewrite Himg.
    destruct imageItems as [|i imageItems'] eqn:Hitems.
    - subst dataUrls. reflexivity.
    - replace (0 <? len (i :: imageItems')) with true
        by (symmetry; apply Z.ltb_lt; rewrite len_cons; pose proof (len_nonneg imageItems'); lia).
      destruct dataUrls as [|u dataUrls'] eqn:Hurls.
      + reflexivity.
      + replace (0 <? len (u :: dataUrls')) with true
          by (symmetry; apply Z.ltb_lt; rewrite len_cons; pose proof (len_nonneg dataUrls'); lia).
        run_handler. now apply slice_prefix. }
  split; [|split; [|split; [|split]]].
  - intros item. unfold imageItems. rewrite filter_In, isAcceptedImage_spec. reflexivity.
  - intros item t sub Hty Ht Hsub. unfold imageItems.
    rewrite filter_In, (isAcceptedImage_mime item t sub Hty Ht Hsub). reflexivity.
  - intros url. unfold dataUrls. rewrite nonNull_in, in_map_iff.
    split; intros (item & H1 & H2); exists item; auto.
  - exact Hres.
  - intros Hlen. rewrite Hres. destruct dataUrls as [|u dataUrls'].
    + rewrite app_nil_r, firstn_all2 by (unfold len in Hlen; lia). auto.
    + split; [reflexivity|]. unfold len. rewrite length_firstn. lia.
Qed.

(** *** The hidden menu *)

Lemma keeps_bind {A B} (m : Handler A) (k : A -> Handler B) :
  keepsCategory m -> (forall a, keepsCategory (k a)) -> keepsCategory (bind m k).
Proof.
  intros Hm Hk w. unfold bind. specialize (Hm w).
  destruct (m w) as [a w']. rewrite (Hk a w'). exact Hm.
Qed.

Lemma keeps_if {A} (b : bool) (h1 h2 : Handler A) :
  keepsCategory h1 -> keepsCategory h2 -> keepsCategory (if b then h1 else h2).
Proof. now destruct b. Qed.

(** Splits a handler along its sequences and branches; what is left are
    setters other than [setSelectedType], calls and reads. *)
Ltac keeps_category :=
  cbv zeta;
  repeat match goal with
         | |- keepsCategory (bind _ _) => apply keeps_bind; [|intros ?]
         | |- keepsCategory (if _ then _ else _) => apply keeps_if
         | |- keepsCategory (match ?x with Some _ => _ | None => _ end) => destruct x
         | |- keepsCategory (let (_, _) := ?x in _) => destruct x
         | |- keepsCategory _ => solve [intros w; reflexivity]
         end.

(** The keys that the menu lets through leave the category filter alone. *)
Lemma sendOrDelete_keeps (c : State) (event : KeyboardEvent) :
  keepsCategory (sendOrDelete c event).
Proof. unfold sendOrDelete, backspace. keeps_category. Qed.

(** While the menu is hidden no handler writes the category filter. *)
Lemma hidden_handlers_keep_category (s : State) (e : Event) :
  enabled s e = true -> showContextMenu s = false -> keepsCategory (dispatch e s).
Proof.
  intros Hen Hhid. destruct e; cbn in Hen; try congruence; unfold dispatch.
  - unfold handleKeyDown. rewrite Hhid. apply sendOrDelete_keeps.
  - unfold handleKeyUp, updateCursorPosition. keeps_category.
  - unfold handleInputChange, userEdit. keeps_category.
  - unfold updateCursorPosition, userEdit. keeps_category.
  - keeps_category.
  - unfold handleBlur. keeps_category.
  - unfold handlePaste. keeps_category.
  - keeps_category.
Qed.

(** C9: in every state that the component reaches, a hidden menu has no
    category filter: the effect on [showContextMenu] clears the filter after
    every render that hides the menu, and no handler sets the filter while
    the menu is hidden. *)
Theorem hidden_menu_has_no_category (s : State) :
  reachable s -> showContextMenu s = false -> selectedType s = None.
Proof.
  induction 1 as [s Hinit | s e Hreach IH Hen].
  - intros _. apply Hinit.
  - intros Hhid. unfold step in *.
    destruct (commit_frame s (fst (exec (dispatch e) s))) as (Hshow & _ & _ & _ & Htype).
    rewrite Hshow in Hhid. rewrite Htype, Hhid.
    destruct (showContextMenu s) eqn:Hprev; [reflexivity|].
    cbn [Bool.eqb]. unfold exec.
    rewrite (hidden_handlers_keep_category s e Hen Hprev (s, [])). now apply IH.
Qed.

(** *** The highlight layer *)

Lemma replaceMentions_fuel (f1 f2 : nat) (s : jsstring) :
  (List.length s <= f1)%nat -> (List.length s <= f2)%nat ->
  replaceMentions f1 s = replaceMentions f2 s.
Proof.
  revert f2 s. induction f1 as [|f1 IH]; intros f2 s H1 H2.
  - destruct s; [|simpl in H1; lia]. now destruct f2.
  - destruct f2 as [|f2]; [destruct s; [reflexivity | simpl in H2; lia]|].
    destruct s as [|c t]; [reflexivity|]. simpl in H1, H2. cbn [replaceMentions].
    destruct (N.eqb c 64); [|f_equal; apply IH; lia].
    destruct (mentionLength t) as [n|]; [|f_equal; apply IH; lia].
    rewrite (IH f2 (skipn n t)) by (rewrite length_skipn; lia). reflexivity.
Qed.

Lemma replaceMentions_nil (fuel : nat) : replaceMentions fuel [] = [].
Proof. now destruct fuel. Qed.

(** The scan copies the text up to the first [@]. *)
Lemma replaceMentions_before_at (fuel : nat) (a s : jsstring) :
  ~ In 64%N a -> (List.length (a ++ s) <= fuel)%nat ->
  replaceMentions fuel (a ++ s) = a ++ replaceMentions (List.length s) s.
Proof.
  revert fuel. induction a as [|c a IH]; intros fuel Ha Hf.
  - simpl. now apply replaceMentions_fuel.
  - destruct fuel as [|fuel]; [simpl in Hf; lia|]. simpl in Hf.
    rewrite <- app_comm_cons. cbn [replaceMentions].
    destruct (N.eqb c 64) eqn:E.
    + apply N.eqb_eq in E. subst. exfalso. apply Ha. now left.
    + rewrite IH by (try lia; intros H; apply Ha; now right). reflexivity.
Qed.

Lemma escapeHTML_app (a b : jsstring) :
  escapeHTML (a ++ b) = escapeHTML a ++ escapeHTML b.
Proof. apply flat_map_app. Qed.

(** What an escaped character is made of. *)
Lemma escapeChar_cases (c : N) :
  (c = 60%N /\ escapeChar c = str "&lt;")
  \/ (c = 62%N /\ escapeChar c = str "&gt;")
  \/ (c = 38%N /\ escapeChar c = str "&amp;")
  \/ (c <> 60%N /\ c <> 62%N /\ c <> 38%N /\ escapeChar c = [c]).
Proof.
  unfold escapeChar.
  destruct (N.eqb c 60) eqn:E1; [apply N.eqb_eq in E1; subst; auto|].
  destruct (N.eqb c 62) eqn:E2; [apply N.eqb_eq in E2; subst; auto|].
  destruct (N.eqb c 38) eqn:E3; [apply N.eqb_eq in E3; subst; auto 6|].
  apply N.eqb_neq in E1, E2, E3. auto 7.
Qed.


Lemma escapeChar_at (c : N) : In 64%N (escapeChar c) -> c = 64%N.
Proof.
  destruct (escapeChar_cases c) as [[-> ->] | [[-> ->] | [[-> ->] | (_ & _ & _ & ->)]]];
    cbn; intros H; repeat (destruct H as [H | H]; [discriminate || (now symmetry)|]);
    contradiction.
Qed.

Lemma escapeChar_space (c : N) : isSpace c = true -> escapeChar c = [c].
Proof.
  destruct (escapeChar_cases c) as [[-> _] | [[-> _] | [[-> _] | (_ & _ & _ & H)]]];
    try discriminate. now intros _.
Qed.

Lemma escapeChar_nonspace (c : N) :
  isSpace c = false ->
  escapeChar c <> [] /\ forallb (fun x => negb (isSpace x)) (escapeChar c) = true.
Proof.
  intros Hc.
  destruct (escapeChar_cases c) as [[-> ->] | [[-> ->] | [[-> ->] | (_ & _ & _ & ->)]]];
    (split; [discriminate|]); try reflexivity.
  cbn. now rewrite Hc.
Qed.









Lemma doubleFinalNewline_app (a b : jsstring) :
  b <> [] -> doubleFinalNewline (a ++ b) = a ++ doubleFinalNewline b.
Proof.
  intros Hb. unfold doubleFinalNewline. rewrite rev_app_distr.
  destruct (rev b) as [|x l] eqn:E.
  - apply (f_equal (@rev N)) in E. rewrite rev_involutive in E. contradiction.
  - simpl. destruct x as [|[?|?|]]; try reflexivity.
    repeat (destruct p as [?|?|]; try reflexivity). now rewrite app_assoc.
Qed.

Lemma doubleFinalNewline_cases (s : jsstring) :
  doubleFinalNewline s = s \/ doubleFinalNewline s = s ++ LF.
Proof.
  unfold doubleFinalNewline. destruct (rev s) as [|x l]; [now left|].
  destruct x as [|p]; [now left|].
  repeat (destruct p as [p|p|]; auto).
Qed.

Lemma doubleFinalNewline_nonspace (p : jsstring) :
  forallb (fun c => negb (isSpace c)) p = true -> doubleFinalNewline p = p.
Proof.
  intros Hp. unfold doubleFinalNewline.
  destruct (rev p) as [|x l] eqn:E; [reflexivity|].
  assert (Hx : In x p) by (apply in_rev; rewrite E; now left).
  rewrite forallb_forall in Hp. specialize (Hp x Hx).
  destruct (N.eq_dec x 10) as [-> | Hn]; [discriminate|].
  destruct x as [|[?|?|]]; try reflexivity.
  repeat (destruct p0 as [?|?|]; try reflexivity). contradiction.
Qed.

Lemma escapeHTML_no_at (a : jsstring) : ~ In 64%N a -> ~ In 64%N (escapeHTML a).
Proof.
  intros Ha H. apply in_flat_map in H as (c & Hc & H).
  apply escapeChar_at in H. now subst.
Qed.

Lemma escapeHTML_nonspace (p : jsstring) :
  p <> [] -> forallb (fun c => negb (isSpace c)) p = true ->
  escapeHTML p <> [] /\ forallb (fun c => negb (isSpace c)) (escapeHTML p) = true.
Proof.
  intros Hne Hp. split.
  - destruct p as [|c p]; [contradiction|]. simpl in Hp. apply andb_true_iff in Hp as [Hc _].
    apply negb_true_iff in Hc. destruct (escapeChar_nonspace c Hc) as [Hn _].
    simpl. destruct (escapeChar c); [contradiction | discriminate].
  - clear Hne. induction p as [|c p IH]; [reflexivity|].
    simpl in Hp. apply andb_true_iff in Hp as [Hc Hp]. apply negb_true_iff in Hc.
    simpl. rewrite forallb_app, (proj2 (escapeChar_nonspace c Hc)). now apply IH.
Qed.

(** The run of units that are no white space ends at the first white space
    or at the end. *)
Lemma nonSpaceRun_app (p r : jsstring) :
  forallb (fun c => negb (isSpace c)) p = true ->
  (r = [] \/ exists c r', r = c :: r' /\ isSpace c = true) ->
  nonSpaceRun (p ++ r) = List.length p.
Proof.
  intros Hp Hr. unfold nonSpaceRun. induction p as [|x p IH].
  - destruct Hr as [-> | (c & r' & -> & Hc)]; [reflexivity|]. simpl. now rewrite Hc.
  - simpl in Hp. apply andb_true_iff in Hp as [Hx Hp]. simpl. rewrite Hx. simpl.
    now rewrite IH.
Qed.

Lemma replaceMentions_match (fuel : nat) (t : jsstring) (n : nat) :
  mentionLength t = Some n ->
  replaceMentions (S fuel) (64%N :: t)
  = markOpen ++ 64%N :: firstn n t ++ markClose ++ replaceMentions fuel (skipn n t).
Proof. intros H. cbn [replaceMentions]. now rewrite N.eqb_refl, H. Qed.

(** X3: a mention of a path, [@/] followed by units that are no white space
    up to a white space or the end, is wrapped whole in one [mark] element;
    the text before it, which holds no [@], is escaped, and the text after
    it is highlighted on its own. *)
Theorem highlight_wraps_path (pre p rest : jsstring) :
  ~ In 64%N pre ->
  p <> [] ->
  forallb (fun c => negb (isSpace c)) p = true ->
  (rest = [] \/ exists c r, rest = c :: r /\ isSpace c = true) ->
  highlightHTML (pre ++ str "@/" ++ p ++ rest)
  = escapeHTML pre ++ markOpen ++ str "@/" ++ escapeHTML p ++ markClose
    ++ highlightHTML rest.
Proof.
  intros Hpre Hne Hp Hrest.
  assert (Hdfn : doubleFinalNewline (pre ++ str "@/" ++ p ++ rest)
                 = pre ++ str "@/" ++ p ++ doubleFinalNewline rest).
  { destruct Hrest as [-> | (c & r & -> & Hc)].
    - rewrite app_nil_r.
      replace (pre ++ str "@/" ++ p) with ((pre ++ str "@/") ++ p) by now rewrite <- app_assoc.
      rewrite doubleFinalNewline_app, doubleFinalNewline_nonspace by assumption.
      now rewrite <- app_assoc, app_nil_r.
    - replace (pre ++ str "@/" ++ p ++ c :: r) with ((pre ++ str "@/" ++ p) ++ c :: r)
        by now rewrite <- !app_assoc.
      rewrite doubleFinalNewline_app by discriminate. now rewrite <- !app_assoc. }
  assert (Hhead : escapeHTML (doubleFinalNewline rest) = []
                  \/ exists c r', escapeHTML (doubleFinalNewline rest) = c :: r'
                                  /\ isSpace c = true).
  { destruct Hrest as [-> | (c & r & -> & Hc)]; [now left | right].
    exists c.
    destruct (doubleFinalNewline_cases (c :: r)) as [-> | ->]; simpl;
      rewrite (escapeChar_space c Hc); eexists; (split; [reflexivity | assumption]). }
  destruct (escapeHTML_nonspace p Hne Hp) as [Hepne Hep].
  unfold highlightHTML at 1. cbv zeta. rewrite Hdfn, !escapeHTML_app.
  change (escapeHTML (str "@/")) with [64%N; 47%N].
  set (ep := escapeHTML p) in *. set (eR := escapeHTML (doubleFinalNewline rest)) in *.
  rewrite replaceMentions_before_at by (lia || (apply escapeHTML_no_at; assumption)).
  f_equal.
  change ([64%N; 47%N] ++ ep ++ eR) with (64%N :: 47%N :: ep ++ eR).
  assert (Hlen : mentionLength (47%N :: ep ++ eR) = Some (S (List.length ep))).
  { unfold mentionLength. cbv zeta. rewrite (nonSpaceRun_app ep eR Hep Hhead).
    destruct ep; [contradiction | reflexivity]. }
  cbn [List.length]. rewrite (replaceMentions_match _ _ _ Hlen). cbn [firstn skipn].
  rewrite firstn_app, firstn_all, Nat.sub_diag, skipn_app, skipn_all, Nat.sub_diag.
  cbn [firstn skipn]. rewrite !app_nil_r. cbn [app].
  rewrite (replaceMentions_fuel _ (List.length eR) eR) by (rewrite ?length_app; simpl; lia).
  unfold highlightHTML. cbv zeta. fold eR.
  reflexivity.
Qed.

(** *** What the handlers leave alone *)

Lemma preserves_bind {A B C} (part : State -> C) (m : Handler A) (k : A -> Handler B) :
  preserves part m -> (forall a, preserves part (k a)) -> preserves part (bind m k).
Proof.
  intros Hm Hk w. unfold bind. specialize (Hm w).
  destruct (m w) as [a w']. rewrite (Hk a w'). exact Hm.
Qed.

Lemma preserves_if {A C} (part : State -> C) (b : bool) (h1 h2 : Handler A) :
  preserves part h1 -> preserves part h2 -> preserves part (if b then h1 else h2).
Proof. now destruct b. Qed.

(** A handler that reads the pending state: what follows is judged on the
    state read. *)
Lemma preserves_pending {B C} (part : State -> C) (k : State -> Handler B) :
  (forall s l, part (fst (snd (k s (s, l)))) = part s) ->
  preserves part (bind pending k).
Proof. intros H [s l]. apply H. Qed.

(** Splits a handler along its sequences and branches; what is left are
    setters of other parts of the state, calls and reads. *)
Ltac preserves_part :=
  cbv zeta;
  repeat match goal with
         | |- preserves _ (bind pending _) =>
             apply preserves_pending;
             let s := fresh "s" in
             let E := fresh "E" in
             intros s ?; destruct (textAreaRef s) eqn:E;
             first [reflexivity | unfold mountedOn; rewrite E; reflexivity]
         | |- preserves _ (bind _ _) => apply preserves_bind; [|intros ?]
         | |- preserves _ (if _ then _ else _) => apply preserves_if
         | |- preserves _ (match ?x with Some _ => _ | None => _ end) => destruct x
         | |- preserves _ (let (_, _) := ?x in _) => destruct x
         | |- preserves _ _ => solve [intros w; reflexivity]
         end.

Lemma neverSends_bind {A B} (m : Handler A) (k : A -> Handler B) :
  neverSends m -> (forall a, neverSends (k a)) -> neverSends (bind m k).
Proof.
  intros Hm Hk w. unfold bind. specialize (Hm w).
  destruct (m w) as [a w']. intros H. apply Hm. now apply (Hk a w').
Qed.

Lemma neverSends_if {A} (b : bool) (h1 h2 : Handler A) :
  neverSends h1 -> neverSends h2 -> neverSends (if b then h1 else h2).
Proof. now destruct b. Qed.

Lemma neverSends_call (c : Call) : c <> onSend -> neverSends (call c).
Proof.
  intros Hc w H. cbn in H. apply in_app_or in H as [H | [H | []]]; [exact H | congruence].
Qed.

Ltac never_sends :=
  cbv zeta;
  repeat match goal with
         | |- neverSends (bind _ _) => apply neverSends_bind; [|intros ?]
         | |- neverSends (if _ then _ else _) => apply neverSends_if
         | |- neverSends (match ?x with Some _ => _ | None => _ end) => destruct x
         | |- neverSends (let (_, _) := ?x in _) => destruct x
         | |- neverSends (call _) => apply neverSends_call; discriminate
         | |- neverSends _ => solve [intros w H; exact H]
         end.

Lemma handleMentionSelect_neverSends (c : State) (type value : jsstring) :
  neverSends (handleMentionSelect c type value).
Proof. unfold handleMentionSelect. never_sends. Qed.

Lemma backspace_neverSends (c : State) : neverSends (backspace c).
Proof. unfold backspace. never_sends. Qed.

(** A key other than Enter sends nothing. *)
Lemma other_keys_never_send (c : State) (event : KeyboardEvent) :
  streq (key event) (str "Enter") = false -> neverSends (handleKeyDown c event).
Proof.
  intros E. unfold handleKeyDown, sendOrDelete. rewrite E. cbn [andb].
  pose proof (handleMentionSelect_neverSends c) as Hsel.
  pose proof (backspace_neverSends c) as Hback.
  never_sends; auto.
Qed.

(** X4: a key press sends the message exactly when the key is Enter, with
    no Shift and outside a composition, and the menu does not take the key:
    the menu is hidden or nothing is highlighted. *)
Theorem key_sends_iff (c : State) (event : KeyboardEvent) :
  In onSend (snd (exec (fun c => handleKeyDown c event) c))
  <-> key event = str "Enter" /\ shiftKey event = false /\ composing event = false
      /\ (showContextMenu c = false \/ selectedMenuIndex c = -1).
Proof.
  unfold exec. cbv beta. split.
  - intros Hin. destruct (streq (key event) (str "Enter")) eqn:E.
    + apply streq_true_iff in E. revert Hin. unfold handleKeyDown, sendOrDelete.
      rewrite E. change (streq (str "Enter") (str "Escape")) with false.
      change (streq (str "Enter") (str "ArrowUp")) with false.
      change (streq (str "Enter") (str "ArrowDown")) with false.
      change (streq (str "Enter") (str "Backspace")) with false.
      change (streq (str "Enter") (str "Enter")) with true.
      cbn [andb orb].
      assert (Hsend : In onSend
                (snd (snd (((if negb (shiftKey event) && negb (composing event)
                             then call preventDefault ;; call onSend else ret tt) ;;
                            ret tt) (c, [])))) ->
              shiftKey event = false /\ composing event = false).
      { destruct (shiftKey event), (composing event); cbn; intros H;
          try contradiction. now split. }
      destruct (showContextMenu c) eqn:Hmenu.
      * destruct (selectedMenuIndex c =? -1) eqn:Hidx; cbn [negb].
        -- apply Z.eqb_eq in Hidx. intros H. apply Hsend in H as [Hs Hc]. auto.
        -- intros H. exfalso.
           pose proof (handleMentionSelect_neverSends c) as Hsel.
           revert H.
           match goal with
           | |- In onSend (snd (snd (?h (c, [])))) -> False =>
               assert (Hn : neverSends h) by (never_sends; auto);
               intros H; apply (Hn (c, []) H)
           end.
      * intros H. apply Hsend in H as [Hs Hc]. auto.
    + exfalso. apply (other_keys_never_send c event E (c, []) Hin).
  - intros (Hkey & Hshift & Hcomp & Hmenu).
    unfold handleKeyDown, sendOrDelete. rewrite Hkey, Hshift, Hcomp.
    destruct Hmenu as [-> | Hidx].
    + cbn. auto.
    + rewrite Hidx. destruct (showContextMenu c); cbn; auto.
Qed.

(** What the render and its effects keep of the text, the cursor, the two
    flags and the images. *)
Lemma commit_keeps (prev s : State) :
  justDeletedSpaceAfterMention (commit prev s) = justDeletedSpaceAfterMention s
  /\ isMouseDownOnMenu (commit prev s) = isMouseDownOnMenu s
  /\ inputValue (commit prev s) = inputValue s
  /\ cursorPosition (commit prev s) = cursorPosition s
  /\ selectedImages (commit prev s) = selectedImages s
  /\ mountedOn (commit prev s) = mountedOn s.
Proof.
  unfold commit, menuEffect, cursorEffect, render, mountedOn. run_handler.
  destruct (streq (inputValue prev) (inputValue s)
            && sameCursorTarget (intendedCursorPosition prev) (intendedCursorPosition s));
    [|destruct (intendedCursorPosition s)];
    destruct (textAreaRef s); run_handler;
    destruct (Bool.eqb (showContextMenu prev) (showContextMenu s));
    try destruct (showContextMenu s); run_handler; repeat split; reflexivity.
Qed.

Lemma handleMentionSelect_preserves {C} (part : State -> C) (c : State) (type value : jsstring) :
  (forall h, preserves part (setSelectedType h)) ->
  (forall v, preserves part (setSearchQuery v)) ->
  (forall f, preserves part (setSelectedMenuIndex f)) ->
  (forall v, preserves part (setShowContextMenu v)) ->
  (forall v, preserves part (setInputValue v)) ->
  (forall v, preserves part (setCursorPosition v)) ->
  (forall v, preserves part (setIntendedCursorPosition v)) ->
  preserves part (handleMentionSelect c type value).
Proof.
  intros H1 H2 H3 H4 H5 H6 H7. unfold handleMentionSelect. cbv zeta.
  apply preserves_if.
  - repeat (apply preserves_bind; [auto | intros ?]). auto.
  - apply preserves_bind; [auto | intros ?]. apply preserves_bind; [auto | intros ?].
    apply preserves_pending. intros s l. destruct (textAreaRef s); [|reflexivity].
    apply (preserves_bind part); [auto | intros ?].
    apply (preserves_bind part); [auto | intros ?].
    apply (preserves_bind part); [auto | intros ?].
    intros w. reflexivity.
Qed.

(** Only the Backspace policy writes the flag
    [justDeletedSpaceAfterMention]. *)
Lemma other_events_keep_flag (s : State) (e : Event) :
  deletes e = false -> preserves justDeletedSpaceAfterMention (dispatch e s).
Proof.
  intros Hdel. destruct e; unfold dispatch.
  - unfold deletes in Hdel. unfold handleKeyDown, sendOrDelete. rewrite Hdel.
    assert (Hsel : forall t v, preserves justDeletedSpaceAfterMention
                                 (handleMentionSelect s t v)).
    { intros t v. apply handleMentionSelect_preserves; intros ? w; reflexivity. }
    preserves_part; auto.
  - unfold handleKeyUp, updateCursorPosition. preserves_part.
  - unfold handleInputChange, userEdit. preserves_part.
  - unfold updateCursorPosition, userEdit. preserves_part.
  - preserves_part.
  - unfold handleBlur. preserves_part.
  - unfold handlePaste. preserves_part.
  - unfold handleClickOutside. preserves_part.
  - preserves_part.
  - apply handleMentionSelect_preserves; intros ? w; reflexivity.
  - preserves_part.
  - preserves_part.
Qed.

(** X5: the flag [justDeletedSpaceAfterMention] is written by the Backspace
    policy only: any other event, with its render and effects, leaves it as
    it was, so a flag that a Backspace has set is still set after the user
    has typed, moved the cursor or used the menu. *)
Theorem flag_outlives_other_events (s : State) (e : Event) :
  deletes e = false ->
  justDeletedSpaceAfterMention (step s e) = justDeletedSpaceAfterMention s.
Proof.
  intros Hdel. unfold step.
  destruct (commit_keeps s (fst (exec (dispatch e) s))) as (-> & _).
  apply (other_events_keep_flag s e Hdel (s, [])).
Qed.

Lemma handlers_keep_mouse_down (s : State) (e : Event) :
  isMouseDownOnMenu s = true ->
  isMouseDownOnMenu (fst (exec (dispatch e) s)) = true.
Proof.
  intros Hdown.
  assert (Hsel : forall t v, preserves isMouseDownOnMenu (handleMentionSelect s t v)).
  { intros t v. apply handleMentionSelect_preserves; intros ? w; reflexivity. }
  assert (H : e = MenuMouseDown \/ preserves isMouseDownOnMenu (dispatch e s)).
  { destruct e; unfold dispatch; auto; right.
    - unfold handleKeyDown, sendOrDelete, backspace. preserves_part; auto.
    - unfold handleKeyUp, updateCursorPosition. preserves_part.
    - unfold handleInputChange, userEdit. preserves_part.
    - unfold updateCursorPosition, userEdit. preserves_part.
    - preserves_part.
    - unfold handleBlur. preserves_part.
    - unfold handlePaste. preserves_part.
    - unfold handleClickOutside. preserves_part.
    - preserves_part.
    - preserves_part. }
  destruct H as [-> | H]; [reflexivity|].
  unfold exec. now rewrite (H (s, [])).
Qed.

(** X6: nothing resets [isMouseDownOnMenu]: once a mouse button has gone
    down on the menu, the flag is set after every later event, and from
    then on a blur of the text area no longer hides the menu. *)
Theorem mouse_down_on_menu_sticks (s : State) (e : Event) :
  isMouseDownOnMenu s = true ->
  isMouseDownOnMenu (step s e) = true
  /\ showContextMenu (step s Blur) = showContextMenu s.
Proof.
  intros Hdown. split.
  - unfold step. destruct (commit_keeps s (fst (exec (dispatch e) s))) as (_ & -> & _).
    now apply handlers_keep_mouse_down.
  - unfold step. destruct (commit_frame s (fst (exec (dispatch Blur) s))) as (-> & _).
    unfold exec, dispatch, handleBlur. rewrite Hdown. reflexivity.
Qed.

(** *** The deferred cursor *)

Lemma handlers_keep_mount (s : State) (e : Event) :
  preserves mountedOn (dispatch e s).
Proof.
  assert (Hsel : forall t v, preserves mountedOn (handleMentionSelect s t v)).
  { intros t v. apply handleMentionSelect_preserves; intros ? w; reflexivity. }
  destruct e; unfold dispatch.
  - unfold handleKeyDown, sendOrDelete, backspace. preserves_part; auto.
  - unfold handleKeyUp, updateCursorPosition. preserves_part.
  - unfold handleInputChange, userEdit. preserves_part.
  - unfold updateCursorPosition, userEdit. preserves_part.
  - preserves_part.
  - unfold handleBlur. preserves_part.
  - unfold handlePaste. preserves_part.
  - unfold handleClickOutside. preserves_part.
  - preserves_part.
  - auto.
  - preserves_part.
  - preserves_part.
Qed.

(** On a mounted text area the layout effect leaves no deferred cursor,
    when the render before had none. *)
Lemma commit_clears_target (prev s : State) :
  intendedCursorPosition prev = None -> mountedOn s = true ->
  intendedCursorPosition (commit prev s) = None.
Proof.
  unfold commit, menuEffect, cursorEffect, render, mountedOn. intros Hprev Hm.
  rewrite Hprev. run_handler.
  destruct (textAreaRef s); [|discriminate].
  destruct (intendedCursorPosition s); cbn; rewrite ?andb_false_r; run_handler;
    destruct (streq (inputValue prev) (inputValue s)); cbn;
    destruct (Bool.eqb (showContextMenu prev) (showContextMenu s));
    try destruct (showContextMenu s); reflexivity.
Qed.

(** X7: the deferred cursor is consumed by the render that follows the
    handler that set it: in every state that the component reaches with its
    text area mounted, no deferred cursor is left. *)
Theorem deferred_cursor_is_consumed (s : State) :
  reachable s -> mountedOn s = true -> intendedCursorPosition s = None.
Proof.
  induction 1 as [s Hinit | s e Hreach IH Hen].
  - intros _. apply Hinit.
  - intros Hm. unfold step in *.
    destruct (commit_keeps s (fst (exec (dispatch e) s))) as (_ & _ & _ & _ & _ & Hmount).
    rewrite Hmount in Hm.
    assert (Hs : mountedOn s = true).
    { unfold exec in Hm. now rewrite (handlers_keep_mount s e (s, [])) in Hm. }
    apply commit_clears_target; auto.
Qed.

(** On a mounted text area the layout effect applies a deferred cursor
    that the handler has set, after the text has been written, and clears
    it. *)
Lemma commit_applies_target (prev s : State) (p : Z) (textArea : DOM.TextArea) :
  intendedCursorPosition prev = None ->
  intendedCursorPosition s = Some p ->
  textAreaRef s = Some textArea ->
  textAreaRef (commit prev s)
  = Some {| DOM.value := inputValue s; DOM.selectionStart := p; DOM.selectionEnd := p |}
  /\ intendedCursorPosition (commit prev s) = None.
Proof.
  unfold commit, menuEffect, cursorEffect, render. intros Hprev Hs Hta.
  rewrite Hprev. run_handler. rewrite Hs, Hta. cbn. rewrite andb_false_r. run_handler.
  destruct (Bool.eqb (showContextMenu prev) (showContextMenu s));
    try destruct (showContextMenu s); split; reflexivity.
Qed.

(** The state that a selection which commits leaves, before the render. *)
Lemma select_commit_state (s : State) (type value : jsstring) (textArea : DOM.TextArea) :
  value <> str "file" -> value <> str "folder" ->
  textAreaRef s = Some textArea ->
  let insertValue := if streq type (str "problems") then str "problems" else value in
  let newValue := insertMention (DOM.value textArea) (cursorPosition s) insertValue in
  let rule := indexOf newValue (str " ") (lastIndexOf newValue (str "@") None) + 1 in
  fst (exec (fun c => handleMentionSelect c type value) s)
  = {| inputValue := newValue;
       selectedImages := selectedImages s;
       shouldDisableImages := shouldDisableImages s;
       filePaths := filePaths s;
       isTextAreaFocused := isTextAreaFocused s;
       showContextMenu := false;
       cursorPosition := rule;
       searchQuery := searchQuery s;
       isMouseDownOnMenu := isMouseDownOnMenu s;
       selectedMenuIndex := selectedMenuIndex s;
       selectedType := None;
       justDeletedSpaceAfterMention := justDeletedSpaceAfterMention s;
       intendedCursorPosition := Some rule;
       textAreaRef := Some textArea |}.
Proof.
  intros Hfile Hfolder Hta. cbv zeta.
  unfold exec, handleMentionSelect. cbv beta.
  rewrite insertValue_cases.
  apply streq_false_iff in Hfile, Hfolder. rewrite Hfile, Hfolder.
  run_handler. rewrite Hta. run_handler. reflexivity.
Qed.

(** X8: selecting a candidate in the menu, with the render that follows:
    on a mounted text area without a deferred cursor, a selection that
    commits leaves the text area with the text that [insertMention]
    returns and with its selection collapsed at the offset of the placement
    rule; the text and the cursor of the state agree with it, no deferred
    cursor is left, the menu is hidden and the category filter is
    cleared. *)
Theorem select_then_render (s : State) (type value : jsstring) (textArea : DOM.TextArea) :
  value <> str "file" -> value <> str "folder" ->
  textAreaRef s = Some textArea ->
  intendedCursorPosition s = None ->
  let insertValue := if streq type (str "problems") then str "problems" else value in
  let newValue := insertMention (DOM.value textArea) (cursorPosition s) insertValue in
  let rule := indexOf newValue (str " ") (lastIndexOf newValue (str "@") None) + 1 in
  let s' := step s (MenuSelect type value) in
  textAreaRef s' = Some {| DOM.value := newValue;
                           DOM.selectionStart := rule;
                           DOM.selectionEnd := rule |}
  /\ inputValue s' = newValue
  /\ cursorPosition s' = rule
  /\ intendedCursorPosition s' = None
  /\ showContextMenu s' = false
  /\ selectedType s' = None.
Proof.
  intros Hfile Hfolder Hta Hint. cbv zeta.
  unfold step, dispatch.
  rewrite (select_commit_state s type value textArea Hfile Hfolder Hta). cbv zeta.
  generalize (insertMention (DOM.value textArea) (cursorPosition s)
                (if streq type (str "problems") then str "problems" else value)).
  intros newValue.
  generalize (indexOf newValue (str " ") (lastIndexOf newValue (str "@") None) + 1).
  intros rule.
  match goal with
  | |- context [commit s ?x] => set (s1 := x)
  end.
  destruct (commit_applies_target s s1 rule textArea Hint eq_refl eq_refl) as (Href & Htarget).
  destruct (commit_frame s s1) as (Hshow & _ & _ & _ & Htype).
  destruct (commit_keeps s s1) as (_ & _ & Hvalue & Hcursor & _).
  split; [exact Href|]. split; [exact Hvalue|]. split; [exact Hcursor|].
  split; [exact Htarget|]. split; [exact Hshow|].
  rewrite Htype. subst s1. cbn [showContextMenu selectedType].
  destruct (showContextMenu s); reflexivity.
Qed.

(** *** ArrowUp against ArrowDown *)

(** X9: on a menu of distinct candidates whose highlight is on a selectable
    candidate, ArrowUp followed by ArrowDown, and ArrowDown followed by
    ArrowUp, each with its render, bring the highlight back where it was. *)
Theorem arrow_up_down_cancel (s : State) (up down : KeyboardEvent) (r : nat) :
  showContextMenu s = true ->
  key up = str "ArrowUp" -> key down = str "ArrowDown" ->
  NoDup (refs (menuOptions s)) ->
  at_ (refs (menuOptions s)) (selectedMenuIndex s) = Some r ->
  In r (selectable (menuOptions s)) ->
  selectedMenuIndex (step (step s (KeyDown up)) (KeyDown down)) = selectedMenuIndex s
  /\ selectedMenuIndex (step (step s (KeyDown down)) (KeyDown up)) = selectedMenuIndex s.
Proof.
  intros Hmenu Hup Hdown Hnd Hp Hin.
  destruct (In_nth_error _ _ Hin) as (kn & Hkn).
  assert (Hlt : (kn < List.length (selectable (menuOptions s)))%nat)
    by (apply nth_error_Some; congruence).
  assert (Hn : 0 < len (selectable (menuOptions s))) by (unfold len; lia).
  assert (Hk : at_ (selectable (menuOptions s)) (Z.of_nat kn) = Some r)
    by now rewrite at_of_nat.
  assert (Hback : forall d1 d2, (d1 = -1 \/ d1 = 1) -> (d2 = -1 \/ d2 = 1) -> d1 + d2 = 0 ->
            arrowIndex s d2 (arrowIndex s d1 (selectedMenuIndex s)) = selectedMenuIndex s).
  { intros d1 d2 H1 H2 Hsum.
    destruct (arrowIndex_cycle s d1 _ r _ H1 Hnd Hp Hk) as (r1 & Hr1 & Hrank1).
    destruct (arrowIndex_cycle s d2 _ r1 _ H2 Hnd Hr1 Hrank1) as (r2 & Hr2 & Hrank2).
    rewrite Z.add_mod_idemp_l in Hrank2 by lia.
    replace (Z.of_nat kn + d1 + d2) with (Z.of_nat kn) in Hrank2 by lia.
    rewrite Z.mod_small in Hrank2 by (unfold len; lia).
    assert (r2 = r) by congruence. subst r2.
    apply (at_unique _ _ _ r Hnd Hr2 Hp). }
  assert (Hpair : forall e1 e2 d1 d2,
            (key e1 = str "ArrowUp" /\ d1 = -1) \/ (key e1 = str "ArrowDown" /\ d1 = 1) ->
            (key e2 = str "ArrowUp" /\ d2 = -1) \/ (key e2 = str "ArrowDown" /\ d2 = 1) ->
            selectedMenuIndex (step (step s (KeyDown e1)) (KeyDown e2))
            = arrowIndex s d2 (arrowIndex s d1 (selectedMenuIndex s))).
  { intros e1 e2 d1 d2 H1 H2.
    destruct (presses_arrow s e1 d1 1 Hmenu H1) as (Hs1 & Hq1 & Ht1 & Hp1 & Hi1).
    change (presses e1 1 s) with (step s (KeyDown e1)) in *.
    destruct (presses_arrow (step s (KeyDown e1)) e2 d2 1 Hs1 H2) as (_ & _ & _ & _ & Hi2).
    change (presses e2 1 (step s (KeyDown e1)))
      with (step (step s (KeyDown e1)) (KeyDown e2)) in Hi2.
    rewrite Hi2. cbn [Nat.iter nat_rect] in *. rewrite Hi1.
    now apply arrowIndex_same_options. }
  split.
  - rewrite (Hpair up down (-1) 1) by auto. apply Hback; auto.
  - rewrite (Hpair down up 1 (-1)) by auto. apply Hback; auto.
Qed.

(** *** Paste without images *)

(** X10: a paste is left to the browser, with no call and no change of the
    state, when images are disabled or when the clipboard holds no accepted
    image; the default is prevented exactly when images are enabled and the
    clipboard holds an accepted image, even when every read fails, in which
    case a warning is logged and the images are left as they are. *)
Theorem paste_edge_cases (c s : State) (items : list DataTransferItem) :
  let imageItems := filter isAcceptedImage items in
  let r := handlePaste c items (s, []) in
  (shouldDisableImages c = true \/ imageItems = [] -> r = (tt, (s, [])))
  /\ (In preventDefault (snd (snd r))
      <-> shouldDisableImages c = false /\ imageItems <> [])
  /\ (shouldDisableImages c = false -> imageItems <> [] ->
      nonNull (map readImage imageItems) = [] ->
      r = (tt, (s, [preventDefault; consoleWarn]))).
Proof.
  cbv zeta. unfold handlePaste. cbv zeta.
  destruct (filter isAcceptedImage items) as [|i rest] eqn:Hitems.
  - rewrite andb_false_r. split; [reflexivity|]. split; [|congruence].
    cbn. split; [contradiction | intros [_ H]; congruence].
  - replace (0 <? len (i :: rest)) with true
      by (symmetry; apply Z.ltb_lt; rewrite len_cons; pose proof (len_nonneg rest); lia).
    destruct (shouldDisableImages c).
    + cbn [negb andb]. split; [reflexivity|]. split; [|discriminate].
      cbn. split; [contradiction | intros [H _]; discriminate].
    + cbn [negb andb]. split; [intros [H | H]; discriminate|].
      split.
      * split; [intros _; split; [reflexivity | discriminate]|]. intros _.
        destruct (0 <? len (nonNull (map readImage (i :: rest)))); cbn; auto.
      * intros _ _ Hnone. rewrite Hnone. reflexivity.
Qed.

(** *** The query of the menu *)

(** The backward search of one code unit up to a limit: the offset found
    holds the unit and no later offset up to the limit does. *)
Lemma lastIndexOfUpTo_spec (x : N) (s : jsstring) (i limit acc : Z) :
  (lastIndexOfUpTo [x] s i limit acc = acc
   /\ forall k, (k < List.length s)%nat -> i + Z.of_nat k <= limit ->
                nth_error s k <> Some x)
  \/ exists k,
       lastIndexOfUpTo [x] s i limit acc = i + Z.of_nat k
       /\ i + Z.of_nat k <= limit
       /\ nth_error s k = Some x
       /\ forall k', (k < k' < List.length s)%nat -> i + Z.of_nat k' <= limit ->
                     nth_error s k' <> Some x.
Proof.
  revert i acc. induction s as [|y t IH]; intros i acc.
  - left. cbn. rewrite andb_false_r. split; [reflexivity|]. intros k Hk. cbn in Hk. lia.
  - cbn [lastIndexOfUpTo startsWith]. rewrite andb_true_r.
    destruct (IH (i + 1) (if (i <=? limit) && N.eqb x y then i else acc))
      as [[Hj Hno] | (k & Hj & Hle & Hk & Hno)].
    + destruct ((i <=? limit) && N.eqb x y) eqn:Hc.
      * right. exists 0%nat. apply andb_true_iff in Hc as [Hi Hxy].
        apply Z.leb_le in Hi. apply N.eqb_eq in Hxy. subst y.
        rewrite Hj. split; [lia|]. split; [lia|]. split; [reflexivity|].
        intros [|k'] Hk' Hlim; [lia|]. cbn. apply Hno; [cbn in Hk' |]; lia.
      * left. split; [exact Hj|]. intros [|k] Hk Hlim.
        -- cbn. intros [= ->]. rewrite N.eqb_refl, andb_true_r in Hc.
           apply Z.leb_gt in Hc. lia.
        -- cbn. apply Hno; [cbn in Hk |]; lia.
    + right. exists (S k). rewrite Hj. split; [lia|]. split; [lia|].
      split; [exact Hk|]. intros [|k'] Hk' Hlim; [lia|]. cbn.
      apply Hno; [cbn in Hk' |]; lia.
Qed.

(** The units of a slice come from the offsets of the slice. *)
Lemma in_slice (x : N) (s : jsstring) (a b : Z) :
  0 <= a -> 0 <= b -> In x (slice s a b) ->
  exists k, a <= Z.of_nat k < b /\ nth_error s k = Some x.
Proof.
  intros Ha Hb. unfold slice, relIndex. pose proof (len_nonneg s) as Hlen.
  replace (a <? 0) with false by (symmetry; apply Z.ltb_ge; lia).
  replace (b <? 0) with false by (symmetry; apply Z.ltb_ge; lia).
  intros Hin. apply In_nth_error in Hin as (k & Hk).
  assert (Hkn : (k < Z.to_nat (Z.min b (len s) - Z.min a (len s)))%nat).
  { assert (H : nth_error (firstn (Z.to_nat (Z.min b (len s) - Z.min a (len s)))
                              (skipn (Z.to_nat (Z.min a (len s))) s)) k <> None)
      by congruence.
    apply nth_error_Some in H. rewrite length_firstn in H. lia. }
  rewrite nth_error_firstn in Hk.
  replace (k <? Z.to_nat (Z.min b (len s) - Z.min a (len s)))%nat with true in Hk
    by (symmetry; apply Nat.ltb_lt; exact Hkn).
  rewrite nth_error_skipn in Hk.
  exists (Z.to_nat (Z.min a (len s)) + k)%nat. split; [lia | exact Hk].
Qed.

(** X11: the query that [handleInputChange] stores never holds an [@]: it
    is empty when the menu is hidden, and otherwise it is cut after the last
    [@] before the cursor. *)
Theorem query_has_no_at (c : State) (newValue : jsstring) (newCursorPosition : Z) :
  0 <= newCursorPosition ->
  ~ In 64%N
      (searchQuery (fst (exec (fun c => handleInputChange c newValue newCursorPosition) c))).
Proof.
  intros Hcur. unfold exec, handleInputChange. cbv beta zeta.
  destruct (shouldShowContextMenu newValue newCursorPosition).
  2: { intros H. exact H. }
  set (j := lastIndexOf newValue (str "@") (Some (newCursorPosition - 1))).
  assert (Hq : ~ In 64%N (slice newValue (j + 1) newCursorPosition)).
  { intros Hin.
    destruct (lastIndexOfUpTo_spec 64 newValue 0 (Z.max (newCursorPosition - 1) 0) (-1))
      as [[Hj Hno] | (k & Hj & Hle & Hk & Hno)];
      change (lastIndexOfUpTo [64%N] newValue 0 (Z.max (newCursorPosition - 1) 0) (-1))
        with j in Hj.
    - apply in_slice in Hin as (k & Hrange & Hk); [|lia..].
      apply (Hno k); [apply nth_error_Some; congruence | lia | exact Hk].
    - apply in_slice in Hin as (k' & Hrange & Hk'); [|lia..].
      apply (Hno k'); [split; [lia | apply nth_error_Some; congruence] | lia | exact Hk']. }
  revert Hq. generalize (slice newValue (j + 1) newCursorPosition). intros query Hq.
  destruct (0 <? len query); exact Hq.
Qed.

Lemma nth_error_middle {A} (a b : list A) (x : A) :
  nth_error (a ++ x :: b) (List.length a) = Some x.
Proof. rewrite nth_error_app2 by lia. now rewrite Nat.sub_diag. Qed.

Lemma slice_middle {A} (a q b : list A) :
  slice (a ++ q ++ b) (len a) (len a + len q) = q.
Proof.
  unfold slice, relIndex. rewrite !len_app.
  pose proof (len_nonneg a). pose proof (len_nonneg q). pose proof (len_nonneg b).
  replace (len a <? 0) with false by (symmetry; apply Z.ltb_ge; lia).
  replace (len a + len q <? 0) with false by (symmetry; apply Z.ltb_ge; lia).
  replace (Z.min (len a) (len a + (len q + len b))) with (len a) by lia.
  replace (Z.min (len a + len q) (len a + (len q + len b))) with (len a + len q) by lia.
  replace (len a + len q - len a) with (len q) by lia.
  unfold len. rewrite !Nat2Z.id.
  rewrite skipn_app, skipn_all, Nat.sub_diag. cbn [skipn app].
  rewrite firstn_app, firstn_all, Nat.sub_diag. cbn [firstn]. apply app_nil_r.
Qed.

(** The last [@] up to the cursor, for a cursor that follows [@] and a
    query without [@]. *)
Lemma lastIndexOf_before_cursor (pre q post : jsstring) :
  ~ In 64%N q ->
  lastIndexOf (pre ++ str "@" ++ q ++ post) (str "@") (Some (len pre + 1 + len q - 1))
  = len pre.
Proof.
  intros Hq. unfold lastIndexOf. change (str "@") with [64%N].
  pose proof (len_nonneg pre). pose proof (len_nonneg q).
  replace (Z.max (len pre + 1 + len q - 1) 0) with (len pre + len q) by lia.
  change (pre ++ [64%N] ++ q ++ post) with (pre ++ 64%N :: q ++ post).
  pose proof (nth_error_middle pre (q ++ post) 64%N) as Hat.
  destruct (lastIndexOfUpTo_spec 64 (pre ++ 64%N :: q ++ post) 0 (len pre + len q) (-1))
    as [[_ Hno] | (k & -> & Hle & Hk & Hno)].
  - exfalso. apply (Hno (List.length pre)); [|unfold len in *; lia | exact Hat].
    rewrite length_app. simpl. lia.
  - unfold len in *.
    destruct (Nat.lt_trichotomy k (List.length pre)) as [Hlt | [-> | Hgt]]; [| lia |].
    + exfalso. apply (Hno (List.length pre)); [|lia | exact Hat].
      rewrite length_app. simpl. lia.
    + exfalso. apply Hq.
      rewrite nth_error_app2 in Hk by lia.
      destruct (k - List.length pre)%nat as [|m] eqn:Hm; [lia|]. cbn in Hk.
      rewrite nth_error_app1 in Hk by lia. eapply nth_error_In; eassumption.
Qed.

(** X12: when the text reads [pre@query] up to the cursor, with no [@] in
    the query, [handleInputChange] stores the text and the cursor and shows
    the menu as [shouldShowContextMenu] says; a menu that is shown gets the
    query, with the highlight on 0, or on 3 when the query is empty; a menu
    that is hidden gets the empty query and no highlight. *)
Theorem typed_query_is_stored (c : State) (pre query post : jsstring) :
  ~ In 64%N query ->
  let newValue := pre ++ str "@" ++ query ++ post in
  let newCursorPosition := len pre + 1 + len query in
  let s' := fst (exec (fun c => handleInputChange c newValue newCursorPosition) c) in
  inputValue s' = newValue
  /\ cursorPosition s' = newCursorPosition
  /\ showContextMenu s' = shouldShowContextMenu newValue newCursorPosition
  /\ (shouldShowContextMenu newValue newCursorPosition = true ->
      searchQuery s' = query
      /\ selectedMenuIndex s' = match query with [] => 3 | _ => 0 end)
  /\ (shouldShowContextMenu newValue newCursorPosition = false ->
      searchQuery s' = [] /\ selectedMenuIndex s' = -1).
Proof.
  intros Hq. cbv zeta. unfold exec, handleInputChange. cbv beta zeta.
  rewrite (lastIndexOf_before_cursor pre query post Hq).
  assert (Hslice : slice (pre ++ str "@" ++ query ++ post) (len pre + 1)
                         (len pre + 1 + len query) = query).
  { replace (pre ++ str "@" ++ query ++ post) with ((pre ++ str "@") ++ query ++ post)
      by now rewrite <- app_assoc.
    replace (len pre + 1) with (len (pre ++ str "@")) by (rewrite len_app; reflexivity).
    apply slice_middle. }
  rewrite Hslice.
  generalize (pre ++ str "@" ++ query ++ post). intros newValue.
  generalize (len pre + 1 + len query). intros cursor.
  destruct (shouldShowContextMenu newValue cursor).
  - destruct query as [|x query].
    + cbn. repeat split; try reflexivity; discriminate.
    + replace (0 <? len (x :: query)) with true
        by (symmetry; apply Z.ltb_lt; rewrite len_cons; pose proof (len_nonneg query); lia).
      cbn. repeat split; try reflexivity; discriminate.
  - cbn. repeat split; try reflexivity; discriminate.
Qed.

(** *** Two Backspaces after a mention *)

Lemma mentionBody_unfold (t : jsstring) :
  mentionBody t
  = (match t with
     | c :: r =>
         if N.eqb c 47 then nonSpaces1 r
         else match takeWhile isWord t with
              | [] => false
              | _ => startsWith (str "://") (dropWhile isWord t)
                     && nonSpaces1 (skipn 3 (dropWhile isWord t))
              end
     | [] => false
     end)
    || streq t (str "problems").
Proof.
  unfold mentionBody. destruct t as [|[|p] r]; try reflexivity.
  repeat (destruct p as [p|p|]; try reflexivity).
Qed.

Lemma takeWhile_dropWhile {A} (f : A -> bool) (l : list A) :
  takeWhile f l ++ dropWhile f l = l.
Proof.
  induction l as [|x l IH]; [reflexivity|]. simpl.
  destruct (f x); [simpl; now rewrite IH | reflexivity].
Qed.

Lemma nonSpaces1_last (r : jsstring) :
  nonSpaces1 r = true -> exists q x, r = q ++ [x] /\ isSpace x = false.
Proof.
  intros H. destruct r as [|c r]; [discriminate|].
  destruct (exists_last (l := c :: r)) as (q & x & E); [discriminate|].
  exists q, x. split; [exact E|].
  unfold nonSpaces1 in H. rewrite forallb_forall in H.
  apply negb_true_iff, H. rewrite E. apply in_or_app. right. now left.
Qed.

(** A mention ends with a unit that is no white space. *)
Lemma mentionBody_last (t : jsstring) :
  mentionBody t = true -> exists q x, t = q ++ [x] /\ isSpace x = false.
Proof.
  rewrite mentionBody_unfold. intros H. apply orb_true_iff in H as [H | H].
  - destruct t as [|c r]; [discriminate|].
    destruct (N.eqb c 47).
    + apply nonSpaces1_last in H as (q & x & -> & Hx). now exists (c :: q), x.
    + destruct (takeWhile isWord (c :: r)) eqn:Hw; [discriminate|].
      apply andb_true_iff in H as [_ H].
      apply nonSpaces1_last in H as (q & x & Hr & Hx).
      exists (takeWhile isWord (c :: r) ++ firstn 3 (dropWhile isWord (c :: r)) ++ q), x.
      split; [|exact Hx].
      rewrite <- !app_assoc, <- Hr, firstn_skipn. symmetry. apply takeWhile_dropWhile.
  - apply streq_true_iff in H. subst. now exists (str "problem"), 115%N.
Qed.

Lemma matchMentionAtEnd_last (s : jsstring) :
  matchMentionAtEnd s = true -> exists q x, s = q ++ [x] /\ isSpace x = false.
Proof.
  induction s as [|c t IH]; [discriminate|]. cbn [matchMentionAtEnd].
  intros H. apply orb_true_iff in H as [H | H].
  - apply andb_true_iff in H as [_ H].
    apply mentionBody_last in H as (q & x & -> & Hx). now exists (c :: q), x.
  - apply IH in H as (q & x & -> & Hx). now exists (c :: q), x.
Qed.

Lemma isWhitespace_isSpace (x : N) : isWhitespace (Some x) = true -> isSpace x = true.
Proof.
  unfold isWhitespace, charIs. cbn. rewrite !andb_true_r, andb_false_r, orb_false_r.
  intros H. apply orb_true_iff in H as [H | H]; apply N.eqb_eq in H; now subst.
Qed.

(** The unit before a separator that follows a mention is no space and no
    newline. *)
Lemma before_separator (text : jsstring) (cursor : Z) :
  isWhitespace (at_ text (cursor - 1)) = true ->
  matchMentionAtEnd (slice text 0 (cursor - 1)) = true ->
  isWhitespace (at_ text (cursor - 1 - 1)) = false.
Proof.
  intros Hws Hm.
  destruct (at_ text (cursor - 1)) as [y|] eqn:Hy; [|discriminate].
  apply at_some in Hy as (n & Hn & _ & Hlt).
  rewrite Hn, slice_prefix in Hm by lia. rewrite Nat2Z.id in Hm.
  apply matchMentionAtEnd_last in Hm as (q & x & Hq & Hx).
  assert (Hlen : List.length (q ++ [x]) = n) by (rewrite <- Hq, length_firstn; lia).
  rewrite length_app in Hlen. simpl in Hlen.
  assert (Hat : nth_error text (List.length q) = Some x).
  { rewrite <- (firstn_skipn n text), Hq, <- app_assoc. apply nth_error_middle. }
  replace (cursor - 1 - 1) with (Z.of_nat (List.length q)) by lia.
  rewrite at_of_nat, Hat.
  destruct (isWhitespace (Some x)) eqn:E; [|reflexivity].
  apply isWhitespace_isSpace in E. congruence.
Qed.

(** A render that follows a handler which wrote neither the text nor the
    deferred cursor. *)
Lemma commit_idle (prev s : State) :
  inputValue s = inputValue prev ->
  intendedCursorPosition s = intendedCursorPosition prev ->
  textAreaRef (commit prev s) = option_map (DOM.withValue (inputValue s)) (textAreaRef s)
  /\ intendedCursorPosition (commit prev s) = intendedCursorPosition s.
Proof.
  unfold commit, menuEffect, cursorEffect, render. intros Hv Ht. run_handler.
  rewrite Hv, Ht, streq_refl, sameCursorTarget_refl. cbn.
  destruct (Bool.eqb (showContextMenu prev) (showContextMenu s));
    try destruct (showContextMenu s); split; reflexivity.
Qed.

(** The Backspace that steps over the separator, the default prevented. *)
Lemma backspace_first_state (c : State) (event : KeyboardEvent) (textArea : DOM.TextArea) :
  key event = str "Backspace" -> composing event = false ->
  isWhitespace (at_ (inputValue c) (cursorPosition c - 1)) = true ->
  matchMentionAtEnd (slice (inputValue c) 0 (cursorPosition c - 1)) = true ->
  isWhitespace (at_ (inputValue c) (cursorPosition c + 1)) = false ->
  textAreaRef c = Some textArea ->
  let r := fst (exec (fun c => handleKeyDown c event) c) in
  inputValue r = inputValue c
  /\ cursorPosition r = cursorPosition c - 1
  /\ justDeletedSpaceAfterMention r = true
  /\ showContextMenu r = showContextMenu c
  /\ intendedCursorPosition r = intendedCursorPosition c
  /\ textAreaRef r
     = Some (DOM.setSelectionRange (cursorPosition c - 1) (cursorPosition c - 1) textArea).
Proof.
  intros Hkey Hcomp Hws Hmention Hafter Hta. cbv zeta.
  assert (Hrest : exec (fun c => handleKeyDown c event) c = exec (fun c => backspace c) c).
  { unfold exec, handleKeyDown, sendOrDelete. cbv beta. rewrite Hkey, Hcomp.
    destruct (showContextMenu c); reflexivity. }
  rewrite Hrest. unfold exec, backspace. cbv beta zeta.
  rewrite Hws, Hmention, Hafter. run_handler. rewrite Hta.
  repeat split; reflexivity.
Qed.

(** The Backspace that follows: the flag is set and the cursor is no longer
    after a separator. *)
Lemma backspace_second_state (c : State) (event : KeyboardEvent) :
  key event = str "Backspace" -> composing event = false ->
  justDeletedSpaceAfterMention c = true ->
  isWhitespace (at_ (inputValue c) (cursorPosition c - 1)) = false ->
  let removed := removeMention (inputValue c) (cursorPosition c) in
  let r := fst (exec (fun c => handleKeyDown c event) c) in
  inputValue r = fst removed
  /\ justDeletedSpaceAfterMention r = false
  /\ showContextMenu r = false
  /\ textAreaRef r = textAreaRef c
  /\ intendedCursorPosition r
     = if streq (fst removed) (inputValue c) then intendedCursorPosition c
       else Some (snd removed).
Proof.
  intros Hkey Hcomp Hflag Hws. cbv zeta.
  assert (Hrest : exec (fun c => handleKeyDown c event) c = exec (fun c => backspace c) c).
  { unfold exec, handleKeyDown, sendOrDelete. cbv beta. rewrite Hkey, Hcomp.
    destruct (showContextMenu c); reflexivity. }
  rewrite Hrest. unfold exec, backspace. cbv beta zeta.
  rewrite Hws, Hflag. cbn [andb].
  destruct (removeMention (inputValue c) (cursorPosition c)) as [newText newPosition].
  cbn [fst snd].
  destruct (streq newText (inputValue c)) eqn:Hsame; run_handler.
  - apply streq_true_iff in Hsame. repeat split; congruence.
  - repeat split; reflexivity.
Qed.

(** X13: two Backspaces, each with its render, with the cursor just after a
    space or a newline that follows a mention and before a unit whose
    successor is no space and no newline: the first keeps the text and
    moves the cursor of the state and of the text area before the
    separator; the second stores the text that [removeMention] returns for
    that cursor, puts the selection of the text area at the cursor it
    returns when the text has changed, clears the flag and hides the
    menu. *)
Theorem two_backspaces_remove_mention (s : State) (event : KeyboardEvent)
  (textArea : DOM.TextArea) :
  key event = str "Backspace" -> composing event = false ->
  isWhitespace (at_ (inputValue s) (cursorPosition s - 1)) = true ->
  matchMentionAtEnd (slice (inputValue s) 0 (cursorPosition s - 1)) = true ->
  isWhitespace (at_ (inputValue s) (cursorPosition s + 1)) = false ->
  textAreaRef s = Some textArea ->
  intendedCursorPosition s = None ->
  let removed := removeMention (inputValue s) (cursorPosition s - 1) in
  let s1 := step s (KeyDown event) in
  let s2 := step s1 (KeyDown event) in
  inputValue s1 = inputValue s
  /\ cursorPosition s1 = cursorPosition s - 1
  /\ justDeletedSpaceAfterMention s1 = true
  /\ textAreaRef s1 = Some {| DOM.value := inputValue s;
                              DOM.selectionStart := cursorPosition s - 1;
                              DOM.selectionEnd := cursorPosition s - 1 |}
  /\ inputValue s2 = fst removed
  /\ justDeletedSpaceAfterMention s2 = false
  /\ showContextMenu s2 = false
  /\ (fst removed <> inputValue s ->
      textAreaRef s2 = Some {| DOM.value := fst removed;
                               DOM.selectionStart := snd removed;
                               DOM.selectionEnd := snd removed |}).
Proof.
  intros Hkey Hcomp Hws Hmention Hafter Hta Hint. cbv zeta.
  set (s1 := step s (KeyDown event)).
  destruct (backspace_first_state s event textArea Hkey Hcomp Hws Hmention Hafter Hta)
    as (Hv1 & Hc1 & Hf1 & _ & Hi1 & Hr1).
  assert (H1 : inputValue s1 = inputValue s /\ cursorPosition s1 = cursorPosition s - 1
               /\ justDeletedSpaceAfterMention s1 = true
               /\ intendedCursorPosition s1 = None
               /\ textAreaRef s1 = Some {| DOM.value := inputValue s;
                                           DOM.selectionStart := cursorPosition s - 1;
                                           DOM.selectionEnd := cursorPosition s - 1 |}).
  { unfold s1, step, dispatch.
    destruct (commit_keeps s (fst (exec (fun c => handleKeyDown c event) s)))
      as (-> & _ & -> & -> & _).
    destruct (commit_idle s (fst (exec (fun c => handleKeyDown c event) s)) Hv1 Hi1)
      as (-> & ->).
    rewrite Hr1, Hv1, Hi1. repeat split; assumption. }
  destruct H1 as (Hs1v & Hs1c & Hs1f & Hs1i & Hs1r).
  split; [exact Hs1v|]. split; [exact Hs1c|]. split; [exact Hs1f|]. split; [exact Hs1r|].
  assert (Hws2 : isWhitespace (at_ (inputValue s1) (cursorPosition s1 - 1)) = false).
  { rewrite Hs1v, Hs1c. now apply before_separator. }
  destruct (backspace_second_state s1 event Hkey Hcomp Hs1f Hws2)
    as (Hv2 & Hf2 & Hm2 & Hr2 & Hi2).
  rewrite Hs1v, Hs1c in Hv2, Hi2.
  unfold step, dispatch.
  destruct (commit_keeps s1 (fst (exec (fun c => handleKeyDown c event) s1)))
    as (-> & _ & -> & _).
  destruct (commit_frame s1 (fst (exec (fun c => handleKeyDown c event) s1)))
    as (-> & _).
  split; [exact Hv2|]. split; [exact Hf2|]. split; [exact Hm2|].
  intros Hdiff. apply streq_false_iff in Hdiff. rewrite Hdiff in Hi2.
  destruct (commit_applies_target s1 (fst (exec (fun c => handleKeyDown c event) s1))
              (snd (removeMention (inputValue s) (cursorPosition s - 1)))
              {| DOM.value := inputValue s;
                 DOM.selectionStart := cursorPosition s - 1;
                 DOM.selectionEnd := cursorPosition s - 1 |} Hs1i Hi2)
    as (-> & _); [now rewrite Hr2|].
  now rewrite Hv2.
Qed.

(** *** Keys that do nothing *)

(** X14: a Backspace outside a composition, with the flag unset and the
    cursor not just after a separator that follows a mention, is an
    ordinary deletion: the handler calls nothing, so the default goes on,
    and leaves the state as it is. *)
Theorem plain_backspace_is_native (c : State) (event : KeyboardEvent) :
  key event = str "Backspace" ->
  composing event = false ->
  justDeletedSpaceAfterMention c = false ->
  isWhitespace (at_ (inputValue c) (cursorPosition c - 1))
  && matchMentionAtEnd (slice (inputValue c) 0 (cursorPosition c - 1)) = false ->
  exec (fun c => handleKeyDown c event) c = (c, []).
Proof.
  intros Hkey Hcomp Hflag Hstep1.
  assert (Hrest : exec (fun c => handleKeyDown c event) c = exec (fun c => backspace c) c).
  { unfold exec, handleKeyDown, sendOrDelete. cbv beta. rewrite Hkey, Hcomp.
    destruct (showContextMenu c); reflexivity. }
  rewrite Hrest. unfold exec, backspace. cbv beta zeta. rewrite Hstep1, Hflag.
  destruct c. cbn in Hflag. subst. reflexivity.
Qed.

(** X15: during a composition a key that the menu does not take (the menu
    is hidden, or the key is none of Escape, ArrowUp, ArrowDown and Enter)
    does nothing: no message is sent, no default is prevented and the state
    is left as it is. *)
Theorem composing_keys_do_nothing (c : State) (event : KeyboardEvent) :
  composing event = true ->
  showContextMenu c = false
  \/ (key event <> str "Escape" /\ key event <> str "ArrowUp"
      /\ key event <> str "ArrowDown" /\ key event <> str "Enter") ->
  exec (fun c => handleKeyDown c event) c = (c, []).
Proof.
  intros Hcomp Hmenu.
  assert (Hrest : exec (fun c => sendOrDelete c event) c = (c, [])).
  { unfold exec, sendOrDelete. cbv beta zeta. rewrite Hcomp. cbn [negb].
    rewrite !andb_false_r. reflexivity. }
  rewrite <- Hrest. unfold exec, handleKeyDown. cbv beta.
  destruct Hmenu as [-> | (H1 & H2 & H3 & H4)]; [reflexivity|].
  apply streq_false_iff in H1, H2, H3, H4. rewrite H1, H2, H3, H4.
  destruct (showContextMenu c); reflexivity.
Qed.

(** *** The arrows with nothing selectable highlighted *)

Lemma findIndex_absent (l : list nat) (other : option nat) :
  (forall r, other = Some r -> ~ In r l) ->
  findIndex (fun opt => sameObject opt other) l = -1.
Proof.
  intros H. unfold findIndex. apply findIndexFrom_none. intros x Hx.
  destruct (sameObject x other) eqn:E; [|reflexivity].
  apply sameObject_true in E. exfalso. now apply (H x).
Qed.

(** X16: when the highlighted index designates no candidate, or a [url]
    candidate, ArrowDown highlights the first selectable candidate, and
    ArrowUp the last but one, or the only one when there is one. *)
Theorem arrows_from_outside (c : State) (prevIndex : Z) :
  (forall r, at_ (refs (menuOptions c)) prevIndex = Some r ->
             isSelectable (menuOptions c) r = false) ->
  selectable (menuOptions c) <> [] ->
  at_ (refs (menuOptions c)) (arrowIndex c 1 prevIndex)
  = at_ (selectable (menuOptions c)) 0
  /\ at_ (refs (menuOptions c)) (arrowIndex c (-1) prevIndex)
     = at_ (selectable (menuOptions c)) (Z.max (len (selectable (menuOptions c)) - 2) 0).
Proof.
  intros Hout Hsel.
  set (o := menuOptions c) in *. set (sel := selectable o) in *.
  assert (Hn : 0 < len sel).
  { destruct sel; [contradiction|]. rewrite len_cons. pose proof (len_nonneg sel). lia. }
  assert (Hcur : findIndex (fun opt => sameObject opt (at_ (refs o) prevIndex)) sel = -1).
  { apply findIndex_absent. intros r Hr Hin. apply selectable_in in Hin as [_ Hin].
    rewrite (Hout r Hr) in Hin. discriminate. }
  assert (Hgo : forall d k, rem (-1 + d + len sel) (len sel) = k -> 0 <= k < len sel ->
            at_ (refs o) (arrowIndex c d prevIndex) = at_ sel k).
  { intros d k Hrem Hk. rewrite arrowIndex_unfold. cbv zeta. fold o. fold sel.
    replace (len sel =? 0) with false by (symmetry; apply Z.eqb_neq; lia).
    destruct (len (refs o) =? 0) eqn:Hrefs.
    { apply len_zero in Hrefs. exfalso. apply Hsel. unfold sel, selectable.
      now rewrite Hrefs. }
    rewrite Hcur, Hrem.
    destruct (at_in_range sel k Hk) as (r & Hr & Hin). rewrite Hr.
    apply selectable_in in Hin as [Hin _].
    destruct (findIndex_member (refs o) r Hin) as (j & -> & Hj).
    now rewrite at_of_nat. }
  split.
  - apply Hgo; [|lia]. unfold rem.
    replace (-1 + 1 + len sel) with (len sel) by lia. apply Z.rem_same. lia.
  - apply Hgo; [|lia]. unfold rem.
    destruct (Z.eq_dec (len sel) 1) as [-> | Hne]; [reflexivity|].
    replace (Z.max (len sel - 2) 0) with (len sel - 2) by lia.
    replace (-1 + -1 + len sel) with (len sel - 2) by lia.
    apply Z.rem_small. lia.
Qed.

(** X17: the markup of a text without [@] holds no [mark] element: it is the
    text with a final newline doubled and [<], [>] and [&] escaped. *)
Theorem highlight_without_mention (text : jsstring) :
  ~ In 64%N text ->
  highlightHTML text = escapeHTML (doubleFinalNewline text).
Proof.
  intros Hat. unfold highlightHTML. cbv zeta.
  assert (Hno : ~ In 64%N (escapeHTML (doubleFinalNewline text))).
  { apply escapeHTML_no_at. destruct (doubleFinalNewline_cases text) as [-> | ->];
      [assumption|]. intros H. apply in_app_or in H as [H | [H | []]];
      [contradiction | discriminate]. }
  revert Hno. generalize (escapeHTML (doubleFinalNewline text)). intros e Hno.
  transitivity (replaceMentions (List.length (e ++ [])) (e ++ []));
    [now rewrite app_nil_r|].
  rewrite replaceMentions_before_at by (assumption || lia).
  cbn. apply app_nil_r.
Qed.

End ChatTextArea.

(** ** The handlers on concrete inputs

    The handlers run with the helpers of [MentionContext]. *)

Abbreviation handleMentionSelect_ :=
  (handleMentionSelect MentionContext.insertMention MentionContext.toLowerCase).
Abbreviation handleKeyDown_ :=
  (handleKeyDown MentionContext.getContextMenuOptions MentionContext.insertMention
     MentionContext.removeMention MentionContext.toLowerCase).
Abbreviation menuOptions_ := (menuOptions MentionContext.getContextMenuOptions).
Abbreviation step_ :=
  (step MentionContext.getContextMenuOptions MentionContext.insertMention
     MentionContext.removeMention MentionContext.shouldShowContextMenu 20
     MentionContext.toLowerCase MentionContext.readAsDataURL).
Abbreviation presses_ :=
  (presses MentionContext.getContextMenuOptions MentionContext.insertMention
     MentionContext.removeMention MentionContext.shouldShowContextMenu 20
     MentionContext.toLowerCase MentionContext.readAsDataURL).
Abbreviation reachable_ :=
  (reachable MentionContext.getContextMenuOptions MentionContext.insertMention
     MentionContext.removeMention MentionContext.shouldShowContextMenu 20
     MentionContext.toLowerCase MentionContext.readAsDataURL).

Example str_units : str "@a" = [64%N; 97%N].
Proof. reflexivity. Qed.

Example slice_negative_end : slice (str "abc") 0 (-1) = str "ab".
Proof. reflexivity. Qed.

Example split_mime_type : split 47%N (str "image/png") = [str "image"; str "png"].
Proof. reflexivity. Qed.

Example mention_pattern :
  matchMentionAtEnd (str "see @/src/a.ts") = true
  /\ matchMentionAtEnd (str "see @https://a.b/c") = true
  /\ matchMentionAtEnd (str "@problems") = true
  /\ matchMentionAtEnd (str "see @/src/a.ts ") = false
  /\ matchMentionAtEnd (str "see @src") = false.
Proof. repeat split; reflexivity. Qed.

(** The specification's example of the atomic deletion: with the cursor
    just after the space that follows the mention, a first Backspace moves
    the cursor before the space and keeps the text, and a second Backspace
    removes the whole mention. *)
Example atomic_deletion :
  let s0 := editing (str "see @/src/a.ts for ref") 15 false [] (-1) in
  let s1 := step_ s0 (KeyDown (keyEvent "Backspace")) in
  let s2 := step_ s1 (KeyDown (keyEvent "Backspace")) in
  inputValue s1 = str "see @/src/a.ts for ref"
  /\ cursorPosition s1 = 14
  /\ justDeletedSpaceAfterMention s1 = true
  /\ inputValue s2 = str "see  for ref"
  /\ option_map DOM.selectionStart (textAreaRef s2) = Some 4
  /\ justDeletedSpaceAfterMention s2 = false.
Proof. vm_compute. repeat split; reflexivity. Qed.

(** C1, the claim as stated fails: in the text [@ cc bob@x.org] with the
    cursor after the first [@], selecting [file.txt] gives the text
    [@file.txt  cc bob@x.org]; the inserted token starts at offset 0 and the
    offset one past its space is 10, yet the cursor and the deferred cursor
    target are 0, since the last [@] of the text is the one of the address
    and no space follows it. *)
Lemma select_cursor_off_token :
  let c := editing (str "@ cc bob@x.org") 1 true [] 3 in
  let s' := fst (exec (fun c => handleMentionSelect_ c (str "file") (str "file.txt")) c) in
  inputValue s' = [] ++ str "@" ++ str "file.txt" ++ str " " ++ str " cc bob@x.org"
  /\ len ([] ++ str "@" ++ str "file.txt" ++ str " ") = 10
  /\ cursorPosition s' = 0
  /\ intendedCursorPosition s' = Some 0
  /\ cursorPosition s' <> 10.
Proof. vm_compute. repeat split; try reflexivity. discriminate. Qed.

(** The same for a path that holds a space: the cursor lands inside the
    inserted token. *)
Example select_cursor_inside_token :
  let c := editing (str "see @my") 7 true (str "my") 0 in
  let s' := fst (exec (fun c => handleMentionSelect_ c (str "file") (str "/my docs/a.txt")) c) in
  inputValue s' = str "see @/my docs/a.txt "
  /\ cursorPosition s' = 9
  /\ intendedCursorPosition s' = Some 9.
Proof. vm_compute. repeat split; reflexivity. Qed.

(** C1, the amended claim at work: selecting [/src/a.ts] for [see @a] puts
    the cursor and the deferred cursor target at 15, one past the space
    that follows [@/src/a.ts]. *)
Lemma select_places_cursor_witness :
  let c := editing (str "see @a") 6 true (str "a") 0 in
  let s' := fst (exec (fun c => handleMentionSelect_ c (str "file") (str "/src/a.ts")) c) in
  inputValue s' = str "see @/src/a.ts "
  /\ cursorPosition s' = 15
  /\ intendedCursorPosition s' = Some 15
  /\ 15 = len (str "see ") + 1 + len (str "/src/a.ts") + 1.
Proof.
  pose proof (select_places_cursor MentionContext.insertMention MentionContext.toLowerCase
                (editing (str "see @a") 6 true (str "a") 0) (str "file") (str "/src/a.ts")
                {| DOM.value := str "see @a"; DOM.selectionStart := 6; DOM.selectionEnd := 6 |}
                ltac:(discriminate) ltac:(discriminate) eq_refl) as H.
  cbv zeta in H. destruct H as (H1 & H2 & H3 & H4).
  split; [exact H1|]. split; [exact H2|]. split; [exact H3|].
  apply (H4 (str "see ") []).
  - reflexivity.
  - cbn. intros H. repeat (destruct H as [H | H]; [discriminate|]). exact H.
  - intros [].
Defined.

(** C2, the code at the failing input: in [@/a  x] with the cursor at 4,
    between the two spaces, the character before the cursor is a space that
    follows the mention [@/a] and the character after the cursor is a space
    too, yet Backspace is intercepted: the default is prevented and the
    cursor moves to 3. *)
Lemma backspace_intercepted_before_space :
  let c := editing (str "@/a  x") 4 false [] (-1) in
  let r := exec (fun c => handleKeyDown_ c (keyEvent "Backspace")) c in
  isWhitespace (at_ (inputValue c) (cursorPosition c - 1)) = true
  /\ matchMentionAtEnd (slice (inputValue c) 0 (cursorPosition c - 1)) = true
  /\ isWhitespace (at_ (inputValue c) (cursorPosition c)) = true
  /\ snd r = [preventDefault]
  /\ cursorPosition (fst r) = 3
  /\ justDeletedSpaceAfterMention (fst r) = true.
Proof. vm_compute. repeat split; reflexivity. Qed.

(** Conversely, in [@/a x y] with the cursor at 4 the character after the
    cursor is no white space, yet the native deletion goes on, since the
    character at offset 5 is a space. *)
Example backspace_native_before_letter :
  let c := editing (str "@/a x y") 4 false [] (-1) in
  let r := exec (fun c => handleKeyDown_ c (keyEvent "Backspace")) c in
  isWhitespace (at_ (inputValue c) (cursorPosition c)) = false
  /\ snd r = []
  /\ cursorPosition (fst r) = 3.
Proof. vm_compute. repeat split; reflexivity. Qed.



(** C4, the claim as stated fails.  With the file [src/a.ts] in the
    workspace, typing [@a.ts] opens the menu on the single candidate
    [/src/a.ts]; Escape then puts the highlighted index on 3; one candidate
    is selectable, and one ArrowDown leaves the index at 0, not at 3.  And
    typing [@zzz] opens the menu on no candidate with the index 0, where
    ArrowDown leaves it: it is not [-1]. *)
Lemma arrow_down_does_not_return :
  let typed := step_ mounted (Change (str "@a.ts") 5) in
  let escaped := step_ typed (KeyDown (keyEvent "Escape")) in
  let none := step_ mounted (Change (str "@zzz") 4) in
  showContextMenu escaped = true
  /\ List.length (selectable (menuOptions_ escaped)) = 1%nat
  /\ selectedMenuIndex escaped = 3
  /\ selectedMenuIndex (presses_ (keyEvent "ArrowDown") 1 escaped) = 0
  /\ showContextMenu none = true
  /\ refs (menuOptions_ none) = []
  /\ selectedMenuIndex none = 0
  /\ selectedMenuIndex (step_ none (KeyDown (keyEvent "ArrowDown"))) = 0.
Proof. vm_compute. repeat split; reflexivity. Qed.

(** C4, the amended claim at work: typing [@s] opens the menu on the two
    candidates [problems] and [/src/a.ts] with the first highlighted, and
    two presses of ArrowDown bring the highlight back to it. *)
Lemma arrows_cycle_witness :
  let typed := step_ mounted (Change (str "@s") 2) in
  List.length (selectable (menuOptions_ typed)) = 2%nat
  /\ selectedMenuIndex (presses_ (keyEvent "ArrowDown") 2 typed) = selectedMenuIndex typed.
Proof.
  cbv zeta. split; [reflexivity|].
  destruct (arrows_cycle_selectable MentionContext.getContextMenuOptions
              MentionContext.insertMention MentionContext.removeMention
              MentionContext.shouldShowContextMenu 20 MentionContext.toLowerCase
              MentionContext.readAsDataURL
              (step_ mounted (Change (str "@s") 2)) (keyEvent "ArrowDown") 1
              eq_refl (or_intror (conj eq_refl eq_refl)))
    as (_ & _ & _ & _ & _ & H).
  apply (H eq_refl) with (r := 0%nat).
  - vm_compute. repeat constructor; simpl; intuition discriminate.
  - reflexivity.
  - vm_compute. now left.
Defined.

(** C5 at work.  Typing [@http://a.b] opens the menu with a [url] candidate
    under the highlight: Enter prevents the default and commits nothing.
    After a blur the menu is hidden and the index still designates the
    [url] candidate: Enter is the key that the menu lets through, it sends
    the message and leaves the text as it is.  And with [/src/a.ts]
    highlighted, Enter commits it. *)
Lemma url_not_committed_witness :
  let enter := keyEvent "Enter" in
  let typed := step_ mounted (Change (str "@http://a.b") 11) in
  let hidden := step_ typed Blur in
  let file := step_ mounted (Change (str "@a.ts") 5) in
  (showContextMenu typed = true
   /\ option_map (fun r => type (object (menuOptions_ typed) r))
                 (at_ (refs (menuOptions_ typed)) (selectedMenuIndex typed))
      = Some (str "url")
   /\ exec (fun c => handleKeyDown_ c enter) typed = (typed, [preventDefault]))
  /\ (showContextMenu hidden = false
      /\ option_map (fun r => type (object (menuOptions_ hidden) r))
                    (at_ (refs (menuOptions_ hidden)) (selectedMenuIndex hidden))
         = Some (str "url")
      /\ exec (fun c => handleKeyDown_ c enter) hidden
         = exec (fun c => sendOrDelete MentionContext.removeMention c enter) hidden
      /\ exec (fun c => handleKeyDown_ c enter) hidden = (hidden, [preventDefault; onSend]))
  /\ (exec (fun c => handleKeyDown_ c enter) file
      = exec (fun c => call preventDefault ;;
                       handleMentionSelect_ c (str "file") (str "/src/a.ts")) file
      /\ inputValue (fst (exec (fun c => handleKeyDown_ c enter) file)) = str "@/src/a.ts "
      /\ In focus (snd (exec (fun c => handleKeyDown_ c enter) file))).
Proof.
  cbv zeta. split; [|split].
  - split; [reflexivity|]. split; [reflexivity|].
    destruct (url_not_committed_by_keyboard MentionContext.getContextMenuOptions
                MentionContext.insertMention MentionContext.removeMention
                MentionContext.toLowerCase
                (step_ mounted (Change (str "@http://a.b") 11)) (keyEvent "Enter"))
      as (_ & _ & _ & _ & Henter & _).
    destruct (Henter eq_refl eq_refl ltac:(discriminate)) as (_ & Hurl & _).
    exact (Hurl 0%nat eq_refl eq_refl).
  - split; [reflexivity|]. split; [reflexivity|].
    destruct (url_not_committed_by_keyboard MentionContext.getContextMenuOptions
                MentionContext.insertMention MentionContext.removeMention
                MentionContext.toLowerCase
                (step_ (step_ mounted (Change (str "@http://a.b") 11)) Blur)
                (keyEvent "Enter"))
      as (_ & Hhidden & _).
    split; [apply Hhidden; vm_compute; reflexivity | vm_compute; reflexivity].
  - destruct (url_not_committed_by_keyboard MentionContext.getContextMenuOptions
                MentionContext.insertMention MentionContext.removeMention
                MentionContext.toLowerCase
                (step_ mounted (Change (str "@a.ts") 5)) (keyEvent "Enter"))
      as (_ & _ & _ & _ & Henter & _).
    destruct (Henter eq_refl eq_refl ltac:(discriminate)) as (Hcommit & _ & _).
    split; [exact (Hcommit 0%nat eq_refl ltac:(discriminate))|].
    split; [reflexivity|]. vm_compute. tauto.
Defined.

(** A [url] candidate under the highlight: Enter prevents the default and
    commits nothing. *)
Example enter_on_url_commits_nothing :
  let typed := step_ mounted (Change (str "@http://a.b") 11) in
  option_map (fun r => type (object (menuOptions_ typed) r))
             (at_ (refs (menuOptions_ typed)) (selectedMenuIndex typed))
  = Some (str "url")
  /\ exec (fun c => handleKeyDown_ c (keyEvent "Enter")) typed = (typed, [preventDefault]).
Proof. vm_compute. split; reflexivity. Qed.

(** C6 at work: selecting the [file] category keeps the menu open on that
    category, and selecting [problems] closes it and inserts [@problems]. *)
Lemma select_category_witness :
  let typed := step_ mounted (Change (str "@") 1) in
  let scoped := fst (exec (fun c => handleMentionSelect_ c (str "file") (str "file")) typed) in
  let closed := fst (exec (fun c => handleMentionSelect_ c (str "problems") (str "problems")) typed) in
  selectedType scoped = Some (str "file")
  /\ searchQuery scoped = str ""
  /\ selectedMenuIndex scoped = 0
  /\ showContextMenu scoped = true
  /\ inputValue scoped = str "@"
  /\ showContextMenu closed = false
  /\ selectedType closed = None
  /\ inputValue closed = str "@problems ".
Proof.
  destruct (select_category_or_insert MentionContext.insertMention MentionContext.toLowerCase
              (step_ mounted (Change (str "@") 1)) (str "file") (str "file")
              eq_refl eq_refl) as (H1 & _).
  destruct (select_category_or_insert MentionContext.insertMention MentionContext.toLowerCase
              (step_ mounted (Change (str "@") 1)) (str "problems") (str "problems")
              eq_refl eq_refl) as (_ & H2).
  destruct (H1 (or_introl eq_refl)) as (_ & Ht & Hq & Hi & Hs & Hv & _).
  destruct H2 as (Hc & Hn & Hins); try discriminate.
  destruct (Hins _ eq_refl) as (Hval & _).
  cbv zeta. split; [exact (Ht eq_refl)|]. split; [exact Hq|]. split; [exact Hi|].
  split; [exact Hs|]. split; [exact Hv|]. split; [exact Hc|]. split; [exact Hn | exact Hval].
Defined.

(** C7 at work: of a PNG, a GIF, a text and a JPEG that cannot be read,
    only the PNG is added; with two images present and a cap of two, the
    list stays as it is. *)
Lemma paste_witness :
  selectedImages (apply (handlePaste 20 MentionContext.readAsDataURL mounted clipboard) mounted)
  = [str "data:image/png;base64,AAAA"]
  /\ selectedImages
       (apply (handlePaste 2 MentionContext.readAsDataURL mounted clipboard)
              (hostProps [] [str "a"; str "b"] false [] mounted))
     = [str "a"; str "b"].
Proof.
  destruct (paste_appends_accepted_images 20 MentionContext.readAsDataURL mounted mounted
              clipboard eq_refl ltac:(discriminate)) as (_ & _ & _ & H1 & _).
  destruct (paste_appends_accepted_images 2 MentionContext.readAsDataURL mounted
              (hostProps [] [str "a"; str "b"] false [] mounted)
              clipboard eq_refl ltac:(discriminate)) as (_ & _ & _ & _ & H2).
  split; [exact H1|]. apply H2. discriminate.
Defined.

(** The specification's example of the paste filter: of the types
    [image/png], [image/gif] and [text/plain] only the first is read. *)
Example paste_filter :
  map itemType (filter isAcceptedImage clipboard) = [str "image/png"; str "image/jpeg"]
  /\ isAcceptedImage {| itemType := str "image/gif"; getAsFile := Some 2%nat |} = false
  /\ isAcceptedImage {| itemType := str "text/plain"; getAsFile := None |} = false.
Proof. repeat split; reflexivity. Qed.

(** C8 at work: with the menu open on the [file] category, Escape clears
    the category and highlights slot 3, and the menu stays open. *)
Lemma escape_witness :
  let typed := step_ mounted (Change (str "@") 1) in
  let scoped := step_ typed (MenuSelect (str "file") (str "file")) in
  let r := exec (fun c => handleKeyDown_ c (keyEvent "Escape")) scoped in
  selectedType scoped = Some (str "file")
  /\ selectedType (fst r) = None
  /\ selectedMenuIndex (fst r) = 3
  /\ showContextMenu (fst r) = true
  /\ snd r = [].
Proof.
  destruct (escape_resets_category MentionContext.getContextMenuOptions
              MentionContext.insertMention MentionContext.removeMention
              MentionContext.toLowerCase
              (step_ (step_ mounted (Change (str "@") 1)) (MenuSelect (str "file") (str "file")))
              (keyEvent "Escape") eq_refl eq_refl)
    as (Ht & Hi & Hs & _ & _ & _ & Hc).
  cbv zeta. split; [reflexivity|]. split; [exact Ht|]. split; [exact Hi|].
  split; [exact Hs | exact Hc].
Defined.

(** C9 at work: the menu opened with [@], scoped to the [file] category and
    then hidden by a blur has no category filter. *)
Lemma hidden_menu_witness :
  let typed := step_ mounted (Change (str "@") 1) in
  let scoped := step_ typed (MenuSelect (str "file") (str "file")) in
  let blurred := step_ scoped Blur in
  selectedType scoped = Some (str "file")
  /\ showContextMenu blurred = false
  /\ selectedType blurred = None.
Proof.
  cbv zeta. split; [reflexivity|]. split; [reflexivity|].
  apply (hidden_menu_has_no_category MentionContext.getContextMenuOptions
           MentionContext.insertMention MentionContext.removeMention
           MentionContext.shouldShowContextMenu 20 MentionContext.toLowerCase
           MentionContext.readAsDataURL).
  - apply reachable_step; [|reflexivity].
    apply reachable_step; [|reflexivity].
    apply reachable_step; [|reflexivity].
    apply reachable_initial. repeat split; reflexivity.
  - reflexivity.
Defined.

(** C10 at work: with the menu open and nothing highlighted, Enter sends. *)
Lemma enter_sends_witness :
  let typed := step_ mounted (Change (str "@a.ts") 5) in
  let cleared := step_ typed (MenuSetSelectedIndex (-1)) in
  showContextMenu cleared = true
  /\ exec (fun c => handleKeyDown_ c (keyEvent "Enter")) cleared
     = (cleared, [preventDefault; onSend]).
Proof.
  cbv zeta. split; [reflexivity|].
  apply (enter_without_highlight_sends MentionContext.getContextMenuOptions
           MentionContext.insertMention MentionContext.removeMention
           MentionContext.toLowerCase); reflexivity.
Defined.

(** The Backspace policy on the specification's example: the cursor is just
    after the space that follows [@/src/a.ts] and a letter follows; the
    Backspace is intercepted, the cursor moves before the space and the flag
    is set. *)
Lemma backspace_on_separator_witness :
  let c := editing (str "see @/src/a.ts for ref") 15 false [] (-1) in
  let r := exec (fun c => handleKeyDown_ c (keyEvent "Backspace")) c in
  cursorPosition (fst r) = 14
  /\ justDeletedSpaceAfterMention (fst r) = true
  /\ inputValue (fst r) = str "see @/src/a.ts for ref"
  /\ snd r = [preventDefault].
Proof.
  destruct (backspace_on_separator MentionContext.getContextMenuOptions
              MentionContext.insertMention MentionContext.removeMention
              MentionContext.toLowerCase
              (editing (str "see @/src/a.ts for ref") 15 false [] (-1))
              (keyEvent "Backspace") eq_refl eq_refl eq_refl eq_refl)
    as (Hc & Hf & Hv & _ & Hcalls).
  cbv zeta. split; [exact Hc|]. split; [exact Hf|]. split; [exact Hv | exact Hcalls].
Defined.

(** ** The further properties on concrete inputs *)

Ltac not_in :=
  cbn; let H := fresh in intros H; repeat (destruct H as [H | H]; [discriminate|]); exact H.

(** X3 at work: the mention of [see @/src/a.ts for ref] is wrapped whole. *)
Lemma highlight_wraps_path_witness :
  highlightHTML (str "see " ++ str "@/" ++ str "src/a.ts" ++ str " for ref")
  = escapeHTML (str "see ") ++ markOpen ++ str "@/" ++ escapeHTML (str "src/a.ts")
    ++ markClose ++ highlightHTML (str " for ref").
Proof.
  apply highlight_wraps_path.
  - not_in.
  - discriminate.
  - reflexivity.
  - right. exists 32%N, (str "for ref"). split; reflexivity.
Defined.

(** X5 at work: a Backspace has stepped over the separator of
    [see @/src/a.ts for ref]; the user then types an [x] at the cursor and
    the flag is still set. *)
Lemma flag_outlives_typing_witness :
  let s := afterSeparator (editing (str "see @/src/a.ts for ref") 14 false [] (-1)) in
  justDeletedSpaceAfterMention (step_ s (Change (str "see @/src/a.tsx for ref") 15))
  = justDeletedSpaceAfterMention s.
Proof.
  cbv zeta.
  apply (flag_outlives_other_events MentionContext.getContextMenuOptions
           MentionContext.insertMention MentionContext.removeMention
           MentionContext.shouldShowContextMenu 20 MentionContext.toLowerCase
           MentionContext.readAsDataURL).
  reflexivity.
Defined.

(** With the flag still set, the Backspace that follows the typed [x]
    removes the whole mention and not the [x] alone. *)
Example backspace_after_typing_removes_mention :
  let s := afterSeparator (editing (str "see @/src/a.ts for ref") 14 false [] (-1)) in
  let typed := step_ s (Change (str "see @/src/a.tsx for ref") 15) in
  inputValue (step_ typed (KeyDown (keyEvent "Backspace"))) = str "see  for ref".
Proof. vm_compute. reflexivity. Qed.

(** X6 at work: after a mouse button went down on the menu, a blur leaves
    the menu shown. *)
Lemma mouse_down_on_menu_witness :
  let s := step_ (step_ mounted (Change (str "@") 1)) MenuMouseDown in
  isMouseDownOnMenu (step_ s Blur) = true
  /\ showContextMenu (step_ s Blur) = showContextMenu s.
Proof.
  cbv zeta.
  apply (mouse_down_on_menu_sticks MentionContext.getContextMenuOptions
           MentionContext.insertMention MentionContext.removeMention
           MentionContext.shouldShowContextMenu 20 MentionContext.toLowerCase
           MentionContext.readAsDataURL).
  reflexivity.
Defined.

(** X7 at work: after [@] has been typed and [problems] selected, no
    deferred cursor is left. *)
Lemma deferred_cursor_witness :
  let s := step_ (step_ mounted (Change (str "@") 1))
                 (MenuSelect (str "problems") (str "problems")) in
  inputValue s = str "@problems " /\ intendedCursorPosition s = None.
Proof.
  cbv zeta. split; [reflexivity|].
  apply (deferred_cursor_is_consumed MentionContext.getContextMenuOptions
           MentionContext.insertMention MentionContext.removeMention
           MentionContext.shouldShowContextMenu 20 MentionContext.toLowerCase
           MentionContext.readAsDataURL).
  - apply reachable_step; [|reflexivity].
    apply reachable_step; [|reflexivity].
    apply reachable_initial. repeat split; reflexivity.
  - reflexivity.
Defined.

(** X8 at work: selecting [/src/a.ts] for [see @a] leaves the text area
    with [see @/src/a.ts ] and the cursor at 15. *)
Lemma select_then_render_witness :
  let s := editing (str "see @a") 6 true (str "a") 0 in
  let s' := step_ s (MenuSelect (str "file") (str "/src/a.ts")) in
  textAreaRef s' = Some {| DOM.value := str "see @/src/a.ts ";
                           DOM.selectionStart := 15;
                           DOM.selectionEnd := 15 |}
  /\ inputValue s' = str "see @/src/a.ts "
  /\ cursorPosition s' = 15
  /\ intendedCursorPosition s' = None
  /\ showContextMenu s' = false
  /\ selectedType s' = None.
Proof.
  exact (select_then_render MentionContext.getContextMenuOptions
           MentionContext.insertMention MentionContext.removeMention
           MentionContext.shouldShowContextMenu 20 MentionContext.toLowerCase
           MentionContext.readAsDataURL
           (editing (str "see @a") 6 true (str "a") 0) (str "file") (str "/src/a.ts")
           {| DOM.value := str "see @a"; DOM.selectionStart := 6; DOM.selectionEnd := 6 |}
           ltac:(discriminate) ltac:(discriminate) eq_refl eq_refl).
Defined.

(** X9 at work: on the candidates [problems] and [/src/a.ts] of the query
    [s], with [problems] highlighted, ArrowUp then ArrowDown and ArrowDown
    then ArrowUp come back to it. *)
Lemma arrow_up_down_cancel_witness :
  let s := editing (str "@s") 2 true (str "s") 0 in
  selectedMenuIndex (step_ (step_ s (KeyDown (keyEvent "ArrowUp")))
                           (KeyDown (keyEvent "ArrowDown"))) = selectedMenuIndex s
  /\ selectedMenuIndex (step_ (step_ s (KeyDown (keyEvent "ArrowDown")))
                              (KeyDown (keyEvent "ArrowUp"))) = selectedMenuIndex s.
Proof.
  cbv zeta.
  apply (arrow_up_down_cancel MentionContext.getContextMenuOptions
           MentionContext.insertMention MentionContext.removeMention
           MentionContext.shouldShowContextMenu 20 MentionContext.toLowerCase
           MentionContext.readAsDataURL) with (r := 0%nat).
  - reflexivity.
  - reflexivity.
  - reflexivity.
  - vm_compute. repeat constructor; simpl; intuition discriminate.
  - reflexivity.
  - vm_compute. now left.
Defined.

(** X11 at work: in [a@b@cd] with the cursor at the end the query is [cd]. *)
Lemma query_has_no_at_witness :
  (~ In 64%N
       (searchQuery
          (fst (exec (fun c => handleInputChange MentionContext.shouldShowContextMenu c
                                 (str "a@b@cd") 6) mounted))))
  /\ searchQuery
       (fst (exec (fun c => handleInputChange MentionContext.shouldShowContextMenu c
                              (str "a@b@cd") 6) mounted)) = str "cd".
Proof.
  split; [|reflexivity].
  apply (query_has_no_at MentionContext.shouldShowContextMenu). discriminate.
Defined.

(** X12 at work: typing [see @a.ts] stores the query [a.ts]. *)
Lemma typed_query_witness :
  let newValue := str "see " ++ str "@" ++ str "a.ts" ++ [] in
  let newCursorPosition := len (str "see ") + 1 + len (str "a.ts") in
  let s' := fst (exec (fun c => handleInputChange MentionContext.shouldShowContextMenu c
                                  newValue newCursorPosition) mounted) in
  inputValue s' = newValue
  /\ cursorPosition s' = newCursorPosition
  /\ showContextMenu s' = MentionContext.shouldShowContextMenu newValue newCursorPosition
  /\ (MentionContext.shouldShowContextMenu newValue newCursorPosition = true ->
      searchQuery s' = str "a.ts"
      /\ selectedMenuIndex s' = match str "a.ts" with [] => 3 | _ => 0 end)
  /\ (MentionContext.shouldShowContextMenu newValue newCursorPosition = false ->
      searchQuery s' = [] /\ selectedMenuIndex s' = -1).
Proof.
  apply (typed_query_is_stored MentionContext.shouldShowContextMenu mounted
           (str "see ") (str "a.ts") []).
  not_in.
Defined.

(** X13 at work: the two Backspaces on [see @/src/a.ts for ref]. *)
Lemma two_backspaces_witness :
  let s := editing (str "see @/src/a.ts for ref") 15 false [] (-1) in
  let s1 := step_ s (KeyDown (keyEvent "Backspace")) in
  let s2 := step_ s1 (KeyDown (keyEvent "Backspace")) in
  inputValue s1 = str "see @/src/a.ts for ref"
  /\ cursorPosition s1 = 14
  /\ inputValue s2 = str "see  for ref"
  /\ justDeletedSpaceAfterMention s2 = false
  /\ textAreaRef s2 = Some {| DOM.value := str "see  for ref";
                              DOM.selectionStart := 4;
                              DOM.selectionEnd := 4 |}.
Proof.
  destruct (two_backspaces_remove_mention MentionContext.getContextMenuOptions
              MentionContext.insertMention MentionContext.removeMention
              MentionContext.shouldShowContextMenu 20 MentionContext.toLowerCase
              MentionContext.readAsDataURL
              (editing (str "see @/src/a.ts for ref") 15 false [] (-1))
              (keyEvent "Backspace")
              {| DOM.value := str "see @/src/a.ts for ref";
                 DOM.selectionStart := 15; DOM.selectionEnd := 15 |}
              eq_refl eq_refl eq_refl eq_refl eq_refl eq_refl eq_refl)
    as (H1 & H2 & _ & _ & H5 & H6 & _ & H8).
  cbv zeta. split; [exact H1|]. split; [exact H2|]. split; [exact H5|].
  split; [exact H6|]. apply H8. vm_compute. discriminate.
Defined.

(** X14 at work: a Backspace at the end of [abc] is left to the browser. *)
Lemma plain_backspace_witness :
  exec (fun c => handleKeyDown_ c (keyEvent "Backspace"))
       (editing (str "abc") 3 false [] (-1))
  = (editing (str "abc") 3 false [] (-1), []).
Proof.
  apply (plain_backspace_is_native MentionContext.getContextMenuOptions
           MentionContext.insertMention MentionContext.removeMention
           MentionContext.toLowerCase); reflexivity.
Defined.

(** X15 at work: Enter during a composition, the menu hidden, sends
    nothing. *)
Lemma composing_enter_witness :
  let event := {| key := str "Enter"; shiftKey := false;
                  nativeEvent := Some {| isComposing := Some true |} |} in
  exec (fun c => handleKeyDown_ c event) (editing (str "abc") 3 false [] (-1))
  = (editing (str "abc") 3 false [] (-1), []).
Proof.
  cbv zeta.
  apply (composing_keys_do_nothing MentionContext.getContextMenuOptions
           MentionContext.insertMention MentionContext.removeMention
           MentionContext.toLowerCase); [reflexivity | now left].
Defined.

(** X16 at work: on the single candidate [/src/a.ts] with the index on 3,
    both arrows highlight that candidate. *)
Lemma arrows_from_outside_witness :
  let c := editing (str "@a.ts") 5 true (str "a.ts") 3 in
  at_ (refs (menuOptions_ c)) (arrowIndex MentionContext.getContextMenuOptions c 1 3)
  = at_ (selectable (menuOptions_ c)) 0
  /\ at_ (refs (menuOptions_ c)) (arrowIndex MentionContext.getContextMenuOptions c (-1) 3)
     = at_ (selectable (menuOptions_ c)) (Z.max (len (selectable (menuOptions_ c)) - 2) 0).
Proof.
  cbv zeta.
  apply (arrows_from_outside MentionContext.getContextMenuOptions
           (editing (str "@a.ts") 5 true (str "a.ts") 3) 3).
  - intros r H. vm_compute in H. discriminate.
  - vm_compute. discriminate.
Defined.

(** X17 at work: [a < b] holds no mention. *)
Lemma highlight_without_mention_witness :
  highlightHTML (str "a < b") = escapeHTML (doubleFinalNewline (str "a < b"))
  /\ highlightHTML (str "a < b") = str "a &lt; b".
Proof.
  split; [|reflexivity]. apply highlight_without_mention. not_in.
Defined.

(** The markup of a text with two mentions and reserved characters. *)
Example highlight_example :
  highlightHTML (str "see @/src/a.ts & @problems, <b>")
  = str "see " ++ markOpen ++ str "@/src/a.ts" ++ markClose ++ str " &amp; "
    ++ markOpen ++ str "@problems" ++ markClose ++ str ", &lt;b&gt;".
Proof. reflexivity. Qed.
